(** * GitLab DevOps metrics: the aggregation and scoring engine

    A shallow embedding of [src/project/mcp_main.py]: the remote fetcher
    [make_gitlab_request], the DORA derivation [get_dora_metrics], the age
    histogram of [analyze_issues] and the scoring of [project_health_report].

    Conventions of the embedding.
    - A JSON object is a [gmap string json]; the list endpoints of GitLab
      answer with an array of objects ([list record]) and the project endpoint
      with one object ([record]).
    - A Python exception is a value [Raise e] of the error monad [result].
    - Python's [float] results of [/] are kept as exact rationals ([Q]); the
      rounding of the binary representation is not modelled.
    - [datetime.fromisoformat], [datetime.strptime] and [strftime] belong to
      the Python library: the derivations are written over the class
      [PyDatetime], and the properties hold for every instance of it.  The
      module [Py] gives an executable instance for the timestamps GitLab
      emits, on which the sample data are run.
    - The reports are the values interpolated in the returned text; the
      layout of the text itself is not modelled. *)

From Stdlib Require Import ZArith QArith String Ascii List Lia.
From stdpp Require Import base option list gmap strings.
Import ListNotations.

Local Open Scope string_scope.
Local Open Scope Z_scope.

(** ** JSON values *)

#[local] Unset Elimination Schemes.
Inductive json : Type :=
| JNull
| JBool (b : bool)
| JNum (n : Z)
| JStr (s : string)
| JList (l : list json)
| JObj (m : gmap string json).
#[local] Set Elimination Schemes.

(** One remote entity (deployment, merge request, issue, pipeline, event). *)
Abbreviation record := (gmap string json).

(** Python truthiness, as used by [x or []], [if x] and [not x]. *)
Definition truthy (v : json) : bool :=
  match v with
  | JNull => false
  | JBool b => b
  | JNum n => negb (Z.eqb n 0)
  | JStr s => negb (String.eqb s EmptyString)
  | JList l => match l with [] => false | _ => true end
  | JObj m => match map_to_list m with [] => false | _ => true end
  end.

(** [d.get(k)] used as a condition: a missing key gives [None], which is falsy. *)
Definition get_truthy (d : record) (k : string) : bool :=
  match d !! k with
  | Some v => truthy v
  | None => false
  end.

(** [v == s] for a string literal [s]. *)
Definition is_str (v : json) (s : string) : bool :=
  match v with
  | JStr s' => String.eqb s' s
  | _ => false
  end.

(** [d.get(k) == s]: a missing key gives [None], which equals no string. *)
Definition get_is_str (d : record) (k s : string) : bool :=
  match d !! k with
  | Some v => is_str v s
  | None => false
  end.

(** [len(l)]. *)
Definition len {A : Type} (l : list A) : Z := Z.of_nat (length l).

(** [d.get(k, default)]. *)
Definition get_default (d : record) (k : string) (default : json) : json :=
  match d !! k with
  | Some v => v
  | None => default
  end.

(** [results[i] or []]: an absent result and an empty one both give []. *)
Definition or_empty {A : Type} (r : option (list A)) : list A :=
  match r with
  | Some (x :: l) => x :: l
  | _ => []
  end.

(** ** Exceptions *)

Inductive exn : Type :=
| KeyError (key : string)
| AttributeError
| TypeError
| ValueError.

Inductive result (A : Type) : Type :=
| Ok (a : A)
| Raise (e : exn).
Arguments Ok {A} a.
Arguments Raise {A} e.

#[global] Instance result_ret : MRet result := fun A a => Ok a.
#[global] Instance result_bind : MBind result := fun A B f m =>
  match m with
  | Ok a => f a
  | Raise e => Raise e
  end.
#[global] Instance result_fmap : FMap result := fun A B f m =>
  match m with
  | Ok a => Ok (f a)
  | Raise e => Raise e
  end.

Definition is_ok {A : Type} (m : result A) : bool :=
  match m with
  | Ok _ => true
  | Raise _ => false
  end.

(** [d[k]]: a missing key raises [KeyError]. *)
Definition getitem (d : record) (k : string) : result json :=
  match d !! k with
  | Some v => Ok v
  | None => Raise (KeyError k)
  end.

(** [d.get(k1, {}).get(k2, default)]: the inner [get] exists on objects only. *)
Definition get_in (d : record) (k1 k2 : string) (default : json) : result json :=
  match d !! k1 with
  | None => Ok default
  | Some (JObj m) => Ok (get_default m k2 default)
  | Some _ => Raise AttributeError
  end.

(** ** Dates and durations *)

Definition us_per_second : Z := 1000000.
Definition us_per_hour : Z := 3600 * us_per_second.
Definition us_per_day : Z := 24 * us_per_hour.

(** A [datetime]: the wall-clock fields as microseconds since the start of
    ordinal day 0, and the UTC offset (microseconds) of an aware value. *)
Record datetime : Type := mkDatetime {
  wall : Z;
  utcoffset : option Z
}.

(** [a - b] on datetimes, a [timedelta] in microseconds: mixing naive and
    aware operands raises [TypeError]. *)
Definition dt_sub (a b : datetime) : result Z :=
  match utcoffset a, utcoffset b with
  | None, None => Ok (wall a - wall b)
  | Some oa, Some ob => Ok ((wall a - oa) - (wall b - ob))
  | _, _ => Raise TypeError
  end.

(** [td.days]: whole days, rounded towards minus infinity. *)
Definition days (td : Z) : Z := td / us_per_day.

(** [td.total_seconds() / 3600]. *)
Definition total_hours (td : Z) : Q := inject_Z td / inject_Z us_per_hour.

(** [datetime.now().replace(tzinfo=timezone.utc)], from the local wall clock. *)
Definition now_utc (clock : Z) : datetime := mkDatetime clock (Some 0).

(** The naive midnight of an ordinal day, as [strptime(_, "%Y-%m-%d")] builds. *)
Definition midnight (ordinal : Z) : datetime := mkDatetime (ordinal * us_per_day) None.

(** [s.replace('Z', '+00:00')]: every occurrence is replaced. *)
Fixpoint replace_Z (s : string) : string :=
  match s with
  | EmptyString => EmptyString
  | String c rest =>
      if Ascii.eqb c "Z"%char then String.append "+00:00" (replace_Z rest)
      else String c (replace_Z rest)
  end.

(** ** An executable instance of the Python date library

    [Py.fromisoformat] follows the grammar of Python 3.7 to 3.10,
    [YYYY-MM-DD[*HH[:MM[:SS[.fff[fff]]]][+HH:MM]]]; [Py.strptime] and
    [Py.strftime] are the format ["%Y-%m-%d"].  [None] stands for
    [ValueError].  The calendar arithmetic is that of [datetime.py]. *)

Module Py.

Definition digit (c : ascii) : option Z :=
  let n := Z.of_nat (nat_of_ascii c) in
  if (48 <=? n) && (n <=? 57) then Some (n - 48) else None.

Fixpoint number_from (acc : Z) (cs : list ascii) : option Z :=
  match cs with
  | [] => Some acc
  | c :: rest =>
      match digit c with
      | Some d => number_from (10 * acc + d) rest
      | None => None
      end
  end.

(** [int(s)] on a non-empty run of ASCII digits. *)
Definition number (cs : list ascii) : option Z :=
  match cs with
  | [] => None
  | _ => number_from 0 cs
  end.

Definition is_leap (y : Z) : bool :=
  (y mod 4 =? 0) && (negb (y mod 100 =? 0) || (y mod 400 =? 0)).

Definition days_before_year (y : Z) : Z :=
  let p := y - 1 in p * 365 + p / 4 - p / 100 + p / 400.

Definition days_in_month (y m : Z) : Z :=
  if m =? 2 then (if is_leap y then 29 else 28)
  else if (m =? 4) || (m =? 6) || (m =? 9) || (m =? 11) then 30
  else 31.

Definition DAYS_BEFORE_MONTH : list Z :=
  [0; 0; 31; 59; 90; 120; 151; 181; 212; 243; 273; 304; 334].

Definition days_before_month (y m : Z) : Z :=
  nth (Z.to_nat m) DAYS_BEFORE_MONTH 0 + (if (2 <? m) && is_leap y then 1 else 0).

(** [_ymd2ord]: 0001-01-01 is day 1. *)
Definition ymd2ord (y m d : Z) : Z :=
  days_before_year y + days_before_month y m + d.

(** The range checks of the [date] constructor. *)
Definition check_date (y m d : Z) : option Z :=
  if (1 <=? y) && (y <=? 9999) && (1 <=? m) && (m <=? 12)
     && (1 <=? d) && (d <=? days_in_month y m)
  then Some (ymd2ord y m d) else None.

(** [_ord2ymd]. *)
Definition ord2ymd (ordinal : Z) : Z * Z * Z :=
  let n := ordinal - 1 in
  let n400 := n / 146097 in let n := n mod 146097 in
  let n100 := n / 36524 in let n := n mod 36524 in
  let n4 := n / 1461 in let n := n mod 1461 in
  let n1 := n / 365 in let n := n mod 365 in
  let year := n400 * 400 + 1 + n100 * 100 + n4 * 4 + n1 in
  if (n1 =? 4) || (n100 =? 4) then (year - 1, 12, 31)
  else
    let leapyear := (n1 =? 3) && (negb (n4 =? 24) || (n100 =? 3)) in
    let month := Z.shiftr (n + 50) 5 in
    let preceding :=
      nth (Z.to_nat month) DAYS_BEFORE_MONTH 0
      + (if (2 <? month) && leapyear then 1 else 0) in
    if n <? preceding then
      let month := month - 1 in
      let preceding :=
        preceding - (days_in_month 1 month
                     + (if (month =? 2) && leapyear then 1 else 0)) in
      (year, month, n - preceding + 1)
    else (year, month, n - preceding + 1).

Definition digit_char (d : Z) : ascii := ascii_of_nat (Z.to_nat (48 + d mod 10)).

Definition pad2 (n : Z) : string :=
  String (digit_char (n / 10)) (String (digit_char n) EmptyString).

Definition pad4 (n : Z) : string :=
  String (digit_char (n / 1000)) (String (digit_char (n / 100)) (pad2 n)).

(** [d.strftime("%Y-%m-%d")] for the date of ordinal [ordinal]. *)
Definition strftime (ordinal : Z) : string :=
  let '(y, m, d) := ord2ymd ordinal in
  String.append (pad4 y) (String.append "-" (String.append (pad2 m)
    (String.append "-" (pad2 d)))).

Fixpoint split_dash (cs : list ascii) : list (list ascii) :=
  match cs with
  | [] => [[]]
  | c :: rest =>
      if Ascii.eqb c "-"%char then [] :: split_dash rest
      else
        match split_dash rest with
        | [] => [[c]]
        | w :: ws => (c :: w) :: ws
        end
  end.

Definition short_number (cs : list ascii) : option Z :=
  if (length cs <=? 2)%nat then number cs else None.

(** [datetime.strptime(s, "%Y-%m-%d")]: the ordinal of the parsed date. *)
Definition strptime (s : string) : option Z :=
  match split_dash (list_ascii_of_string s) with
  | [[y1; y2; y3; y4]; ms; ds] =>
      match number [y1; y2; y3; y4], short_number ms, short_number ds with
      | Some y, Some m, Some d => check_date y m d
      | _, _, _ => None
      end
  | _ => None
  end.

Definition is_char (c : ascii) (x : ascii) : bool := Ascii.eqb c x.

(** [_parse_hh_mm_ss_ff]: hour, minute, second, microsecond. *)
Definition parse_hh_mm_ss_ff (cs : list ascii) : option (Z * Z * Z * Z) :=
  match cs with
  | [h1; h2] =>
      match number [h1; h2] with
      | Some h => Some (h, 0, 0, 0)
      | None => None
      end
  | [h1; h2; c1; m1; m2] =>
      match number [h1; h2], number [m1; m2] with
      | Some h, Some m => if is_char ":" c1 then Some (h, m, 0, 0) else None
      | _, _ => None
      end
  | h1 :: h2 :: c1 :: m1 :: m2 :: c2 :: s1 :: s2 :: frac =>
      match number [h1; h2], number [m1; m2], number [s1; s2] with
      | Some h, Some m, Some s =>
          if is_char ":" c1 && is_char ":" c2 then
            match frac with
            | [] => Some (h, m, s, 0)
            | dot :: ff =>
                if is_char "." dot then
                  match number ff with
                  | Some f =>
                      if (length ff =? 3)%nat then Some (h, m, s, f * 1000)
                      else if (length ff =? 6)%nat then Some (h, m, s, f)
                      else None
                  | None => None
                  end
                else None
            end
          else None
      | _, _, _ => None
      end
  | _ => None
  end.

Definition check_time (t : Z * Z * Z * Z) : option Z :=
  let '(h, m, s, f) := t in
  if (h <? 24) && (m <? 60) && (s <? 60)
  then Some (h * us_per_hour + m * 60 * us_per_second + s * us_per_second + f)
  else None.

(** The time string is cut at its first [-], or else at its first [+]. *)
Fixpoint cut_at (sign : ascii) (cs : list ascii) : option (list ascii * list ascii) :=
  match cs with
  | [] => None
  | c :: rest =>
      if Ascii.eqb c sign then Some ([], rest)
      else
        match cut_at sign rest with
        | Some (l, r) => Some (c :: l, r)
        | None => None
        end
  end.

Definition parse_offset (negative : bool) (tz : list ascii) : option Z :=
  if (length tz =? 5)%nat || (length tz =? 8)%nat || (length tz =? 15)%nat then
    match parse_hh_mm_ss_ff tz with
    | Some t =>
        match check_time t with
        | Some us => Some (if negative then - us else us)
        | None => None
        end
    | None => None
    end
  else None.

Definition parse_time (cs : list ascii) : option (Z * option Z) :=
  let timed (ts : list ascii) (off : option (option Z)) :=
    match parse_hh_mm_ss_ff ts, off with
    | Some t, Some o =>
        match check_time t with
        | Some us => Some (us, o)
        | None => None
        end
    | _, _ => None
    end in
  match cut_at "-" cs with
  | Some (ts, tz) => timed ts (option_map Some (parse_offset true tz))
  | None =>
      match cut_at "+" cs with
      | Some (ts, tz) => timed ts (option_map Some (parse_offset false tz))
      | None => timed cs (Some None)
      end
  end.

Definition parse_date (cs : list ascii) : option Z :=
  match cs with
  | [y1; y2; y3; y4; c1; m1; m2; c2; d1; d2] =>
      match number [y1; y2; y3; y4], number [m1; m2], number [d1; d2] with
      | Some y, Some m, Some d =>
          if is_char "-" c1 && is_char "-" c2 then check_date y m d else None
      | _, _, _ => None
      end
  | _ => None
  end.

(** [datetime.fromisoformat]. *)
Definition fromisoformat (s : string) : option datetime :=
  let cs := list_ascii_of_string s in
  match parse_date (firstn 10 cs) with
  | Some ordinal =>
      match skipn 10 cs with
      | [] => Some (midnight ordinal)
      | _sep :: ts =>
          match parse_time ts with
          | Some (us, off) => Some (mkDatetime (ordinal * us_per_day + us) off)
          | None => None
          end
      end
  | None => None
  end.

End Py.

(** ** Numbers

    The results of Python's true division are rationals here. *)

Definition Qltb (x y : Q) : bool := (Qnum x * QDen y <? Qnum y * QDen x)%Z.

(** [sum(l)] over integers and over rationals. *)
Definition sum_Z (l : list Z) : Z := fold_right Z.add 0 l.
Definition sum_Q (l : list Q) : Q := fold_right Qplus 0%Q l.

(** [sum(l) / len(l) if l else 0]. *)
Definition mean_Z (l : list Z) : Q :=
  match l with
  | [] => 0%Q
  | _ => (inject_Z (sum_Z l) / inject_Z (len l))%Q
  end.

Definition mean_Q (l : list Q) : Q :=
  match l with
  | [] => 0%Q
  | _ => (sum_Q l / inject_Z (len l))%Q
  end.

(** ** The remote fetcher *)

(** What one GET does: the transport fails, the 30 second timeout expires,
    or a response arrives, whose body may or may not decode as JSON. *)
Inductive http_outcome (A : Type) : Type :=
| TransportError (detail : string)
| TimedOut
| Response (status_code : Z) (body : option A).
Arguments TransportError {A} detail.
Arguments TimedOut {A}.
Arguments Response {A} status_code body.

(** The exceptions raised inside the [try] block of [make_gitlab_request]. *)
Inductive http_exn : Type :=
| HttpTransportError (detail : string)
| TimeoutException
| HTTPStatusError (status_code : Z)
| JSONDecodeError.

(** One printed diagnostic: the URL and the exception. *)
Record log_line : Type := mkLog {
  log_url : string;
  log_error : http_exn
}.

(** [response.is_success]. *)
Definition is_success (status_code : Z) : bool :=
  (200 <=? status_code) && (status_code <=? 299).

(** The body of the [try]: [client.get], [raise_for_status], which raises
    for every status that is not a success, and [json]. *)
Definition try_get {A : Type} (o : http_outcome A) : http_exn + A :=
  match o with
  | TransportError detail => inl (HttpTransportError detail)
  | TimedOut => inl TimeoutException
  | Response status_code body =>
      if is_success status_code then
        match body with
        | Some j => inr j
        | None => inl JSONDecodeError
        end
      else inl (HTTPStatusError status_code)
  end.

(** What [make_gitlab_request] returns, whatever the endpoint: the decoded
    body of a 2xx response, and [None] after any exception. *)
Definition returned {A : Type} (o : http_outcome A) : option A :=
  match try_get o with
  | inr j => Some j
  | inl _ => None
  end.

(** ** Classification bands *)

(** The DORA level: "Элитный", "Высокий", "Средний", "Низкий". *)
Inductive level : Type := Elite | High | Medium | Low.

(** The health band: "Отличное", "Требует внимания", "Критическое". *)
Inductive band : Type := Excellent | Attention | Critical.

(** The four warnings of the health report. *)
Inductive penalty : Type := NoActivity | TooManyMRs | TooManyIssues | PipelineFailed.

(** ** Reports: the values interpolated in the returned text *)

Record dora_report : Type := mkDora {
  dr_project_id : string;
  dr_start_date : string;
  dr_end_date : string;
  dr_days_period : Z;
  dr_deployment_freq : Q;
  dr_avg_lead_time : Q;
  dr_avg_restore_time : Q;
  dr_change_failure_rate : Q;
  dr_devops_level : level;
  dr_deployments : Z;
  dr_successful : Z;
  dr_failed : Z;
  dr_releases : Z;
  dr_merge_requests : Z;
  dr_incidents : Z
}.

(** A report with other totals of merge requests and incidents. *)
Definition with_totals (r : dora_report) (merge_requests incidents : Z) : dora_report :=
  {| dr_project_id := dr_project_id r;
     dr_start_date := dr_start_date r;
     dr_end_date := dr_end_date r;
     dr_days_period := dr_days_period r;
     dr_deployment_freq := dr_deployment_freq r;
     dr_avg_lead_time := dr_avg_lead_time r;
     dr_avg_restore_time := dr_avg_restore_time r;
     dr_change_failure_rate := dr_change_failure_rate r;
     dr_devops_level := dr_devops_level r;
     dr_deployments := dr_deployments r;
     dr_successful := dr_successful r;
     dr_failed := dr_failed r;
     dr_releases := dr_releases r;
     dr_merge_requests := merge_requests;
     dr_incidents := incidents |}.

Inductive pipeline_status : Type :=
| PipelineUnknown
| PipelineLatest (status : json) (id : option json).

Record health_report : Type := mkHealth {
  hr_project_name : json;
  hr_path : json;
  hr_activity_days : Z;
  hr_visibility : json;
  hr_pipeline_status : pipeline_status;
  hr_stars : json;
  hr_forks : json;
  hr_open_mrs : Z;
  hr_open_issues : Z;
  hr_branch_count : json;
  hr_events_count : Z;
  hr_events : list (json * json * json);
  hr_penalties : list penalty;
  hr_health_score : Z;
  hr_health_status : band
}.

(** [project_health_report] returns either the not-found message, which
    carries the project id alone, or the report. *)
Inductive health_output : Type :=
| ProjectNotFound (project_id : string)
| HealthReport (r : health_report).

(** The histogram of [analyze_issues]:
    "<1 день", "1-7 дней", "1-4 недели", ">1 месяца". *)
Record age_groups : Type := mkAges {
  lt_1_day : Z;
  days_1_7 : Z;
  weeks_1_4 : Z;
  gt_1_month : Z
}.

(** ** The derivations *)

(** The Python date library, as far as the derivations call it. *)
Class PyDatetime : Type := {
  (** [datetime.fromisoformat]; [None] is [ValueError]. *)
  fromisoformat : string -> option datetime;
  (** [datetime.strptime(_, "%Y-%m-%d")] as the ordinal of the parsed date;
      [None] is [ValueError]. *)
  strptime : string -> option Z;
  (** [strftime("%Y-%m-%d")] of the date with the given ordinal. *)
  strftime : Z -> string
}.

(** The module-level configuration. *)
Class Config : Type := {
  GITLAB_URL : string
}.

Section Engine.

Context `{PyDatetime} `{Config}.

(** [make_gitlab_request]: every exception of the request is caught, printed
    and turned into [None]. *)
Definition make_gitlab_request {A : Type} (endpoint : string) (o : http_outcome A)
  : option A * list log_line :=
  let url := String.append GITLAB_URL (String.append "/api/v4" endpoint) in
  match try_get o with
  | inr j => (Some j, [])
  | inl e => (None, [mkLog url e])
  end.

(** The value a caller of [make_gitlab_request] receives. *)
Definition fetch {A : Type} (endpoint : string) (o : http_outcome A) : option A :=
  fst (make_gitlab_request endpoint o).

(** [datetime.fromisoformat(v.replace('Z', '+00:00'))]: only a string has
    [replace]. *)
Definition parse_timestamp (v : json) : result datetime :=
  match v with
  | JStr s =>
      match fromisoformat (replace_Z s) with
      | Some d => Ok d
      | None => Raise ValueError
      end
  | _ => Raise AttributeError
  end.

(** [fromisoformat(d[k].replace(...)) if d.get(k) else None]. *)
Definition terminal_timestamp (d : record) (k : string) : result (option datetime) :=
  if get_truthy d k then Some <$> (getitem d k ≫= parse_timestamp) else Ok None.

(** *** get_dora_metrics *)

Definition parse_date (s : string) : result datetime :=
  match strptime s with
  | Some ordinal => Ok (midnight ordinal)
  | None => Raise ValueError
  end.

(** Lines 87-88. *)
Definition days_period (start_date end_date : string) : result Z :=
  e ← parse_date end_date;
  s ← parse_date start_date;
  td ← dt_sub e s;
  Ok (days td).

(** Line 91. *)
Definition deployment_freq (deployments : list record) (days_period : Z) : Q :=
  (inject_Z (len deployments) / inject_Z (Z.max days_period 1))%Q.

(** One record of the loops of lines 95-99 and 105-109: [created_at] is
    parsed, then the terminal timestamp if there is one, and the elapsed time
    is what the record contributes. *)
Definition elapsed (terminal : string) (r : record) : result (option Z) :=
  created_at ← getitem r "created_at" ≫= parse_timestamp;
  terminal_at ← terminal_timestamp r terminal;
  match terminal_at with
  | Some t => Some <$> dt_sub t created_at
  | None => Ok None
  end.

(** The loop of lines 95-99, on the slice it is given. *)
Fixpoint lead_times (merge_requests : list record) : result (list Z) :=
  match merge_requests with
  | [] => Ok []
  | mr :: rest =>
      e ← elapsed "merged_at" mr;
      others ← lead_times rest;
      Ok (match e with
          | Some td => days td :: others
          | None => others
          end)
  end.

(** Lines 94-101: the first 50 merge requests are looked at. *)
Definition avg_lead_time (merge_requests : list record) : result Q :=
  mean_Z <$> lead_times (take 50 merge_requests).

(** The loop of lines 105-109. *)
Fixpoint restore_times (incidents : list record) : result (list Q) :=
  match incidents with
  | [] => Ok []
  | incident :: rest =>
      e ← elapsed "closed_at" incident;
      others ← restore_times rest;
      Ok (match e with
          | Some td => total_hours td :: others
          | None => others
          end)
  end.

Definition avg_restore_time (incidents : list record) : result Q :=
  mean_Q <$> restore_times incidents.

(** Line 114. *)
Definition failed_deployments (deployments : list record) : Z :=
  len (filter (fun d => get_is_str d "status" "failed" = true) deployments).

(** Line 115. *)
Definition change_failure_rate (deployments : list record) : Q :=
  match deployments with
  | [] => 0%Q
  | _ => (inject_Z (failed_deployments deployments) / inject_Z (len deployments) * 100)%Q
  end.

(** Lines 118-122. *)
Definition devops_level (deployment_freq avg_lead_time change_failure_rate : Q) : level :=
  let devops_level := Elite in
  let devops_level :=
    if Qltb deployment_freq 1 then (if Qltb avg_lead_time 7 then High else Medium)
    else devops_level in
  let devops_level :=
    if Qltb 15 change_failure_rate then Low else devops_level in
  devops_level.

(** Lines 81-144, from the gathered results on. *)
Definition dora_from_results (project_id start_date end_date : string)
  (r_releases r_deployments r_merge_requests r_incidents : option (list record))
  : result dora_report :=
  let releases := or_empty r_releases in
  let deployments := or_empty r_deployments in
  let merge_requests := or_empty r_merge_requests in
  let incidents := or_empty r_incidents in
  period ← days_period start_date end_date;
  let freq := deployment_freq deployments period in
  lead ← avg_lead_time merge_requests;
  restore ← avg_restore_time incidents;
  let failed := failed_deployments deployments in
  let rate := change_failure_rate deployments in
  Ok {| dr_project_id := project_id;
        dr_start_date := start_date;
        dr_end_date := end_date;
        dr_days_period := period;
        dr_deployment_freq := freq;
        dr_avg_lead_time := lead;
        dr_avg_restore_time := restore;
        dr_change_failure_rate := rate;
        dr_devops_level := devops_level freq lead rate;
        dr_deployments := len deployments;
        dr_successful := len deployments - failed;
        dr_failed := failed;
        dr_releases := len releases;
        dr_merge_requests := len merge_requests;
        dr_incidents := len incidents |}.

(** [x if x else default], for the optional date arguments. *)
Definition date_or (d : option string) (default : string) : string :=
  match d with
  | Some (String c s) => String c s
  | _ => default
  end.

(** The date of the aware instant [datetime.now()...] moved by [delta] days. *)
Definition date_string (clock delta : Z) : string :=
  strftime ((clock + delta * us_per_day) / us_per_day).

Definition dora_endpoints (project_id start_date end_date : string) : list string :=
  let p := String.append "/projects/" project_id in
  [ String.append p "/releases?per_page=100";
    String.append p (String.append "/deployments?updated_after="
      (String.append start_date (String.append "&updated_before=" end_date)));
    String.append p (String.append "/merge_requests?state=merged&updated_after="
      (String.append start_date (String.append "&updated_before=" end_date)));
    String.append p (String.append "/issues?state=closed&labels=incident&created_after="
      start_date) ].

(** [get_dora_metrics]: [clock] is the local wall clock, and the four
    outcomes are those of the four requests, in the order of [endpoints]. *)
Definition get_dora_metrics (clock : Z)
  (o_releases o_deployments o_merge_requests o_incidents : http_outcome (list record))
  (project_id : string) (start_date end_date : option string) : result dora_report :=
  let start_date := date_or start_date (date_string clock (-30)) in
  let end_date := date_or end_date (date_string clock 0) in
  let e := fun i => nth i (dora_endpoints project_id start_date end_date) EmptyString in
  dora_from_results project_id start_date end_date
    (fetch (e 0%nat) o_releases) (fetch (e 1%nat) o_deployments)
    (fetch (e 2%nat) o_merge_requests) (fetch (e 3%nat) o_incidents).

(** *** analyze_issues: the age histogram *)

(** Lines 413-420. *)
Definition count_age (age : Z) (g : age_groups) : age_groups :=
  if age <? 1 then
    mkAges (lt_1_day g + 1) (days_1_7 g) (weeks_1_4 g) (gt_1_month g)
  else if age <=? 7 then
    mkAges (lt_1_day g) (days_1_7 g + 1) (weeks_1_4 g) (gt_1_month g)
  else if age <=? 30 then
    mkAges (lt_1_day g) (days_1_7 g) (weeks_1_4 g + 1) (gt_1_month g)
  else
    mkAges (lt_1_day g) (days_1_7 g) (weeks_1_4 g) (gt_1_month g + 1).

(** The loop of lines 408-420, from the histogram built so far. *)
Fixpoint age_loop (clock : Z) (issues : list record) (g : age_groups)
  : result age_groups :=
  match issues with
  | [] => Ok g
  | issue :: rest =>
      state ← getitem issue "state";
      if is_str state "opened" then
        created ← getitem issue "created_at" ≫= parse_timestamp;
        td ← dt_sub (now_utc clock) created;
        age_loop clock rest (count_age (days td) g)
      else age_loop clock rest g
  end.

(** Lines 405-420. *)
Definition issue_age_groups (clock : Z) (issues : list record) : result age_groups :=
  age_loop clock issues (mkAges 0 0 0 0).

(** The number of issues in the histogram. *)
Definition total_ages (g : age_groups) : Z :=
  lt_1_day g + days_1_7 g + weeks_1_4 g + gt_1_month g.

(** *** project_health_report *)

(** Lines 552-555. *)
Definition latest_pipeline (pipelines : list record) : pipeline_status :=
  match pipelines with
  | [] => PipelineUnknown
  | latest :: _ =>
      PipelineLatest (get_default latest "status" (JStr "unknown")) (latest !! "id")
  end.

(** Lines 558-563. *)
Definition activity_days (clock : Z) (project_info : record) : result Z :=
  if get_truthy project_info "last_activity_at" then
    last_activity ← getitem project_info "last_activity_at" ≫= parse_timestamp;
    td ← dt_sub (now_utc clock) last_activity;
    Ok (days td)
  else Ok 0.

(** [v[:n]]: strings and lists can be sliced; the other values raise. *)
Definition slice_prefix (n : nat) (v : json) : result json :=
  match v with
  | JStr s => Ok (JStr (substring 0 n s))
  | JList l => Ok (JList (take n l))
  | _ => Raise TypeError
  end.

(** One line of the loop of lines 583-586. *)
Definition event_line (event : record) : result (json * json * json) :=
  user ← get_in event "author" "username" (JStr "unknown");
  let action := get_default event "action_name" (JStr "unknown") in
  created ← slice_prefix 16 (get_default event "created_at" (JStr EmptyString));
  Ok (user, action, created).

(** One penalty of lines 591-605: the points are taken off and the warning
    is appended. *)
Definition apply_penalty (triggered : bool) (points : Z) (w : penalty)
  (st : Z * list penalty) : Z * list penalty :=
  if triggered then (fst st - points, (snd st ++ [w])%list) else st.

(** [pipelines and pipelines[0].get('status') == 'failed']. *)
Definition latest_failed (pipelines : list record) : bool :=
  match pipelines with
  | [] => false
  | latest :: _ => get_is_str latest "status" "failed"
  end.

(** Lines 589-605: the score and the warnings. *)
Definition assess (activity_days : Z) (open_mrs open_issues pipelines : list record)
  : Z * list penalty :=
  let st := (100, []) in
  let st := apply_penalty (30 <? activity_days) 30 NoActivity st in
  let st := apply_penalty (15 <? len open_mrs) 20 TooManyMRs st in
  let st := apply_penalty (50 <? len open_issues) 25 TooManyIssues st in
  let st := apply_penalty (latest_failed pipelines) 15 PipelineFailed st in
  st.

Definition health_score (activity_days : Z) (open_mrs open_issues pipelines : list record)
  : Z :=
  fst (assess activity_days open_mrs open_issues pipelines).

(** Line 608; the closing sentence of lines 615-617 repeats the same two
    comparisons. *)
Definition health_status (health_score : Z) : band :=
  if 80 <=? health_score then Excellent
  else if 60 <=? health_score then Attention
  else Critical.

(** [not project_info]: an absent result and an empty object are falsy. *)
Definition found (project_info : option record) : option record :=
  match project_info with
  | Some info => if truthy (JObj info) then Some info else None
  | None => None
  end.

(** Lines 539-620, from the gathered results on. *)
Definition health_from_results (clock : Z) (project_id : string)
  (project_info : option record)
  (r_mrs r_issues r_pipelines r_events : option (list record)) : result health_output :=
  let open_mrs := or_empty r_mrs in
  let open_issues := or_empty r_issues in
  let pipelines := or_empty r_pipelines in
  let recent_events := or_empty r_events in
  match found project_info with
  | None => Ok (ProjectNotFound project_id)
  | Some project_info =>
      let project_name := get_default project_info "name" (JStr project_id) in
      let status := latest_pipeline pipelines in
      activity ← activity_days clock project_info;
      branches ← get_in project_info "repository" "branch_count" (JStr "N/A");
      events ← mapM event_line (take 5 recent_events);
      let st := assess activity open_mrs open_issues pipelines in
      Ok (HealthReport
            {| hr_project_name := project_name;
               hr_path := get_default project_info "path_with_namespace" (JStr "N/A");
               hr_activity_days := activity;
               hr_visibility := get_default project_info "visibility" (JStr "N/A");
               hr_pipeline_status := status;
               hr_stars := get_default project_info "star_count" (JNum 0);
               hr_forks := get_default project_info "forks_count" (JNum 0);
               hr_open_mrs := len open_mrs;
               hr_open_issues := len open_issues;
               hr_branch_count := branches;
               hr_events_count := len recent_events;
               hr_events := events;
               hr_penalties := snd st;
               hr_health_score := fst st;
               hr_health_status := health_status (fst st) |})
  end.

Definition health_endpoints (project_id : string) : list string :=
  let p := String.append "/projects/" project_id in
  [ p;
    String.append p "/merge_requests?state=opened&per_page=10";
    String.append p "/issues?state=opened&per_page=10";
    String.append p "/pipelines?per_page=5";
    String.append p "/events?per_page=20" ].

(** [project_health_report]: the five outcomes are those of the five
    requests, in the order of [endpoints]. *)
Definition project_health_report (clock : Z)
  (o_project : http_outcome record)
  (o_mrs o_issues o_pipelines o_events : http_outcome (list record))
  (project_id : string) : result health_output :=
  let e := fun i => nth i (health_endpoints project_id) EmptyString in
  health_from_results clock project_id
    (fetch (e 0%nat) o_project) (fetch (e 1%nat) o_mrs) (fetch (e 2%nat) o_issues)
    (fetch (e 3%nat) o_pipelines) (fetch (e 4%nat) o_events).

End Engine.

(** ** The lead time as the specification words it

    "Mean over merged items of (merged_at − created_at) in days, restricted to
    the most recent 50 merged items; 0 if no merged items": the elapsed time
    is taken as a duration in days, fractions included. *)

Section SpecReading.

Context `{PyDatetime}.

Definition elapsed_days (td : Z) : Q := (inject_Z td / inject_Z us_per_day)%Q.

Definition spec_lead_time (merge_requests : list record) : result Q :=
  es ← mapM (elapsed "merged_at") merge_requests;
  Ok (mean_Q (elapsed_days <$> take 50 (omap id es))).

End SpecReading.

(** ** Dictionary keys and the reports of the further tools *)

(** The hashable JSON values, up to Python's equality: [True] and [False]
    are the keys [1] and [0]. *)
Inductive key : Type :=
| KNone
| KInt (n : Z)
| KStr (s : string).

#[global] Instance key_eq_dec : EqDecision key.
Proof. solve_decision. Defined.

(** [get_project_activity]: the name, the number of events and of event
    types, the types with their count and share, the lines of the recent
    events. *)
Record activity_report : Type := mkActivity {
  ar_project_name : json;
  ar_events : Z;
  ar_types : Z;
  ar_distribution : list (key * Z * Q);
  ar_recent : list (json * json * json)
}.

Record mr_report : Type := mkMrReport {
  mr_days : Z;
  mr_total : Z;
  mr_opened : Z;
  mr_merged : Z;
  mr_merged_share : Q;
  mr_closed : Z;
  mr_avg_review_time : Q;
  mr_avg_size : Q;
  mr_merge_rate : Q;
  mr_authors : Z;
  mr_top_authors : list (key * Z);
  mr_slow_review : bool;
  mr_too_large : bool;
  mr_many_open : bool
}.

(** [analyze_merge_requests] returns the message of line 229 or the report. *)
Inductive mr_output : Type :=
| NoMergeRequests (days : Z) (project_id : string)
| MergeRequestReport (r : mr_report).

Record pipeline_report : Type := mkPipelineReport {
  pr_total : Z;
  pr_success_rate : Q;
  pr_avg_duration : Q;
  pr_distribution : list (key * Z * Q);
  pr_recent : list (json * json * json * json);
  pr_low_success : bool;
  pr_many_failed : bool
}.

(** [monitor_pipelines] returns the message of line 312 or the report. *)
Inductive pipeline_output : Type :=
| NoPipelines (project_id : string)
| PipelineReport (r : pipeline_report).

(** ** Further tools of the server

    The derivations of [get_project_activity], [analyze_merge_requests] and
    [monitor_pipelines], and what one record contributes to the loops above. *)

(** The points a warning of the health report takes off, as its text says:
    "(-30 баллов)", "(-20 баллов)", "(-25 баллов)", "(-15 баллов)". *)
Definition penalty_points (w : penalty) : Z :=
  match w with
  | NoActivity => 30
  | TooManyMRs => 20
  | TooManyIssues => 25
  | PipelineFailed => 15
  end.

Section Tools.

Context `{PyDatetime} `{Config}.



(** [get_dora_metrics] with the two reads of the wall clock told apart:
    [clock_start] is the read of line 67, made when no start date is given,
    and [clock_end] the read of line 69, made afterwards when no end date is
    given. *)
Definition get_dora_metrics_reads (clock_start clock_end : Z)
  (o_releases o_deployments o_merge_requests o_incidents : http_outcome (list record))
  (project_id : string) (start_date end_date : option string) : result dora_report :=
  let start_date := date_or start_date (date_string clock_start (-30)) in
  let end_date := date_or end_date (date_string clock_end 0) in
  let e := fun i => nth i (dora_endpoints project_id start_date end_date) EmptyString in
  dora_from_results project_id start_date end_date
    (fetch (e 0%nat) o_releases) (fetch (e 1%nat) o_deployments)
    (fetch (e 2%nat) o_merge_requests) (fetch (e 3%nat) o_incidents).

(** One issue of the loop of lines 408-420: its age in days when it is
    open, nothing when it is not. *)
Definition issue_age (clock : Z) (issue : record) : result (option Z) :=
  state ← getitem issue "state";
  if is_str state "opened" then
    created ← getitem issue "created_at" ≫= parse_timestamp;
    td ← dt_sub (now_utc clock) created;
    Ok (Some (days td))
  else Ok None.

(** What one issue adds to the histogram. *)
Definition count_issue (a : option Z) (g : age_groups) : age_groups :=
  match a with
  | Some age => count_age age g
  | None => g
  end.

(** *** Counting dictionaries *)

(** [acc + v] for an integer [acc] and a JSON value: booleans count as 0
    and 1, the other values raise. *)
Definition py_add (acc : Z) (v : json) : result Z :=
  match v with
  | JNum n => Ok (acc + n)
  | JBool b => Ok (acc + (if b then 1 else 0))
  | _ => Raise TypeError
  end.

(** [key] is the key a JSON value gives in a dict: lists and objects cannot
    be hashed. *)
Definition hash_key (v : json) : result key :=
  match v with
  | JNull => Ok KNone
  | JBool b => Ok (KInt (if b then 1 else 0))
  | JNum n => Ok (KInt n)
  | JStr s => Ok (KStr s)
  | _ => Raise TypeError
  end.

(** [d[k] = d.get(k, 0) + 1] on a dict kept in insertion order. *)
Fixpoint bump (k : key) (d : list (key * Z)) : list (key * Z) :=
  match d with
  | [] => [(k, 1)]
  | (k', n) :: rest =>
      if decide (k = k') then (k', n + 1) :: rest else (k', n) :: bump k rest
  end.

(** [d.get(k, 0)]. *)
Fixpoint lookup_count (k : key) (d : list (key * Z)) : Z :=
  match d with
  | [] => 0
  | (k', n) :: rest => if decide (k = k') then n else lookup_count k rest
  end.

(** Whether a JSON value is hashed to the key [k]. *)
Definition has_key (k : key) (v : json) : bool :=
  match hash_key v with
  | Ok k' => bool_decide (k' = k)
  | Raise _ => false
  end.

(** Whether the loop counts the record [x] under the key [k]. *)
Definition counted_as (f : record -> result json) (k : key) (x : record) : bool :=
  match f x with
  | Ok v => has_key k v
  | Raise _ => false
  end.

(** [event.get('action_name', 'unknown')]. *)
Definition event_type (event : record) : json :=
  get_default event "action_name" (JStr "unknown").

(** The sum of the counts of a dict. *)
Definition total_count (d : list (key * Z)) : Z := sum_Z (snd <$> d).

(** A well-formed counting dict: no key twice, every count positive. *)
Definition counter (d : list (key * Z)) : Prop :=
  NoDup (fst <$> d) /\ Forall (fun item => 1 <= snd item) d.

(** Decreasing counts: every item counts at least as much as those after it. *)
Definition decreasing (l : list (key * Z)) : Prop :=
  forall i j x y, (i <= j)%nat -> l !! i = Some x -> l !! j = Some y -> snd y <= snd x.

(** The counting loops: [for x in l: d[f(x)] = d.get(f(x), 0) + 1]. *)
Fixpoint count_by (f : record -> result json) (l : list record) (d : list (key * Z))
  : result (list (key * Z)) :=
  match l with
  | [] => Ok d
  | x :: rest =>
      v ← f x;
      k ← hash_key v;
      count_by f rest (bump k d)
  end.

(** [sorted(d.items(), key=lambda x: x[1], reverse=True)]: by decreasing
    count, items of equal count in their order of insertion. *)
Fixpoint insert_by_count (x : key * Z) (l : list (key * Z)) : list (key * Z) :=
  match l with
  | [] => [x]
  | y :: rest =>
      if snd y <=? snd x then x :: y :: rest else y :: insert_by_count x rest
  end.

Definition sorted_by_count (d : list (key * Z)) : list (key * Z) :=
  foldr insert_by_count [] d.

(** [(count / total) * 100] for each item. *)
Definition with_percentage (total : Z) (item : key * Z) : key * Z * Q :=
  (fst item, snd item, (inject_Z (snd item) / inject_Z total * 100)%Q).

(** [[x for x in l if x[k] == s]]: a record without the key raises. *)
Fixpoint select_by (k s : string) (l : list record) : result (list record) :=
  match l with
  | [] => Ok []
  | x :: rest =>
      v ← getitem x k;
      others ← select_by k s rest;
      Ok (if is_str v s then x :: others else others)
  end.

(** *** get_project_activity, lines 162-203

    The window of lines 158-159 feeds the request and the header only. *)

Definition IMPORTANT_ACTIONS : list string :=
  ["pushed to"; "merged"; "created"; "closed"; "commented on"].

(** Lines 193-194, before the slice. *)
Fixpoint important_events (events : list record) : result (list record) :=
  match events with
  | [] => Ok []
  | e :: rest =>
      action ← getitem e "action_name";
      others ← important_events rest;
      Ok (if existsb (is_str action) IMPORTANT_ACTIONS then e :: others else others)
  end.

(** Lines 199-201. *)
Definition activity_line (event : record) : result (json * json * json) :=
  username ← get_in event "author" "username" (JStr "unknown");
  let action := get_default event "action_name" (JStr "unknown") in
  created ← slice_prefix 10 (get_default event "created_at" (JStr EmptyString));
  Ok (username, action, created).

Definition activity_from_results (project_id : string)
  (r_events : option (list record)) (r_project : option record)
  : result activity_report :=
  let events := or_empty r_events in
  event_counts ← count_by (fun event => Ok (event_type event)) events [];
  let project_name :=
    match found r_project with
    | Some project => get_default project "name" (JStr project_id)
    | None => JStr project_id
    end in
  let distribution := with_percentage (len events) <$> sorted_by_count event_counts in
  important ← important_events events;
  recent ← mapM activity_line (take 5 important);
  Ok {| ar_project_name := project_name;
        ar_events := len events;
        ar_types := len event_counts;
        ar_distribution := distribution;
        ar_recent := recent |}.

Definition get_project_activity (o_events : http_outcome (list record))
  (o_project : http_outcome record) (project_id : string) : result activity_report :=
  let p := String.append "/projects/" project_id in
  activity_from_results project_id
    (fetch (String.append p "/events") o_events) (fetch p o_project).

(** *** analyze_merge_requests *)

(** Lines 217-218. *)
Definition days_map (timeframe : string) : Z :=
  if String.eqb timeframe "week" then 7
  else if String.eqb timeframe "month" then 30
  else if String.eqb timeframe "quarter" then 90
  else 30.

(** The loop of lines 238-242. *)
Fixpoint review_times (merged_mrs : list record) : result (list Q) :=
  match merged_mrs with
  | [] => Ok []
  | mr :: rest =>
      this ←
        (if get_truthy mr "created_at" && get_truthy mr "merged_at" then
           created ← getitem mr "created_at" ≫= parse_timestamp;
           merged ← getitem mr "merged_at" ≫= parse_timestamp;
           td ← dt_sub merged created;
           Ok [total_hours td]
         else Ok []);
      others ← review_times rest;
      Ok (this ++ others)%list
  end.

(** The loop of lines 248-250. *)
Definition mr_sizes (merged_mrs : list record) : list json :=
  omap (fun mr => if get_truthy mr "changes_count" then mr !! "changes_count" else None)
       merged_mrs.

(** [sum(l)] over JSON values, from the start value on. *)
Fixpoint sum_from (acc : Z) (l : list json) : result Z :=
  match l with
  | [] => Ok acc
  | v :: rest => acc ← py_add acc v; sum_from acc rest
  end.

Definition sum_json (l : list json) : result Z := sum_from 0 l.

(** Line 252. *)
Definition avg_mr_size (sizes : list json) : result Q :=
  match sizes with
  | [] => Ok 0%Q
  | _ => total ← sum_json sizes; Ok (inject_Z total / inject_Z (len sizes))%Q
  end.

Definition merge_requests_from_results (project_id timeframe : string)
  (r_mrs : option (list record)) : result mr_output :=
  let days := days_map timeframe in
  match or_empty r_mrs with
  | [] => Ok (NoMergeRequests days project_id)
  | mrs =>
      opened_mrs ← select_by "state" "opened" mrs;
      merged_mrs ← select_by "state" "merged" mrs;
      closed_mrs ← select_by "state" "closed" mrs;
      times ← review_times merged_mrs;
      let avg_review_time := mean_Q times in
      avg_size ← avg_mr_size (mr_sizes merged_mrs);
      authors ← count_by
        (fun mr => get_in mr "author" "username" (JStr "unknown")) mrs [];
      let top_authors := take 5 (sorted_by_count authors) in
      Ok (MergeRequestReport
            {| mr_days := days;
               mr_total := len mrs;
               mr_opened := len opened_mrs;
               mr_merged := len merged_mrs;
               mr_merged_share :=
                 (inject_Z (len merged_mrs) / inject_Z (len mrs) * 100)%Q;
               mr_closed := len closed_mrs;
               mr_avg_review_time := avg_review_time;
               mr_avg_size := avg_size;
               mr_merge_rate :=
                 (inject_Z (len merged_mrs)
                  / inject_Z (Z.max (len opened_mrs + len merged_mrs) 1) * 100)%Q;
               mr_authors := len authors;
               mr_top_authors := top_authors;
               mr_slow_review := Qltb 48 avg_review_time;
               mr_too_large := Qltb 500 avg_size;
               mr_many_open := 10 <? len opened_mrs |})
  end.

Definition analyze_merge_requests (o_mrs : http_outcome (list record))
  (project_id timeframe : string) : result mr_output :=
  merge_requests_from_results project_id timeframe
    (fetch (String.append "/projects/" (String.append project_id "/merge_requests"))
           o_mrs).

(** *** monitor_pipelines *)

(** [pipeline.get('status', 'unknown')]. *)
Definition pipeline_status_of (pipeline : record) : json :=
  get_default pipeline "status" (JStr "unknown").

(** The loop of lines 319-327, on the counters so far: the dict of statuses,
    the sum of the durations, the number of successes. *)
Fixpoint pipeline_loop (pipelines : list record) (st : list (key * Z) * Z * Z)
  : result (list (key * Z) * Z * Z) :=
  match pipelines with
  | [] => Ok st
  | pipeline :: rest =>
      let '(status_counts, duration_sum, successful) := st in
      let status := pipeline_status_of pipeline in
      k ← hash_key status;
      let status_counts := bump k status_counts in
      duration_sum ←
        (if get_truthy pipeline "duration" then
           d ← getitem pipeline "duration"; py_add duration_sum d
         else Ok duration_sum);
      let successful := if is_str status "success" then successful + 1 else successful in
      pipeline_loop rest (status_counts, duration_sum, successful)
  end.

(** Lines 352-354: the values of one line, read in this order. *)
Definition pipeline_line (pipe : record) : result (json * json * json * json) :=
  _ ← getitem pipe "status";
  id ← getitem pipe "id";
  status ← getitem pipe "status";
  let duration := get_default pipe "duration" (JNum 0) in
  ref ← getitem pipe "ref";
  Ok (id, status, duration, ref).

(** ['failed' in d and d['failed'] > 3]. *)
Definition many_failed (status_counts : list (key * Z)) : bool :=
  bool_decide (KStr "failed" ∈ fst <$> status_counts)
  && (3 <? lookup_count (KStr "failed") status_counts).

Definition pipelines_from_results (project_id : string)
  (r_pipelines : option (list record)) : result pipeline_output :=
  match or_empty r_pipelines with
  | [] => Ok (NoPipelines project_id)
  | pipelines =>
      '(status_counts, duration_sum, successful) ← pipeline_loop pipelines ([], 0, 0);
      let success_rate :=
        (inject_Z successful / inject_Z (len pipelines) * 100)%Q in
      let avg_duration := (inject_Z duration_sum / inject_Z (len pipelines))%Q in
      let distribution :=
        with_percentage (len pipelines) <$> sorted_by_count status_counts in
      recent ← mapM pipeline_line (take 5 pipelines);
      Ok (PipelineReport
            {| pr_total := len pipelines;
               pr_success_rate := success_rate;
               pr_avg_duration := avg_duration;
               pr_distribution := distribution;
               pr_recent := recent;
               pr_low_success := Qltb success_rate 80;
               pr_many_failed := many_failed status_counts |})
  end.

Definition monitor_pipelines (o_pipelines : http_outcome (list record))
  (project_id : string) : result pipeline_output :=
  pipelines_from_results project_id
    (fetch (String.append "/projects/" (String.append project_id "/pipelines"))
           o_pipelines).

End Tools.

(** ** The README tools

    A Python text is a list of characters of a type [char]; the text
    operations of the library the tools call are the methods of [PyText].
    The strings of a JSON value are read as texts through [chr]. *)

Class PyText (char : Type) : Type := {
  char_eq_dec :: EqDecision char;
  (** The character of an ASCII character of the source. *)
  chr : ascii -> char;
  (** [s.lower()]. *)
  lower : list char -> list char;
  (** [c.isspace()]. *)
  isspace : char -> bool;
  (** [base64.b64decode(s).decode('utf-8')]; [None] is [ValueError]. *)
  b64decode_utf8 : string -> option (list char)
}.

(** What a README tool raises: the exceptions of its own code, and those of
    the requests, which [get_project_readme_content] does not catch. *)
Inductive raised : Type :=
| PyRaised (e : exn)
| HttpRaised (e : http_exn).

Inductive outcome (A : Type) : Type :=
| Returned (a : A)
| Raised (e : raised).
Arguments Returned {A} a.
Arguments Raised {A} e.

#[global] Instance outcome_ret : MRet outcome := fun A a => Returned a.
#[global] Instance outcome_bind : MBind outcome := fun A B f m =>
  match m with
  | Returned a => f a
  | Raised e => Raised e
  end.

Definition of_result {A : Type} (m : result A) : outcome A :=
  match m with
  | Ok a => Returned a
  | Raise e => Raised (PyRaised e)
  end.

(** The requests of the README tools are not guarded: what the [try] of
    [make_gitlab_request] would catch is raised. *)
Definition of_request {A : Type} (m : http_exn + A) : outcome A :=
  match m with
  | inr a => Returned a
  | inl e => Raised (HttpRaised e)
  end.

Definition returns {A : Type} (m : outcome A) : bool :=
  match m with
  | Returned _ => true
  | Raised _ => false
  end.

Section Texts.

Context {char : Type} `{PyText char}.

Definition text_of (s : string) : list char := chr <$> list_ascii_of_string s.

(** [s.startswith(p)]. *)
Fixpoint startswith (p s : list char) : bool :=
  match p, s with
  | [], _ => true
  | _ :: _, [] => false
  | a :: p', b :: s' => bool_decide (a = b) && startswith p' s'
  end.

(** [s.find(p)], with [None] for -1. *)
Fixpoint find (p s : list char) : option nat :=
  if startswith p s then Some 0%nat
  else
    match s with
    | [] => None
    | _ :: s' => S <$> find p s'
    end.

(** [p in s]. *)
Definition contains (p s : list char) : bool :=
  match find p s with
  | Some _ => true
  | None => false
  end.

(** [s.split(sep)] for a separator of one character. *)
Fixpoint split_on (sep : char) (s : list char) : list (list char) :=
  match s with
  | [] => [[]]
  | c :: s' =>
      if decide (c = sep) then [] :: split_on sep s'
      else
        match split_on sep s' with
        | [] => [[c]]
        | w :: ws => (c :: w) :: ws
        end
  end.

Definition newline : char := chr "010"%char.

(** [s.split('\n')]. *)
Definition split_lines (s : list char) : list (list char) := split_on newline s.

Fixpoint lstrip (s : list char) : list char :=
  match s with
  | [] => []
  | c :: s' => if isspace c then lstrip s' else s
  end.

(** [s.strip()]. *)
Definition strip (s : list char) : list char :=
  reverse (lstrip (reverse (lstrip s))).

(** [len(s.split())]: the number of runs of characters that are no spaces. *)
Fixpoint count_words (inside : bool) (s : list char) : Z :=
  match s with
  | [] => 0
  | c :: s' =>
      if isspace c then count_words false s'
      else (if inside then 0 else 1) + count_words true s'
  end.

(** [s[:n]] for an integer [n], negative or not. *)
Definition slice_to {A : Type} (n : Z) (s : list A) : list A :=
  if 0 <=? n then take (Z.to_nat n) s else take (Z.to_nat (len s + n)) s.

(** [s[a:b]] for [0 <= a] and [0 <= b]. *)
Definition slice {A : Type} (a b : Z) (s : list A) : list A :=
  take (Z.to_nat b - Z.to_nat a) (drop (Z.to_nat a) s).

(** *** get_project_readme_content *)

(** The dict of line 675 and the dict of lines 701-711. *)
Record readme_file : Type := mkReadme {
  rd_filename : string;
  rd_path : string;
  rd_content : list char;
  rd_size_bytes : Z;
  rd_encoding : json;
  rd_last_commit_id : option json
}.

Inductive readme : Type :=
| ReadmeNotFound
| ReadmeSuccess (file : readme_file).

(** [f['name'].lower()]: only a string has [lower]. *)
Definition name_lower (f : record) : result (list char) :=
  name ← getitem f "name";
  match name with
  | JStr s => Ok (lower (text_of s))
  | _ => Raise AttributeError
  end.

(** [f['type'] == 'blob']. *)
Definition is_blob (type : json) : bool := is_str type "blob".

(** Lines 668-672. *)
Fixpoint readme_files (files : list record) : result (list record) :=
  match files with
  | [] => Ok []
  | f :: rest =>
      name ← name_lower f;
      keep ← (if startswith (text_of "readme") name
              then is_blob <$> getitem f "type"
              else Ok false);
      others ← readme_files rest;
      Ok (if keep : bool then f :: others else others)
  end.

(** The test of line 681. *)
Definition is_main_name (f : record) : bool :=
  match name_lower f with
  | Ok name =>
      bool_decide (name = text_of "readme") || bool_decide (name = text_of "readme.md")
  | Raise _ => false
  end.

(** Lines 678-686, on a non-empty list. *)
Definition main_readme (first : record) (others : list record) : record :=
  match filter (fun f => is_main_name f = true) (first :: others) with
  | rf :: _ => rf
  | [] => first
  end.

(** The argument of [quote] and of [b64decode]: a string, or [TypeError]. *)
Definition as_text (v : json) : result string :=
  match v with
  | JStr s => Ok s
  | _ => Raise TypeError
  end.

(** [tree_response.status_code == 404], once the request has answered. *)
Definition tree_missing {A : Type} (o : http_outcome A) : bool :=
  match o with
  | Response status _ => status =? 404
  | _ => false
  end.

(** [base64.b64decode(s).decode('utf-8')]. *)
Definition decode (encoded : string) : result (list char) :=
  match b64decode_utf8 encoded with
  | Some text => Ok text
  | None => Raise ValueError
  end.

(** The test of lines 670-671 on a file whose name is a string. *)
Definition readme_blob (f : record) : bool :=
  match name_lower f with
  | Ok name =>
      startswith (text_of "readme") name
      && match f !! "type" with
         | Some type => is_blob type
         | None => false
         end
  | Raise _ => false
  end.

(** [get_project_readme_content]: [o_tree] is what the request for the
    tree does, [o_file p] what the request for the file of path [p] does.
    The files of the tree are JSON objects; the line printed at line 658 is
    left out. *)
Definition get_project_readme_content (o_tree : http_outcome (list record))
  (o_file : string -> http_outcome record) (project_id ref : string)
  : outcome (option readme) :=
  if tree_missing o_tree then Returned None
  else
    files ← of_request (try_get o_tree);
    found_files ← of_result (readme_files files);
    match found_files with
    | [] => Returned (Some ReadmeNotFound)
    | first :: others =>
        let readme_file := main_readme first others in
        path ← of_result (getitem readme_file "path" ≫= as_text);
        file_data ← of_request (try_get (o_file path));
        encoded ← of_result (getitem file_data "content" ≫= as_text);
        content ← of_result (decode encoded);
        name ← of_result (getitem readme_file "name" ≫= as_text);
        Returned (Some (ReadmeSuccess
          {| rd_filename := name;
             rd_path := path;
             rd_content := content;
             rd_size_bytes := len content;
             rd_encoding := get_default file_data "encoding" (JStr "base64");
             rd_last_commit_id := file_data !! "last_commit_id" |}))
    end.

(** *** read_project_readme *)

Record shown_readme : Type := mkShown {
  sh_filename : string;
  sh_size : Z;
  sh_commit : option json;
  (** The part of the content that is shown, and, when it is shortened, the
      length announced in "... [сокращено, всего N символов]". *)
  sh_content : list char;
  sh_shortened : option Z
}.

Inductive readme_view : Type :=
| ProjectUnavailable
| NoReadme
| Shown (r : shown_readme).

(** Lines 740-769, on what [get_project_readme_content] returned. *)
Definition show_readme (result : option readme) (max_length : option Z)
  : outcome readme_view :=
  match result with
  | None => Returned ProjectUnavailable
  | Some ReadmeNotFound => Returned NoReadme
  | Some (ReadmeSuccess file) =>
      let content := rd_content file in
      let cut :=
        match max_length with
        | Some n => negb (n =? 0) && (n <? len content)
        | None => false
        end in
      let shown :=
        match max_length with
        | Some n => if cut then slice_to n content else content
        | None => content
        end in
      commit ← of_result
        (match rd_last_commit_id file with
         | Some v => if truthy v then Some <$> slice_prefix 8 v else Ok None
         | None => Ok None
         end);
      Returned (Shown {| sh_filename := rd_filename file;
                         sh_size := rd_size_bytes file;
                         sh_commit := commit;
                         sh_content := shown;
                         sh_shortened := if cut then Some (len content) else None |})
  end.

Definition read_project_readme (o_tree : http_outcome (list record))
  (o_file : string -> http_outcome record) (project_identifier branch : string)
  (max_length : option Z) : outcome readme_view :=
  result ← get_project_readme_content o_tree o_file project_identifier branch;
  show_readme result max_length.

(** *** search_in_readme *)

Record match_line : Type := mkMatch {
  m_line : Z;
  m_context : list char;
  m_position : option nat
}.

Definition ellipsis : list char := text_of "...".

(** [max(0, pos - 30)] and [min(len(line), pos + len(search_term) + 30)],
    where [pos] is -1 when [find] gives [None]. *)
Definition position (pos : option nat) : Z :=
  match pos with
  | Some p => Z.of_nat p
  | None => -1
  end.

(** Lines 953-975 for one line of the README. *)
Definition match_in_line (case_sensitive : bool) (search_term term : list char)
  (line_num : Z) (line : list char) : option match_line :=
  let search_line := if case_sensitive then line else lower line in
  if contains term search_line then
    let pos := if case_sensitive then find search_term line
               else find term (lower line) in
    let start := Z.max 0 (position pos - 30) in
    let stop := Z.min (len line) (position pos + len search_term + 30) in
    let context := slice start stop line in
    let context := if 0 <? start then (ellipsis ++ context)%list else context in
    let context := if stop <? len line then (context ++ ellipsis)%list else context in
    Some (mkMatch line_num context pos)
  else None.

(** The loop of lines 952-975, from the number of the first line on. *)
Fixpoint matches_from (case_sensitive : bool) (search_term term : list char)
  (line_num : Z) (lines : list (list char)) : list match_line :=
  match lines with
  | [] => []
  | line :: rest =>
      let others := matches_from case_sensitive search_term term (line_num + 1) rest in
      match match_in_line case_sensitive search_term term line_num line with
      | Some m => m :: others
      | None => others
      end
  end.

Record search_report : Type := mkSearch {
  sr_found : Z;
  sr_shown : list match_line;
  sr_more : option Z;
  sr_filename : string;
  sr_size : Z
}.

Inductive search_view : Type :=
| Unreadable
| TermNotFound
| SearchReport (r : search_report).

(** Lines 938-996, on what [get_project_readme_content] returned. *)
Definition search_readme (result : option readme) (search_term : list char)
  (case_sensitive : bool) : search_view :=
  match result with
  | None | Some ReadmeNotFound => Unreadable
  | Some (ReadmeSuccess file) =>
      let content := rd_content file in
      let search_in := if case_sensitive then content else lower content in
      let term := if case_sensitive then search_term else lower search_term in
      if negb (contains term search_in) then TermNotFound
      else
        let lines := split_lines content in
        let matches := matches_from case_sensitive search_term term 1 lines in
        SearchReport {| sr_found := len matches;
                        sr_shown := take 10 matches;
                        sr_more := if 10 <? len matches then Some (len matches - 10)
                                   else None;
                        sr_filename := rd_filename file;
                        sr_size := rd_size_bytes file |}
  end.

Definition search_in_readme (o_tree : http_outcome (list record))
  (o_file : string -> http_outcome record) (project_identifier : string)
  (search_term : list char) (ref : string) (case_sensitive : bool)
  : outcome search_view :=
  result ← get_project_readme_content o_tree o_file project_identifier ref;
  Returned (search_readme result search_term case_sensitive).

(** *** check_readme_quality *)

(** The ratings: "ОТЛИЧНО", "ХОРОШО", "УДОВЛЕТВОРИТЕЛЬНО", "ТРЕБУЕТ ДОРАБОТКИ". *)
Inductive rating : Type := RatingExcellent | RatingGood | RatingFair | RatingPoor.

Record checks : Type := mkChecks {
  has_title : bool;
  has_description : bool;
  has_installation : bool;
  has_usage : bool;
  has_license : bool;
  has_code_examples : bool;
  has_links : bool;
  has_images : bool;
  proper_length : bool
}.

(** [any(word in s for word in words)]. *)
Definition any_in (words : list string) (s : list char) : bool :=
  existsb (fun word => contains (text_of word) s) words.

(** Lines 1034-1042. *)
Definition readme_checks (content : list char) : checks :=
  let lines := split_lines content in
  let content_lower := lower content in
  {| has_title :=
       existsb (fun line => startswith (text_of "# ") (strip line)) (take 5 lines);
     has_description :=
       5 <? len (filter (fun l => strip l <> []) lines);
     has_installation := any_in ["install"; "setup"; "getting started"] content_lower;
     has_usage := any_in ["usage"; "example"; "how to use"] content_lower;
     has_license := contains (text_of "license") content_lower;
     has_code_examples :=
       contains (text_of "```") content || contains (text_of "`") content;
     has_links :=
       contains (text_of "http://") content || contains (text_of "https://") content
       || contains (text_of "[") content;
     has_images :=
       contains (text_of "![") content || contains (text_of ".png") content_lower
       || contains (text_of ".jpg") content_lower;
     proper_length := (50 <? len content) && (len content <? 10000) |}.

(** [checks.values()], in the order of the dict. *)
Definition check_values (c : checks) : list bool :=
  [has_title c; has_description c; has_installation c; has_usage c; has_license c;
   has_code_examples c; has_links c; has_images c; proper_length c].

(** [sum(checks.values())]. *)
Definition score_of (c : checks) : Z :=
  sum_Z ((fun b : bool => if b then 1 else 0) <$> check_values c).

(** Lines 1047-1057.  The percentage, a float in the source, is an exact
    rational here: the ten scores from 0 to 9 are far from the thresholds. *)
Definition rating_of (score max_score : Z) : rating :=
  let percentage := (inject_Z score / inject_Z max_score * 100)%Q in
  if negb (Qltb percentage 80) then RatingExcellent
  else if negb (Qltb percentage 60) then RatingGood
  else if negb (Qltb percentage 40) then RatingFair
  else RatingPoor.

Record quality_report : Type := mkQuality {
  qr_filename : string;
  qr_checks : checks;
  qr_score : Z;
  qr_max_score : Z;
  qr_rating : rating;
  qr_lines : Z;
  qr_words : Z
}.

Inductive quality_view : Type :=
| QualityUnreadable
| QualityReport (r : quality_report).

(** Lines 1012-1100, on what [get_project_readme_content] returned. *)
Definition readme_quality (result : option readme) : quality_view :=
  match result with
  | None | Some ReadmeNotFound => QualityUnreadable
  | Some (ReadmeSuccess file) =>
      let content := rd_content file in
      let c := readme_checks content in
      let score := score_of c in
      let max_score := len (check_values c) in
      QualityReport {| qr_filename := rd_filename file;
                       qr_checks := c;
                       qr_score := score;
                       qr_max_score := max_score;
                       qr_rating := rating_of score max_score;
                       qr_lines := len (split_lines content);
                       qr_words := count_words false content |}
  end.

Definition check_readme_quality (o_tree : http_outcome (list record))
  (o_file : string -> http_outcome record) (project_identifier ref : string)
  : outcome quality_view :=
  result ← get_project_readme_content o_tree o_file project_identifier ref;
  Returned (readme_quality result).

End Texts.

(** ** Sample data *)

Definition py_datetime : PyDatetime :=
  {| fromisoformat := Py.fromisoformat;
     strptime := Py.strptime;
     strftime := Py.strftime |}.

Module Sample.

Definition config : Config := {| GITLAB_URL := "https://gitlab.example.com" |}.

(** 2024-03-01 05:00:00, local time. *)
Definition clock : Z := 738946 * us_per_day + 5 * us_per_hour.

Definition merge_request (created_at merged_at : json) : record :=
  <["created_at" := created_at]> (<["merged_at" := merged_at]> (<["state" := JStr "merged"]> ∅)).

Definition incident (created_at closed_at : json) : record :=
  <["created_at" := created_at]> (<["closed_at" := closed_at]> (<["state" := JStr "closed"]> ∅)).

Definition deployment (status : string) : record :=
  <["status" := JStr status]> ∅.

Definition pipeline (id : Z) (status : string) : record :=
  <["id" := JNum id]> (<["status" := JStr status]> ∅).

Definition issue (state : string) (created_at : json) : record :=
  <["state" := JStr state]> (<["created_at" := created_at]> ∅).

Definition project (last_activity_at : string) : record :=
  <["name" := JStr "demo"]> (<["last_activity_at" := JStr last_activity_at]> ∅).

(** Merged two days after its creation. *)
Definition mr_two_days : record :=
  merge_request (JStr "2024-02-01T10:00:00Z") (JStr "2024-02-03T10:00:00Z").

(** Merged 36 hours after its creation. *)
Definition mr_36_hours : record :=
  merge_request (JStr "2024-02-01T00:00:00Z") (JStr "2024-02-02T12:00:00Z").

(** Listed as merged, without [merged_at]. *)
Definition mr_no_merged_at : record :=
  merge_request (JStr "2024-02-05T08:00:00Z") JNull.

(** A timestamp that is not ISO 8601. *)
Definition mr_bad_created_at : record :=
  merge_request (JStr "yesterday") (JStr "2024-02-03T10:00:00Z").

(** An open issue without [created_at]. *)
Definition issue_no_created_at : record :=
  <["state" := JStr "opened"]> ∅.

Definition ok {A : Type} (body : A) : http_outcome A := Response 200 (Some body).

(** One failed deployment out of three, over February 2024. *)
Definition deployments : list record :=
  [deployment "failed"; deployment "success"; deployment "success"].

Definition low_report : dora_report :=
  mkDora "42" "2024-02-01" "2024-03-01" 29 (3 # 29) 2 0 (100 # 3) Low 3 2 1 0 1 0.

(** Two deployments in a window that starts and ends on 2024-03-01. *)
Definition same_day_report : dora_report :=
  mkDora "42" "2024-03-01" "2024-03-01" 0 2 0 0 (0 # 2) Elite 2 2 0 0 0 0.

(** Ten merge requests, each merged two days after its creation. *)
Definition ten_report : dora_report :=
  mkDora "42" "2024-01-31" "2024-03-01" 30 (0 # 30) (20 # 10) 0 0 High 0 0 0 0 10 0.

(** Three merge requests and two incidents, one of each without its terminal
    timestamp; and the report computed without these two records. *)
Definition merge_requests : list record :=
  [mr_two_days; mr_no_merged_at; mr_36_hours].

Definition incidents : list record :=
  [incident (JStr "2024-02-10T00:00:00Z") (JStr "2024-02-10T06:00:00Z");
   incident (JStr "2024-02-11T00:00:00Z") JNull].

Definition terminated_report : dora_report :=
  mkDora "42" "2024-02-01" "2024-03-01" 29 (0 # 29) (3 # 2)
    (21600000000 # 3600000000) 0 High 0 0 0 0 2 1.

(** Two open issues and a closed one. *)
Definition issues : list record :=
  [issue "opened" (JStr "2024-02-20T00:00:00Z"); issue "closed" JNull;
   issue "opened" (JStr "2024-03-01T01:00:00Z")].

Definition ages : age_groups := mkAges 1 0 1 0.

(** A project active four days ago, with three merge requests, two issues,
    a successful pipeline and one event. *)
Definition healthy_report : health_report :=
  mkHealth (JStr "demo") (JStr "N/A") 4 (JStr "N/A")
    (PipelineLatest (JStr "success") (Some (JNum 7))) (JNum 0) (JNum 0) 3 2
    (JStr "N/A") 1 [(JStr "unknown", JStr "unknown", JStr EmptyString)] [] 100 Excellent.

End Sample.

(** ** Sample data for the further tools *)

Module Cases.

Definition event (action : string) (user : string) : record :=
  <["action_name" := JStr action]>
    (<["author" := JObj (<["username" := JStr user]> ∅)]>
       (<["created_at" := JStr "2024-02-28T10:15:00Z"]> ∅)).

(** Two pushes, a comment and an event that is not a key event. *)
Definition events : list record :=
  [event "pushed to" "ann"; event "joined" "bob"; event "commented on" "ann";
   event "pushed to" "cid"].

Definition merge_request (state : string) : record :=
  <["state" := JStr state]> ∅.

Definition merged (created_at merged_at : string) : record :=
  <["state" := JStr "merged"]>
    (<["created_at" := JStr created_at]> (<["merged_at" := JStr merged_at]> ∅)).

(** One open, two merged (one of them without dates), one closed and one
    locked merge request. *)
Definition merge_requests : list record :=
  [merge_request "opened";
   merged "2024-02-01T00:00:00Z" "2024-02-02T12:00:00Z";
   merge_request "merged"; merge_request "closed"; merge_request "locked"].

(** A merged request whose [changes_count] is the text "12". *)
Definition sized : record :=
  <["state" := JStr "merged"]> (<["changes_count" := JStr "12"]> ∅).

Definition pipeline (id : Z) (status : string) : record :=
  <["id" := JNum id]> (<["status" := JStr status]> (<["ref" := JStr "main"]> ∅)).

(** Five complete pipelines and a sixth without [status]. *)
Definition pipelines : list record :=
  [pipeline 6 "success"; pipeline 5 "failed"; pipeline 4 "success";
   pipeline 3 "success"; pipeline 2 "running"; <["id" := JNum 1]> ∅].

(** Two open issues and a closed one, and the same in another order. *)
Definition issues : list record :=
  [Sample.issue "opened" (JStr "2024-02-20T00:00:00Z"); Sample.issue "closed" JNull;
   Sample.issue "opened" (JStr "2024-03-01T01:00:00Z")].

Definition issues_reordered : list record :=
  [Sample.issue "closed" JNull; Sample.issue "opened" (JStr "2024-03-01T01:00:00Z");
   Sample.issue "opened" (JStr "2024-02-20T00:00:00Z")].

(** A project without a date of last activity. *)
Definition silent_project : record := <["name" := JStr "demo"]> ∅.

End Cases.

(** ** A text library for the sample data

    An executable instance of [PyText] for texts of ASCII characters: the
    letters A-Z are lowered, the spaces are the characters 9-13, 28-32, and
    base64 is decoded over the standard alphabet, characters outside it
    skipped, up to the padding. *)

Module Ascii.

Definition lower_char (c : ascii) : ascii :=
  let n := N_of_ascii c in
  if ((65 <=? n) && (n <=? 90))%N then ascii_of_N (n + 32) else c.

Definition isspace (c : ascii) : bool :=
  let n := N_of_ascii c in
  (((9 <=? n) && (n <=? 13)) || ((28 <=? n) && (n <=? 32)))%N.

(** The value of a character of the base64 alphabet. *)
Definition b64_value (c : ascii) : option N :=
  let n := N_of_ascii c in
  if ((65 <=? n) && (n <=? 90))%N then Some (n - 65)%N
  else if ((97 <=? n) && (n <=? 122))%N then Some (n - 71)%N
  else if ((48 <=? n) && (n <=? 57))%N then Some (n + 4)%N
  else if (n =? 43)%N then Some 62%N
  else if (n =? 47)%N then Some 63%N
  else None.

Definition is_pad (c : ascii) : bool := (N_of_ascii c =? 61)%N.

(** A decoded byte as a character: only ASCII is decoded. *)
Definition byte_char (n : N) : option ascii :=
  if (n <? 128)%N then Some (ascii_of_N n) else None.

(** The groups of four characters, up to the padding. *)
Fixpoint decode_groups (l : list ascii) : option (list ascii) :=
  match l with
  | [] => Some []
  | a :: b :: c :: d :: rest =>
      va ← b64_value a;
      vb ← b64_value b;
      if is_pad c then
        if is_pad d then
          x ← byte_char (va * 4 + vb / 16)%N; Some [x]
        else None
      else
        vc ← b64_value c;
        x ← byte_char (va * 4 + vb / 16)%N;
        y ← byte_char ((vb mod 16) * 16 + vc / 4)%N;
        if is_pad d then Some [x; y]
        else
          vd ← b64_value d;
          z ← byte_char ((vc mod 4) * 64 + vd)%N;
          others ← decode_groups rest;
          Some (x :: y :: z :: others)
  | _ => None
  end.

Definition b64decode_utf8 (s : string) : option (list ascii) :=
  decode_groups
    (filter (fun c => is_Some (b64_value c) \/ is_pad c = true)
       (list_ascii_of_string s)).

End Ascii.

Definition ascii_text : PyText ascii :=
  {| chr := fun c => c;
     lower := fun s => Ascii.lower_char <$> s;
     isspace := Ascii.isspace;
     b64decode_utf8 := Ascii.b64decode_utf8 |}.

(** ** Sample data for the README tools *)

Module Readmes.

Definition entry (name type : string) : record :=
  <["name" := JStr name]> (<["type" := JStr type]> (<["path" := JStr name]> ∅)).

(** A tree with a directory, two README files and a directory named
    "readme". *)
Definition tree : list record :=
  [entry "src" "tree"; entry "README.rst" "blob"; entry "Readme.md" "blob";
   entry "readme" "tree"].

(** A tree with one README file, which has no path. *)
Definition pathless : list record :=
  [<["name" := JStr "README"]> (<["type" := JStr "blob"]> ∅)].

(** The README, of nine lines, in base64. *)
Definition encoded : string :=
  "IyBEZW1vCgpJbnN0YWxsIHdpdGggYG1ha2UgaW5zdGFsbGAuClVzYWdlOiBzZWUgaHR0cHM6Ly9leGFtcGxlLm9yZwohW2xvZ29dKGxvZ28ucG5nKQpMaWNlbnNlOiBNSVQKQnVpbGQsIHRoZW4gcnVuIGRlbW8uClRoZSBkZW1vIG5lZWRzIG5vIHNldHVwLgo=".

Definition file_data : record :=
  <["content" := JStr encoded]>
    (<["encoding" := JStr "base64"]>
       (<["last_commit_id" := JStr "0123456789abcdef"]> ∅)).

(** The answers of the server: the file "Readme.md" exists. *)
Definition files (path : string) : http_outcome record :=
  if String.eqb path "Readme.md" then Response 200 (Some file_data)
  else Response 404 None.

(** The README that is decoded. *)
Definition text : list ascii :=
  match Ascii.b64decode_utf8 encoded with
  | Some decoded => decoded
  | None => []
  end.

Definition readme : @readme_file ascii :=
  @mkReadme ascii "Readme.md" "Readme.md" text 146 (JStr "base64")
    (Some (JStr "0123456789abcdef")).

Definition demo : list ascii := list_ascii_of_string "demo".

(** The term "demo." followed by a line break and "The". *)
Definition across : list ascii :=
  (list_ascii_of_string "demo." ++ ["010"%char] ++ list_ascii_of_string "The")%list.

End Readmes.

(** ** Properties *)

Section Properties.

Context `{PyDatetime} `{Config}.

(** *** The error monad *)

Lemma bind_Ok {A B : Type} (m : result A) (f : A -> result B) (b : B) :
  m ≫= f = Ok b -> exists a, m = Ok a /\ f a = Ok b.
Proof. destruct m as [a|e]; simpl; intros E; [eauto | discriminate]. Qed.

Lemma fmap_Ok {A B : Type} (m : result A) (f : A -> B) (b : B) :
  f <$> m = Ok b -> exists a, m = Ok a /\ b = f a.
Proof. destruct m as [a|e]; simpl; intros E; [| discriminate]. injection E as <-. eauto. Qed.

Lemma bind_Ok_l {A B : Type} (a : A) (f : A -> result B) : Ok a ≫= f = f a.
Proof. reflexivity. Qed.

Lemma bind_Raise_l {A B : Type} (e : exn) (f : A -> result B) :
  Raise e ≫= f = Raise e.
Proof. reflexivity. Qed.

Ltac inv_result :=
  repeat match goal with
  | E : _ ≫= _ = Ok _ |- _ =>
      let a := fresh "a" in let Ea := fresh "Ea" in
      apply bind_Ok in E; destruct E as (a & Ea & E)
  | E : _ <$> _ = Ok _ |- _ =>
      let a := fresh "a" in let Ea := fresh "Ea" in
      apply fmap_Ok in E; destruct E as (a & Ea & E)
  | E : Ok _ = Ok _ |- _ => injection E as E
  | E : Raise _ = Ok _ |- _ => discriminate E
  end.

(** *** Rationals *)

Lemma Qltb_lt (x y : Q) : Qltb x y = true <-> (x < y)%Q.
Proof. unfold Qltb, Qlt. apply Z.ltb_lt. Qed.

Lemma len_nonneg {A : Type} (l : list A) : 0 <= len l.
Proof. unfold len. lia. Qed.

Lemma len_cons {A : Type} (x : A) (l : list A) : len (x :: l) = len l + 1.
Proof. unfold len. simpl length. lia. Qed.

(** *** The fetcher *)

Lemma fetch_returned {A : Type} (endpoint : string) (o : http_outcome A) :
  fetch endpoint o = returned o.
Proof. unfold fetch, make_gitlab_request, returned. destruct (try_get o); reflexivity. Qed.

Lemma get_dora_metrics_results clock o0 o1 o2 o3 pid sd ed :
  get_dora_metrics clock o0 o1 o2 o3 pid sd ed
  = dora_from_results pid (date_or sd (date_string clock (-30)))
      (date_or ed (date_string clock 0))
      (returned o0) (returned o1) (returned o2) (returned o3).
Proof. unfold get_dora_metrics. rewrite !fetch_returned. reflexivity. Qed.

Lemma or_empty_Some {A : Type} (l : list A) : or_empty (Some l) = l.
Proof. destruct l; reflexivity. Qed.

(** *** The DORA level *)

Lemma devops_level_low (f l c : Q) : (15 < c)%Q -> devops_level f l c = Low.
Proof.
  intros Hc. apply Qltb_lt in Hc. unfold devops_level. rewrite Hc. reflexivity.
Qed.

Lemma dora_from_results_level pid sd ed r0 r1 r2 r3 r :
  dora_from_results pid sd ed r0 r1 r2 r3 = Ok r ->
  dr_devops_level r =
    devops_level (dr_deployment_freq r) (dr_avg_lead_time r) (dr_change_failure_rate r).
Proof.
  unfold dora_from_results. intros E. inv_result. subst r. reflexivity.
Qed.

(** C1. Whenever the change-failure rate of a report of [get_dora_metrics]
    exceeds 15, its level is "Low": the rule of line 121 comes last, and it
    gives "Low" whatever the deployment frequency and the lead time are. *)
Theorem failure_rate_forces_low clock o0 o1 o2 o3 pid sd ed r :
  get_dora_metrics clock o0 o1 o2 o3 pid sd ed = Ok r ->
  (15 < dr_change_failure_rate r)%Q ->
  dr_devops_level r = Low
  /\ forall freq lead : Q, devops_level freq lead (dr_change_failure_rate r) = Low.
Proof.
  unfold get_dora_metrics. intros E Hc. split.
  - rewrite (dora_from_results_level _ _ _ _ _ _ _ _ E).
    apply devops_level_low, Hc.
  - intros freq lead. apply devops_level_low, Hc.
Qed.

(** *** Absent and empty collections *)

(** C10. In [get_dora_metrics], an absent result in any of the four slots
    gives the same report as an empty list in that slot; so a failed request
    gives the report of a request answered with an empty array. *)
Theorem absent_is_empty clock pid sd ed r0 r1 r2 r3 o0 o1 o2 o3 osd oed :
  (dora_from_results pid sd ed None r1 r2 r3
   = dora_from_results pid sd ed (Some []) r1 r2 r3
   /\ dora_from_results pid sd ed r0 None r2 r3
      = dora_from_results pid sd ed r0 (Some []) r2 r3
   /\ dora_from_results pid sd ed r0 r1 None r3
      = dora_from_results pid sd ed r0 r1 (Some []) r3
   /\ dora_from_results pid sd ed r0 r1 r2 None
      = dora_from_results pid sd ed r0 r1 r2 (Some []))
  /\ forall bad : http_outcome (list record),
      returned bad = None ->
      let empty := Response 200 (Some []) in
      get_dora_metrics clock bad o1 o2 o3 pid osd oed
      = get_dora_metrics clock empty o1 o2 o3 pid osd oed
      /\ get_dora_metrics clock o0 bad o2 o3 pid osd oed
         = get_dora_metrics clock o0 empty o2 o3 pid osd oed
      /\ get_dora_metrics clock o0 o1 bad o3 pid osd oed
         = get_dora_metrics clock o0 o1 empty o3 pid osd oed
      /\ get_dora_metrics clock o0 o1 o2 bad pid osd oed
         = get_dora_metrics clock o0 o1 o2 empty pid osd oed.
Proof.
  split; [repeat split; reflexivity |].
  intros bad Hbad empty.
  unfold get_dora_metrics. rewrite !fetch_returned, Hbad.
  repeat split; reflexivity.
Qed.


(** *** Deployment frequency *)

Lemma days_period_ordinals sd ed p :
  days_period sd ed = Ok p ->
  exists s e, strptime sd = Some s /\ strptime ed = Some e /\ p = e - s.
Proof.
  unfold days_period, parse_date. intros E.
  destruct (strptime ed) as [e|]; [| discriminate E].
  destruct (strptime sd) as [s|]; [| discriminate E].
  simpl in E. injection E as <-. exists s, e. repeat split.
  unfold days, midnight; simpl.
  replace (e * us_per_day - s * us_per_day) with ((e - s) * us_per_day) by ring.
  apply Z.div_mul. discriminate.
Qed.

Lemma deployment_freq_ratio (deployments : list record) (p : Z) :
  (deployment_freq deployments p == len deployments # Z.to_pos (Z.max p 1))%Q.
Proof.
  unfold deployment_freq. rewrite Qmake_Qdiv.
  rewrite Z2Pos.id by lia. reflexivity.
Qed.

(** C7. The duration that divides the deployment count is
    [max(days_period, 1)]: it is at least 1, it is 1 when the window is empty
    or reversed, in particular when start and end are the same date, so the
    frequency is a well-defined, non-negative ratio. *)
Theorem duration_never_zero clock o0 o1 o2 o3 pid sd ed r :
  get_dora_metrics clock o0 o1 o2 o3 pid sd ed = Ok r ->
  let duration := Z.max (dr_days_period r) 1 in
  let deployments := or_empty (returned o1) in
  (exists s e, strptime (dr_start_date r) = Some s
               /\ strptime (dr_end_date r) = Some e
               /\ dr_days_period r = e - s)
  /\ 1 <= duration
  /\ (dr_days_period r <= 0 -> duration = 1)
  /\ (dr_start_date r = dr_end_date r -> duration = 1)
  /\ (dr_deployment_freq r == len deployments # Z.to_pos duration)%Q
  /\ (0 <= dr_deployment_freq r)%Q.
Proof.
  rewrite get_dora_metrics_results. unfold dora_from_results.
  intros E. inv_result. subst r. cbn [dr_days_period dr_start_date dr_end_date
    dr_deployment_freq].
  destruct (days_period_ordinals _ _ _ Ea) as (s & e & Hs & He & Hp).
  split; [eauto |]. split; [lia |]. split; [lia |]. split.
  - intros Hsame. rewrite Hsame in Hs. rewrite Hs in He.
    injection He as ->. lia.
  - split; [apply deployment_freq_ratio |].
    rewrite deployment_freq_ratio. unfold Qle; simpl.
    pose proof (len_nonneg (or_empty (returned o1))). lia.
Qed.

(** *** Change failure rate *)

Lemma failed_deployments_bounds (deployments : list record) :
  0 <= failed_deployments deployments <= len deployments.
Proof.
  unfold failed_deployments, len. split; [lia |].
  apply inj_le, length_filter.
Qed.

Lemma change_failure_rate_ratio (deployments : list record) :
  deployments <> [] ->
  (change_failure_rate deployments
   == 100 * inject_Z (failed_deployments deployments) / inject_Z (len deployments))%Q.
Proof.
  intros Hne. unfold change_failure_rate.
  destruct deployments as [|d l]; [congruence |].
  field. rewrite len_cons. pose proof (len_nonneg l).
  intros Hz. unfold Qeq in Hz; simpl in Hz. lia.
Qed.

Lemma change_failure_rate_range (deployments : list record) :
  (0 <= change_failure_rate deployments <= 100)%Q.
Proof.
  destruct deployments as [|d l] eqn:Hd.
  - simpl. split; [apply Qle_refl | discriminate].
  - rewrite <- Hd. assert (Hne : deployments <> []) by (rewrite Hd; discriminate).
    rewrite (change_failure_rate_ratio _ Hne).
    pose proof (failed_deployments_bounds deployments) as [Hlo Hhi].
    assert (Hpos : 0 < len deployments).
    { rewrite Hd, len_cons. pose proof (len_nonneg l). lia. }
    assert (Hq : (0 < inject_Z (len deployments))%Q).
    { rewrite (Zlt_Qlt 0) in Hpos. exact Hpos. }
    split.
    + apply Qle_shift_div_l; [exact Hq |]. rewrite Qmult_0_l.
      change 100%Q with (inject_Z 100). rewrite <- inject_Z_mult.
      rewrite <- (Zle_Qle 0). lia.
    + apply Qle_shift_div_r; [exact Hq |].
      change 100%Q with (inject_Z 100). rewrite <- !inject_Z_mult.
      rewrite <- Zle_Qle. lia.
Qed.

(** C8. The change failure rate of a report is 100 times the number of
    deployments whose status is "failed" over the number of deployments, it
    is 0 when there is no deployment, and it lies between 0 and 100. *)
Theorem change_failure_rate_spec clock o0 o1 o2 o3 pid sd ed r :
  get_dora_metrics clock o0 o1 o2 o3 pid sd ed = Ok r ->
  let deployments := or_empty (returned o1) in
  let failed := len (filter (fun d => get_is_str d "status" "failed" = true) deployments) in
  (deployments <> [] ->
   (dr_change_failure_rate r == 100 * inject_Z failed / inject_Z (len deployments))%Q)
  /\ (deployments = [] -> dr_change_failure_rate r = 0%Q)
  /\ (0 <= dr_change_failure_rate r <= 100)%Q
  /\ dr_failed r = failed
  /\ dr_deployments r = len deployments.
Proof.
  rewrite get_dora_metrics_results. unfold dora_from_results.
  intros E. inv_result. subst r.
  cbn [dr_change_failure_rate dr_failed dr_deployments].
  split; [apply change_failure_rate_ratio |].
  split; [intros ->; reflexivity |].
  split; [apply change_failure_rate_range |].
  split; reflexivity.
Qed.

(** *** The loops over merge requests and incidents *)

(** What the records contribute, given the elapsed time of each. *)
Lemma lead_times_elapsed (l : list record) (es : list (option Z)) :
  Forall2 (fun mr e => elapsed "merged_at" mr = Ok e) l es ->
  lead_times l = Ok (days <$> omap id es).
Proof.
  induction 1 as [|mr e l es He _ IH]; [reflexivity |].
  simpl lead_times. rewrite He, IH. simpl. destruct e; reflexivity.
Qed.

Lemma restore_times_elapsed (l : list record) (es : list (option Z)) :
  Forall2 (fun inc e => elapsed "closed_at" inc = Ok e) l es ->
  restore_times l = Ok (total_hours <$> omap id es).
Proof.
  induction 1 as [|inc e l es He _ IH]; [reflexivity |].
  simpl restore_times. rewrite He, IH. simpl. destruct e; reflexivity.
Qed.

(** A record without terminal timestamp contributes nothing, once its
    [created_at] is parsed. *)
Lemma elapsed_without_terminal (k : string) (r : record) :
  get_truthy r k = false ->
  is_ok (getitem r "created_at" ≫= parse_timestamp) = true ->
  elapsed k r = Ok None.
Proof.
  intros Hk Hc. unfold elapsed, terminal_timestamp. rewrite Hk.
  destruct (getitem r "created_at" ≫= parse_timestamp) as [c|e]; [reflexivity |].
  simpl in Hc. discriminate Hc.
Qed.

Lemma lead_times_filter (l : list record) :
  (forall mr, mr ∈ l -> get_truthy mr "merged_at" = false ->
              is_ok (getitem mr "created_at" ≫= parse_timestamp) = true) ->
  lead_times l = lead_times (filter (fun mr => get_truthy mr "merged_at" = true) l).
Proof.
  induction l as [|mr l IH]; intros Hl; [reflexivity |].
  assert (IH' := IH (fun x Hx => Hl x (list_elem_of_further _ _ _ Hx))).
  destruct (get_truthy mr "merged_at") eqn:Hm.
  - rewrite filter_cons_True by exact Hm. simpl. rewrite IH'. reflexivity.
  - rewrite filter_cons_False by (rewrite Hm; discriminate).
    simpl. rewrite (elapsed_without_terminal _ _ Hm) by (apply Hl; [left | exact Hm]).
    simpl. rewrite <- IH'. destruct (lead_times l); reflexivity.
Qed.

Lemma restore_times_filter (l : list record) :
  (forall inc, inc ∈ l -> get_truthy inc "closed_at" = false ->
               is_ok (getitem inc "created_at" ≫= parse_timestamp) = true) ->
  restore_times l
  = restore_times (filter (fun inc => get_truthy inc "closed_at" = true) l).
Proof.
  induction l as [|inc l IH]; intros Hl; [reflexivity |].
  assert (IH' := IH (fun x Hx => Hl x (list_elem_of_further _ _ _ Hx))).
  destruct (get_truthy inc "closed_at") eqn:Hm.
  - rewrite filter_cons_True by exact Hm. simpl. rewrite IH'. reflexivity.
  - rewrite filter_cons_False by (rewrite Hm; discriminate).
    simpl. rewrite (elapsed_without_terminal _ _ Hm) by (apply Hl; [left | exact Hm]).
    simpl. rewrite <- IH'. destruct (restore_times l); reflexivity.
Qed.

(** A [created_at] that does not parse stops the loop with [ValueError]. *)
Lemma elapsed_unparsable (k : string) (r : record) (s : string) :
  r !! "created_at" = Some (JStr s) ->
  fromisoformat (replace_Z s) = None ->
  elapsed k r = Raise ValueError.
Proof.
  intros Hk Hs. unfold elapsed, getitem. rewrite Hk. simpl. rewrite Hs. reflexivity.
Qed.

Lemma lead_times_raises (l1 l2 : list record) (mr : record) :
  is_ok (elapsed "merged_at" mr) = false ->
  is_ok (lead_times (l1 ++ mr :: l2)) = false.
Proof.
  intros Hmr. induction l1 as [|x l1 IH]; simpl.
  - destruct (elapsed "merged_at" mr); [discriminate | reflexivity].
  - destruct (elapsed "merged_at" x); [| reflexivity]. simpl.
    destruct (lead_times (l1 ++ mr :: l2)); [discriminate | reflexivity].
Qed.

Lemma restore_times_raises (l1 l2 : list record) (inc : record) :
  is_ok (elapsed "closed_at" inc) = false ->
  is_ok (restore_times (l1 ++ inc :: l2)) = false.
Proof.
  intros Hinc. induction l1 as [|x l1 IH]; simpl.
  - destruct (elapsed "closed_at" inc); [discriminate | reflexivity].
  - destruct (elapsed "closed_at" x); [| reflexivity]. simpl.
    destruct (restore_times (l1 ++ inc :: l2)); [discriminate | reflexivity].
Qed.

(** *** The age histogram *)

Lemma count_age_total (age : Z) (g : age_groups) :
  total_ages (count_age age g) = total_ages g + 1.
Proof.
  unfold count_age, total_ages.
  destruct (age <? 1); [simpl; lia |].
  destruct (age <=? 7); [simpl; lia |].
  destruct (age <=? 30); simpl; lia.
Qed.

Lemma age_loop_total (clock : Z) (issues : list record) (g g' : age_groups) :
  age_loop clock issues g = Ok g' ->
  total_ages g'
  = total_ages g + len (filter (fun i => get_is_str i "state" "opened" = true) issues).
Proof.
  revert g. induction issues as [|i issues IH]; intros g E.
  - simpl in E. injection E as <-. unfold len; simpl. lia.
  - simpl in E. apply bind_Ok in E as (state & Hst & E).
    unfold getitem in Hst.
    destruct (i !! "state") as [v|] eqn:Hk; [injection Hst as -> | discriminate Hst].
    assert (Hi : get_is_str i "state" "opened" = is_str state "opened").
    { unfold get_is_str. rewrite Hk. reflexivity. }
    destruct (is_str state "opened") eqn:Hopen.
    + rewrite filter_cons_True by exact Hi. rewrite len_cons.
      inv_result. apply IH in E. rewrite E, count_age_total. lia.
    + rewrite filter_cons_False by (rewrite Hi; discriminate).
      apply IH in E. exact E.
Qed.

(** *** Lead time *)

Lemma sum_Z_const (c : Z) (l : list Z) : Forall (eq c) l -> sum_Z l = c * len l.
Proof.
  induction 1 as [|x l Hx _ IH]; [unfold len; simpl; lia |].
  subst x. simpl sum_Z. rewrite IH, len_cons. ring.
Qed.

Lemma mean_Z_const (c : Z) (l : list Z) :
  l <> [] -> Forall (eq c) l -> (mean_Z l == inject_Z c)%Q.
Proof.
  intros Hne Hall. destruct l as [|x l]; [congruence |].
  unfold mean_Z. rewrite (sum_Z_const c) by exact Hall.
  rewrite inject_Z_mult. field.
  rewrite len_cons. pose proof (len_nonneg l) as Hl.
  intros Hz. unfold Qeq in Hz; simpl in Hz. lia.
Qed.

Lemma two_days_each (es : list (option Z)) :
  Forall (eq (Some (2 * us_per_day))) es ->
  Forall (eq 2) (days <$> omap id es) /\ length (days <$> omap id es) = length es.
Proof.
  induction 1 as [|e es He _ [IH1 IH2]]; [split; [constructor | reflexivity] |].
  subst e. split.
  - constructor; [reflexivity | exact IH1].
  - change (S (length (days <$> omap id es)) = S (length es)). congruence.
Qed.

(** C4 (amended). The lead time of a report is the mean of the whole days
    between [created_at] and [merged_at], each difference rounded down, over
    those of the first 50 merge requests returned that carry [merged_at]; it
    is 0 when none does; ten merge requests merged exactly two days after
    their creation give exactly 2. *)
Theorem lead_time_whole_days clock o0 o1 o2 o3 pid sd ed r es :
  get_dora_metrics clock o0 o1 o2 o3 pid sd ed = Ok r ->
  Forall2 (fun mr e => elapsed "merged_at" mr = Ok e)
          (take 50 (or_empty (returned o2))) es ->
  let whole_days := days <$> omap id es in
  dr_avg_lead_time r = mean_Z whole_days
  /\ (whole_days = [] -> dr_avg_lead_time r = 0%Q)
  /\ (length es = 10%nat -> Forall (eq (Some (2 * us_per_day))) es ->
      (dr_avg_lead_time r == 2)%Q).
Proof.
  intros E Hes whole_days.
  rewrite get_dora_metrics_results in E. unfold dora_from_results in E.
  inv_result. subst r. cbn [dr_avg_lead_time].
  unfold avg_lead_time in Ea0. rewrite (lead_times_elapsed _ _ Hes) in Ea0.
  simpl in Ea0. injection Ea0 as <-. fold whole_days.
  split; [reflexivity |]. split; [intros ->; reflexivity |].
  intros Hlen Hall. destruct (two_days_each es Hall) as [H2 Hl].
  apply (mean_Z_const 2); [| exact H2].
  intros Hnil. unfold whole_days in Hnil. rewrite Hnil in Hl. simpl in Hl. lia.
Qed.

(** *** Records without terminal timestamp *)

Lemma take_filter_take {A : Type} (P : A -> Prop) `{forall x, Decision (P x)}
  (n : nat) (l : list A) :
  take n (filter P (take n l)) = filter P (take n l).
Proof.
  apply take_ge. etransitivity; [apply length_filter |].
  rewrite length_take. lia.
Qed.

Lemma bucketed_issues (clock : Z) (issues : list record) (g : age_groups) :
  issue_age_groups clock issues = Ok g ->
  total_ages g = len (filter (fun i => get_is_str i "state" "opened" = true) issues).
Proof.
  unfold issue_age_groups. intros E. apply age_loop_total in E. exact E.
Qed.

Lemma terminal_timestamp_report pid sd ed r0 r1 (mrs incidents : list record) r :
  let merged := fun mr : record => get_truthy mr "merged_at" = true in
  let closed := fun inc : record => get_truthy inc "closed_at" = true in
  let created := fun x : record => getitem x "created_at" ≫= parse_timestamp in
  (forall mr, mr ∈ take 50 mrs -> get_truthy mr "merged_at" = false ->
              is_ok (created mr) = true) ->
  (forall inc, inc ∈ incidents -> get_truthy inc "closed_at" = false ->
               is_ok (created inc) = true) ->
  dora_from_results pid sd ed r0 r1
    (Some (filter merged (take 50 mrs))) (Some (filter closed incidents)) = Ok r ->
  dora_from_results pid sd ed r0 r1 (Some mrs) (Some incidents)
  = Ok (with_totals r (len mrs) (len incidents)).
Proof.
  intros merged closed created Hm Hi E. unfold dora_from_results in *.
  rewrite !or_empty_Some in *.
  assert (Hlead : avg_lead_time mrs = avg_lead_time (filter merged (take 50 mrs))).
  { unfold avg_lead_time. rewrite take_filter_take.
    rewrite <- lead_times_filter by exact Hm. reflexivity. }
  assert (Hrest : avg_restore_time incidents
                  = avg_restore_time (filter closed incidents)).
  { unfold avg_restore_time. rewrite <- restore_times_filter by exact Hi.
    reflexivity. }
  rewrite Hlead, Hrest. inv_result. subst r.
  rewrite Ea, Ea0, Ea1. reflexivity.
Qed.

(** C3 (amended). A merge request or incident whose terminal timestamp
    ([merged_at], [closed_at]) is absent is left out of that aggregate only.
    Lead time reads the first 50 merge requests: when the [created_at] of
    the records left out parses, the report is the one computed with them
    removed from these first 50 - a record removed does not let the 51st in
    - and from the incidents, except that the totals count every record; for
    at most 50 merge requests it is the report computed without such
    records.  A [created_at] that does not parse is not skipped: the
    derivation raises.  The age histogram holds every open issue once it is
    built. *)
Theorem absent_terminal_timestamp_excluded pid sd ed r0 r1
  (mrs incidents : list record) clock issues :
  let merged := fun mr : record => get_truthy mr "merged_at" = true in
  let closed := fun inc : record => get_truthy inc "closed_at" = true in
  let created := fun x : record => getitem x "created_at" ≫= parse_timestamp in
  (forall r,
      (forall mr, mr ∈ take 50 mrs -> get_truthy mr "merged_at" = false ->
                  is_ok (created mr) = true) ->
      (forall inc, inc ∈ incidents -> get_truthy inc "closed_at" = false ->
                   is_ok (created inc) = true) ->
      dora_from_results pid sd ed r0 r1
        (Some (filter merged (take 50 mrs))) (Some (filter closed incidents)) = Ok r ->
      dora_from_results pid sd ed r0 r1 (Some mrs) (Some incidents)
      = Ok (with_totals r (len mrs) (len incidents)))
  /\ (forall r,
      (length mrs <= 50)%nat ->
      (forall mr, mr ∈ mrs -> get_truthy mr "merged_at" = false ->
                  is_ok (created mr) = true) ->
      (forall inc, inc ∈ incidents -> get_truthy inc "closed_at" = false ->
                   is_ok (created inc) = true) ->
      dora_from_results pid sd ed r0 r1
        (Some (filter merged mrs)) (Some (filter closed incidents)) = Ok r ->
      dora_from_results pid sd ed r0 r1 (Some mrs) (Some incidents)
      = Ok (with_totals r (len mrs) (len incidents)))
  /\ (forall l1 x l2 s r2 r3,
        x !! "created_at" = Some (JStr s) ->
        fromisoformat (replace_Z s) = None ->
        ((length l1 < 50)%nat ->
         is_ok (dora_from_results pid sd ed r0 r1 (Some (l1 ++ x :: l2)%list) r3) = false)
        /\ is_ok (dora_from_results pid sd ed r0 r1 r2 (Some (l1 ++ x :: l2)%list)) = false)
  /\ (forall g,
        issue_age_groups clock issues = Ok g ->
        total_ages g
        = len (filter (fun i => get_is_str i "state" "opened" = true) issues)).
Proof.
  intros merged closed created. split; [| split; [| split]].
  - intros r Hm Hi E. apply terminal_timestamp_report; assumption.
  - intros r Hlen Hm Hi E. apply terminal_timestamp_report.
    + rewrite take_ge by exact Hlen. exact Hm.
    + exact Hi.
    + rewrite take_ge by exact Hlen. exact E.
  - intros l1 x l2 s r2 r3 Hx Hs.
    assert (Hm := elapsed_unparsable "merged_at" x s Hx Hs).
    assert (Hc := elapsed_unparsable "closed_at" x s Hx Hs).
    unfold dora_from_results. rewrite !or_empty_Some.
    destruct (days_period sd ed) as [p|e]; [| split; reflexivity]. simpl.
    split.
    + intros Hlen. unfold avg_lead_time.
      rewrite take_app_ge by lia. 
      destruct (50 - length l1)%nat as [|k] eqn:Hk; [lia |]. simpl take.
      pose proof (lead_times_raises l1 (take k l2) x) as Hr.
      rewrite Hm in Hr. specialize (Hr eq_refl).
      destruct (lead_times (l1 ++ x :: take k l2)); [discriminate Hr | reflexivity].
    + destruct (avg_lead_time (or_empty r2)); [| reflexivity]. simpl.
      unfold avg_restore_time.
      pose proof (restore_times_raises l1 l2 x) as Hr.
      rewrite Hc in Hr. specialize (Hr eq_refl).
      destruct (restore_times (l1 ++ x :: l2)); [discriminate Hr | reflexivity].
  - intros g. apply bucketed_issues.
Qed.

(** *** The health score *)

Lemma project_health_report_results clock op o1 o2 o3 o4 pid :
  project_health_report clock op o1 o2 o3 o4 pid
  = health_from_results clock pid (returned op) (returned o1) (returned o2)
      (returned o3) (returned o4).
Proof. unfold project_health_report. rewrite !fetch_returned. reflexivity. Qed.

(** What a produced report is made of. *)
Lemma health_report_inv clock pid info r1 r2 r3 r4 r :
  health_from_results clock pid info r1 r2 r3 r4 = Ok (HealthReport r) ->
  exists project_info activity branches events,
    found info = Some project_info
    /\ activity_days clock project_info = Ok activity
    /\ get_in project_info "repository" "branch_count" (JStr "N/A") = Ok branches
    /\ mapM event_line (take 5 (or_empty r4)) = Ok events
    /\ hr_activity_days r = activity
    /\ hr_open_mrs r = len (or_empty r1)
    /\ hr_open_issues r = len (or_empty r2)
    /\ hr_pipeline_status r = latest_pipeline (or_empty r3)
    /\ hr_events_count r = len (or_empty r4)
    /\ hr_events r = events
    /\ hr_health_score r
       = health_score activity (or_empty r1) (or_empty r2) (or_empty r3)
    /\ hr_penalties r = snd (assess activity (or_empty r1) (or_empty r2) (or_empty r3))
    /\ hr_health_status r = health_status (hr_health_score r).
Proof.
  unfold health_from_results. intros E.
  destruct (found info) as [project_info|]; [| discriminate E].
  inv_result. subst r.
  exists project_info, a, a0, a1. repeat split; assumption || reflexivity.
Qed.

Lemma health_score_formula a (mrs iss ps : list record) :
  health_score a mrs iss ps
  = 100 - (if 30 <? a then 30 else 0)
        - (if 15 <? len mrs then 20 else 0)
        - (if 50 <? len iss then 25 else 0)
        - (if latest_failed ps then 15 else 0).
Proof.
  unfold health_score, assess, apply_penalty.
  destruct (30 <? a), (15 <? len mrs), (50 <? len iss), (latest_failed ps);
    reflexivity.
Qed.

Lemma penalties_once a (mrs iss ps : list record) :
  NoDup (snd (assess a mrs iss ps)).
Proof.
  unfold assess, apply_penalty.
  destruct (30 <? a), (15 <? len mrs), (50 <? len iss), (latest_failed ps);
    simpl; repeat (apply NoDup_cons_2; [rewrite ?elem_of_cons, elem_of_nil;
                                        intuition discriminate |]);
    apply NoDup_nil_2.
Qed.

(** C5. The health score starts at 100; each of the four penalties (30, 20,
    25, 15) is taken off once when its own condition holds; so the score
    does not grow when more conditions hold, and it is 10 when all four do.
    The score of a produced report is this score. *)
Theorem health_score_penalties a a' (mrs mrs' iss iss' ps ps' : list record) :
  (30 < a -> 30 < a') ->
  (15 < len mrs -> 15 < len mrs') ->
  (50 < len iss -> 50 < len iss') ->
  (latest_failed ps = true -> latest_failed ps' = true) ->
  health_score a mrs iss ps
  = 100 - (if 30 <? a then 30 else 0)
        - (if 15 <? len mrs then 20 else 0)
        - (if 50 <? len iss then 25 else 0)
        - (if latest_failed ps then 15 else 0)
  /\ NoDup (snd (assess a mrs iss ps))
  /\ health_score a' mrs' iss' ps' <= health_score a mrs iss ps <= 100
  /\ (30 < a' -> 15 < len mrs' -> 50 < len iss' -> latest_failed ps' = true ->
      health_score a' mrs' iss' ps' = 10)
  /\ (forall clock op o1 o2 o3 o4 pid r,
        project_health_report clock op o1 o2 o3 o4 pid = Ok (HealthReport r) ->
        hr_health_score r
        = health_score (hr_activity_days r) (or_empty (returned o1))
            (or_empty (returned o2)) (or_empty (returned o3))).
Proof.
  intros Ha Hm Hi Hp.
  split; [apply health_score_formula |]. split; [apply penalties_once |].
  rewrite !health_score_formula. split; [| split].
  - destruct (30 <? a) eqn:E1, (15 <? len mrs) eqn:E2, (50 <? len iss) eqn:E3,
      (latest_failed ps) eqn:E4;
      try (apply Z.ltb_lt in E1; pose proof (Ha E1) as Ha'; apply Z.ltb_lt in Ha';
           rewrite Ha');
      try (apply Z.ltb_lt in E2; pose proof (Hm E2) as Hm'; apply Z.ltb_lt in Hm';
           rewrite Hm');
      try (apply Z.ltb_lt in E3; pose proof (Hi E3) as Hi'; apply Z.ltb_lt in Hi';
           rewrite Hi');
      try rewrite (Hp eq_refl);
      destruct (30 <? a'), (15 <? len mrs'), (50 <? len iss'), (latest_failed ps');
      lia.
  - intros H1 H2 H3 H4. apply Z.ltb_lt in H1, H2, H3. rewrite H1, H2, H3, H4.
    reflexivity.
  - intros clock op o1 o2 o3 o4 pid r E.
    rewrite project_health_report_results in E.
    apply health_report_inv in E.
    destruct E as (info & act & br & ev & _ & _ & _ & _ & Hact & _ & _ & _ & _ & _ & Hs & _).
    rewrite Hs, Hact, !health_score_formula. reflexivity.
Qed.

(** *** The health band *)

Lemma health_status_bands (score : Z) :
  (health_status score = Excellent <-> 80 <= score)
  /\ (health_status score = Attention <-> 60 <= score < 80)
  /\ (health_status score = Critical <-> score < 60).
Proof.
  unfold health_status.
  destruct (80 <=? score) eqn:E1; [| destruct (60 <=? score) eqn:E2];
    rewrite ?Z.leb_le, ?Z.leb_gt in *;
    repeat split; intros; try lia; try discriminate; reflexivity.
Qed.

(** C6. The band of a produced report is decided by its score alone:
    "Excellent" exactly from 80 up, "Attention" exactly from 60 to 79,
    "Critical" exactly below 60; every score has one band. *)
Theorem health_band_of_score clock op o1 o2 o3 o4 pid r :
  project_health_report clock op o1 o2 o3 o4 pid = Ok (HealthReport r) ->
  hr_health_status r = health_status (hr_health_score r)
  /\ (hr_health_status r = Excellent <-> 80 <= hr_health_score r)
  /\ (hr_health_status r = Attention <-> 60 <= hr_health_score r < 80)
  /\ (hr_health_status r = Critical <-> hr_health_score r < 60)
  /\ forall score : Z,
      (health_status score = Excellent <-> 80 <= score)
      /\ (health_status score = Attention <-> 60 <= score < 80)
      /\ (health_status score = Critical <-> score < 60).
Proof.
  intros E. rewrite project_health_report_results in E.
  apply health_report_inv in E.
  destruct E as (info & act & br & ev & _ & _ & _ & _ & _ & _ & _ & _ & _ & _ & _ & _ & Hb).
  rewrite Hb. split; [reflexivity |].
  pose proof (health_status_bands (hr_health_score r)) as (B1 & B2 & B3).
  split; [exact B1 |]. split; [exact B2 |]. split; [exact B3 |].
  exact health_status_bands.
Qed.

(** *** Absent project, absent collections *)

Lemma health_from_results_absent clock pid r1 r2 r3 r4 :
  health_from_results clock pid None r1 r2 r3 r4 = Ok (ProjectNotFound pid).
Proof. reflexivity. Qed.

(** A report is produced as soon as the project part and the event lines are. *)
Lemma health_report_produced clock pid info project_info activity branches events
  r1 r2 r3 r4 :
  found info = Some project_info ->
  activity_days clock project_info = Ok activity ->
  get_in project_info "repository" "branch_count" (JStr "N/A") = Ok branches ->
  mapM event_line (take 5 (or_empty r4)) = Ok events ->
  exists r, health_from_results clock pid info r1 r2 r3 r4 = Ok (HealthReport r)
            /\ hr_open_mrs r = len (or_empty r1)
            /\ hr_open_issues r = len (or_empty r2)
            /\ hr_pipeline_status r = latest_pipeline (or_empty r3)
            /\ hr_events_count r = len (or_empty r4)
            /\ hr_events r = events.
Proof.
  intros Hf Ha Hb He. unfold health_from_results.
  rewrite Hf, Ha. simpl. rewrite Hb. simpl. rewrite He. simpl.
  eexists. split; [reflexivity |]. repeat split.
Qed.

(** Replacing a collection by an absent one keeps the event lines computable. *)
Lemma events_still_ok (r4 r4' : option (list record)) events :
  mapM event_line (take 5 (or_empty r4)) = Ok events ->
  r4' = r4 \/ r4' = None ->
  exists events', mapM event_line (take 5 (or_empty r4')) = Ok events'.
Proof.
  intros He [-> | ->]; [eauto |]. exists []. reflexivity.
Qed.

(** C2. When the project lookup returns nothing, [project_health_report]
    answers with the not-found message and no report; when a report is
    produced, it is still produced if any of the four collections is absent,
    and an absent collection gives what an empty one gives. *)
Theorem project_not_found_or_report clock op o1 o2 o3 o4 pid :
  (returned op = None ->
   project_health_report clock op o1 o2 o3 o4 pid = Ok (ProjectNotFound pid)
   /\ forall r, project_health_report clock op o1 o2 o3 o4 pid <> Ok (HealthReport r))
  /\ (forall r,
        project_health_report clock op o1 o2 o3 o4 pid = Ok (HealthReport r) ->
        forall o1' o2' o3' o4',
          o1' = o1 \/ returned o1' = None ->
          o2' = o2 \/ returned o2' = None ->
          o3' = o3 \/ returned o3' = None ->
          o4' = o4 \/ returned o4' = None ->
          exists r',
            project_health_report clock op o1' o2' o3' o4' pid = Ok (HealthReport r'))
  /\ (forall bad : http_outcome (list record),
        returned bad = None ->
        let empty := Response 200 (Some []) in
        project_health_report clock op bad o2 o3 o4 pid
        = project_health_report clock op empty o2 o3 o4 pid
        /\ project_health_report clock op o1 bad o3 o4 pid
           = project_health_report clock op o1 empty o3 o4 pid
        /\ project_health_report clock op o1 o2 bad o4 pid
           = project_health_report clock op o1 o2 empty o4 pid
        /\ project_health_report clock op o1 o2 o3 bad pid
           = project_health_report clock op o1 o2 o3 empty pid).
Proof.
  split; [| split].
  - intros Hop. rewrite project_health_report_results, Hop.
    rewrite health_from_results_absent. split; [reflexivity |].
    intros r Hr. discriminate Hr.
  - intros r E o1' o2' o3' o4' H1 H2 H3 H4.
    rewrite project_health_report_results in E.
    apply health_report_inv in E.
    destruct E as (info & act & br & ev & Hf & Ha & Hb & He & _).
    destruct (events_still_ok (returned o4) (returned o4') ev He) as [ev' He'].
    { destruct H4 as [-> | ->]; [left | right]; reflexivity. }
    destruct (health_report_produced clock pid (returned op) info act br ev'
                (returned o1') (returned o2') (returned o3') (returned o4')
                Hf Ha Hb He') as (r' & Hr' & _).
    exists r'. rewrite project_health_report_results. exact Hr'.
  - intros bad Hbad empty. rewrite !project_health_report_results, Hbad.
    repeat split; reflexivity.
Qed.

(** *** Failed requests *)

Lemma try_get_failure {A : Type} (o : http_outcome A) :
  (exists detail, o = TransportError detail)
  \/ o = TimedOut
  \/ (exists status_code body,
        o = Response status_code body /\ ~ (200 <= status_code <= 299)) ->
  exists e, try_get o = inl e.
Proof.
  intros [[d ->] | [-> | (st & b & -> & Hst)]]; simpl; eauto.
  unfold is_success.
  destruct (200 <=? st) eqn:E1, (st <=? 299) eqn:E2; simpl; eauto.
  apply Z.leb_le in E1, E2. lia.
Qed.

(** C9. A request that meets a transport error, a timeout or a status
    outside 200-299 makes [make_gitlab_request] return [None], with one
    diagnostic printed; and a health report that is produced is still
    produced when one of the four collection requests fails, with the count,
    status or lines of that collection at their defaults. *)
Theorem failed_fetch_degrades {A : Type} (endpoint : string) (o : http_outcome A)
  clock op o1 o2 o3 o4 pid :
  ((exists detail, o = TransportError detail)
   \/ o = TimedOut
   \/ (exists status_code body,
         o = Response status_code body /\ ~ (200 <= status_code <= 299)) ->
   fst (make_gitlab_request endpoint o) = None
   /\ length (snd (make_gitlab_request endpoint o)) = 1%nat
   /\ returned o = None)
  /\ (forall r (bad : http_outcome (list record)),
        project_health_report clock op o1 o2 o3 o4 pid = Ok (HealthReport r) ->
        returned bad = None ->
        (exists r', project_health_report clock op bad o2 o3 o4 pid = Ok (HealthReport r')
                    /\ hr_open_mrs r' = 0)
        /\ (exists r', project_health_report clock op o1 bad o3 o4 pid
                       = Ok (HealthReport r')
                       /\ hr_open_issues r' = 0)
        /\ (exists r', project_health_report clock op o1 o2 bad o4 pid
                       = Ok (HealthReport r')
                       /\ hr_pipeline_status r' = PipelineUnknown)
        /\ (exists r', project_health_report clock op o1 o2 o3 bad pid
                       = Ok (HealthReport r')
                       /\ hr_events_count r' = 0 /\ hr_events r' = [])).
Proof.
  split.
  - intros Ho. destruct (try_get_failure o Ho) as [e He].
    unfold make_gitlab_request, returned. rewrite He. repeat split.
  - intros r bad E Hbad.
    rewrite project_health_report_results in E.
    apply health_report_inv in E.
    destruct E as (info & act & br & ev & Hf & Ha & Hb & He & _).
    assert (Hnil : mapM event_line (take 5 (or_empty (@None (list record)))) = Ok [])
      by reflexivity.
    repeat split.
    + destruct (health_report_produced clock pid (returned op) info act br ev
                  (returned bad) (returned o2) (returned o3) (returned o4)
                  Hf Ha Hb He) as (r' & Hr' & Hm & _).
      exists r'. rewrite project_health_report_results. split; [exact Hr' |].
      rewrite Hm, Hbad. reflexivity.
    + destruct (health_report_produced clock pid (returned op) info act br ev
                  (returned o1) (returned bad) (returned o3) (returned o4)
                  Hf Ha Hb He) as (r' & Hr' & _ & Hi & _).
      exists r'. rewrite project_health_report_results. split; [exact Hr' |].
      rewrite Hi, Hbad. reflexivity.
    + destruct (health_report_produced clock pid (returned op) info act br ev
                  (returned o1) (returned o2) (returned bad) (returned o4)
                  Hf Ha Hb He) as (r' & Hr' & _ & _ & Hp & _).
      exists r'. rewrite project_health_report_results. split; [exact Hr' |].
      rewrite Hp, Hbad. reflexivity.
    + rewrite <- Hbad in Hnil.
      destruct (health_report_produced clock pid (returned op) info act br []
                  (returned o1) (returned o2) (returned o3) (returned bad)
                  Hf Ha Hb Hnil) as (r' & Hr' & _ & _ & _ & Hc & Hl).
      exists r'. rewrite project_health_report_results. split; [exact Hr' |].
      rewrite Hc, Hl, Hbad. split; reflexivity.
Qed.

(** ** Further properties *)

(** *** When a report is produced *)

Lemma is_ok_bind {A B : Type} (m : result A) (f : A -> result B) :
  is_ok (m ≫= f) = true <-> exists a, m = Ok a /\ is_ok (f a) = true.
Proof.
  destruct m as [a|e]; simpl; split.
  - intros Hf. exists a. split; [reflexivity | exact Hf].
  - intros (a' & Ha & Hf). injection Ha as <-. exact Hf.
  - discriminate.
  - intros (a' & Ha & _). discriminate Ha.
Qed.

Lemma is_ok_fmap {A B : Type} (m : result A) (f : A -> B) :
  is_ok (f <$> m) = is_ok m.
Proof. destruct m; reflexivity. Qed.

Lemma is_ok_true {A : Type} (m : result A) :
  is_ok m = true <-> exists a, m = Ok a.
Proof.
  destruct m as [a|e]; simpl; split; eauto; try discriminate.
  intros [a Ha]. discriminate Ha.
Qed.

Lemma lead_times_ok (l : list record) :
  is_ok (lead_times l) = true
  <-> Forall (fun mr => is_ok (elapsed "merged_at" mr) = true) l.
Proof.
  induction l as [|mr l IH]; simpl; [split; [constructor | reflexivity] |].
  rewrite is_ok_bind. split.
  - intros (e & He & Hrest). apply is_ok_bind in Hrest as (o & Ho & _).
    constructor; [rewrite He; reflexivity |].
    apply IH. rewrite Ho. reflexivity.
  - intros Hall. apply Forall_cons in Hall as [Hmr Hl].
    apply is_ok_true in Hmr as [e He]. apply IH, is_ok_true in Hl as [o Ho].
    exists e. split; [exact He |]. rewrite Ho. reflexivity.
Qed.

Lemma restore_times_ok (l : list record) :
  is_ok (restore_times l) = true
  <-> Forall (fun inc => is_ok (elapsed "closed_at" inc) = true) l.
Proof.
  induction l as [|inc l IH]; simpl; [split; [constructor | reflexivity] |].
  rewrite is_ok_bind. split.
  - intros (e & He & Hrest). apply is_ok_bind in Hrest as (o & Ho & _).
    constructor; [rewrite He; reflexivity |].
    apply IH. rewrite Ho. reflexivity.
  - intros Hall. apply Forall_cons in Hall as [Hinc Hl].
    apply is_ok_true in Hinc as [e He]. apply IH, is_ok_true in Hl as [o Ho].
    exists e. split; [exact He |]. rewrite Ho. reflexivity.
Qed.

Lemma days_period_ok (sd ed : string) :
  is_ok (days_period sd ed) = true <-> is_Some (strptime sd) /\ is_Some (strptime ed).
Proof.
  unfold days_period, parse_date.
  destruct (strptime ed) as [e|], (strptime sd) as [s|]; simpl; split;
    try discriminate; try (intros _; split; eauto; fail);
    intros [[? Hs] [? He]]; discriminate || reflexivity.
Qed.

(** X1. [get_dora_metrics] returns a report exactly when both dates of the
    window parse, each of the first 50 merge requests has timestamps that can
    be read and subtracted, and so has each incident; releases, deployments
    and the merge requests after the 50th never make it fail. *)
Theorem dora_report_produced_iff clock o0 o1 o2 o3 pid sd ed :
  is_ok (get_dora_metrics clock o0 o1 o2 o3 pid sd ed) = true
  <-> is_Some (strptime (date_or sd (date_string clock (-30))))
      /\ is_Some (strptime (date_or ed (date_string clock 0)))
      /\ Forall (fun mr => is_ok (elapsed "merged_at" mr) = true)
           (take 50 (or_empty (returned o2)))
      /\ Forall (fun inc => is_ok (elapsed "closed_at" inc) = true)
           (or_empty (returned o3)).
Proof.
  rewrite get_dora_metrics_results. unfold dora_from_results.
  rewrite is_ok_bind. split.
  - intros (p & Hp & Hrest).
    apply is_ok_bind in Hrest as (lead & Hlead & Hrest).
    apply is_ok_bind in Hrest as (rest & Hrest & _).
    assert (Hd : is_ok (days_period (date_or sd (date_string clock (-30)))
                          (date_or ed (date_string clock 0))) = true)
      by (rewrite Hp; reflexivity).
    apply days_period_ok in Hd as [Hs He].
    split; [exact Hs |]. split; [exact He |]. split.
    + apply lead_times_ok. unfold avg_lead_time in Hlead.
      rewrite <- (is_ok_fmap _ mean_Z), Hlead. reflexivity.
    + apply restore_times_ok. unfold avg_restore_time in Hrest.
      rewrite <- (is_ok_fmap _ mean_Q), Hrest. reflexivity.
  - intros (Hs & He & Hm & Hi).
    assert (Hd := proj2 (days_period_ok _ _) (conj Hs He)).
    apply is_ok_true in Hd as [p Hp]. exists p. split; [exact Hp |].
    apply lead_times_ok, is_ok_true in Hm as [lt Hlt].
    apply restore_times_ok, is_ok_true in Hi as [rt Hrt].
    unfold avg_lead_time, avg_restore_time. rewrite Hlt, Hrt. reflexivity.
Qed.

(** *** Without deployments *)

Lemma deployment_freq_none (p : Z) : Qltb (deployment_freq [] p) 1 = true.
Proof.
  apply Qltb_lt. rewrite deployment_freq_ratio.
  unfold Qlt, len. cbn [Qnum Qden length Z.of_nat].
  generalize (Z.to_pos (Z.max p 1)). intros q. lia.
Qed.

(** X2. When no deployment is received (the request failed or answered an
    empty array), the frequency and the change failure rate of the report are
    0 and the level is "High" or "Medium", never "Elite" nor "Low"; it is
    "High" when no merge request is received either. *)
Theorem no_deployments_level clock o0 o1 o2 o3 pid sd ed r :
  or_empty (returned o1) = [] ->
  get_dora_metrics clock o0 o1 o2 o3 pid sd ed = Ok r ->
  (dr_deployment_freq r == 0)%Q
  /\ dr_change_failure_rate r = 0%Q
  /\ (dr_devops_level r = High \/ dr_devops_level r = Medium)
  /\ (or_empty (returned o2) = [] ->
      dr_avg_lead_time r = 0%Q /\ dr_devops_level r = High).
Proof.
  intros Hnone E. rewrite get_dora_metrics_results in E.
  unfold dora_from_results in E. rewrite Hnone in E. inv_result. subst r.
  cbn [dr_deployment_freq dr_change_failure_rate dr_devops_level dr_avg_lead_time].
  split; [rewrite deployment_freq_ratio; reflexivity |].
  split; [reflexivity |].
  unfold devops_level. rewrite deployment_freq_none. simpl change_failure_rate.
  split.
  - destruct (Qltb a0 7); [left | right]; reflexivity.
  - intros Hmr. unfold avg_lead_time in Ea0. rewrite Hmr in Ea0.
    simpl in Ea0. injection Ea0 as <-. split; reflexivity.
Qed.

(** *** The default window *)

(** X3. Without dates (absent or empty), [get_dora_metrics] reads the
    clock twice, for the start date first and for the end date afterwards.
    The window runs from 30 days before the day of the first read to the day
    of the second, so the period is 30 days plus the days between the two
    reads: 30 when both fall on the same day, 31 when midnight passes between
    them, whenever [strptime] reads back what [strftime] writes for the two
    days. *)
Theorem default_window_days clock_start clock_end o0 o1 o2 o3 pid sd ed r :
  let first := clock_start / us_per_day in
  let last := clock_end / us_per_day in
  sd = None \/ sd = Some EmptyString ->
  ed = None \/ ed = Some EmptyString ->
  strptime (strftime (first - 30)) = Some (first - 30) ->
  strptime (strftime last) = Some last ->
  get_dora_metrics_reads clock_start clock_end o0 o1 o2 o3 pid sd ed = Ok r ->
  dr_start_date r = strftime (first - 30)
  /\ dr_end_date r = strftime last
  /\ dr_days_period r = 30 + (last - first)
  /\ (first = last -> dr_days_period r = 30)
  /\ (clock_start <= clock_end -> 30 <= dr_days_period r)
  /\ (clock_start <= clock_end < clock_start + us_per_day ->
      dr_days_period r = 30 \/ dr_days_period r = 31).
Proof.
  intros first last Hsd Hed Hs He E.
  assert (Hds : date_or sd (date_string clock_start (-30)) = strftime (first - 30)).
  { unfold date_string, first.
    replace ((clock_start + -30 * us_per_day) / us_per_day)
      with (clock_start / us_per_day - 30)
      by (rewrite Z.div_add by discriminate; lia).
    destruct Hsd as [-> | ->]; reflexivity. }
  assert (Hde : date_or ed (date_string clock_end 0) = strftime last).
  { unfold date_string, last. rewrite Z.mul_0_l, Z.add_0_r.
    destruct Hed as [-> | ->]; reflexivity. }
  unfold get_dora_metrics_reads in E. rewrite !fetch_returned, Hds, Hde in E.
  unfold dora_from_results in E. inv_result. subst r.
  cbn [dr_start_date dr_end_date dr_days_period].
  split; [reflexivity |]. split; [reflexivity |].
  destruct (days_period_ordinals _ _ _ Ea) as (s & e & Hs' & He' & ->).
  rewrite Hs in Hs'. rewrite He in He'. injection Hs' as <-. injection He' as <-.
  assert (0 < us_per_day) as Hday by reflexivity.
  split; [lia |]. split; [lia |]. split.
  - intros Hle. assert (first <= last) by (apply Z.div_le_mono; lia). lia.
  - intros [Hle Hlt].
    assert (first <= last) by (apply Z.div_le_mono; lia).
    assert (last <= first + 1).
    { unfold first, last.
      replace (clock_start / us_per_day + 1)
        with ((clock_start + 1 * us_per_day) / us_per_day)
        by (rewrite Z.div_add by lia; reflexivity).
      apply Z.div_le_mono; lia. }
    lia.
Qed.

(** *** The warnings and the score of the health report *)

Lemma assess_points a (mrs iss ps : list record) :
  fst (assess a mrs iss ps)
  = 100 - sum_Z (penalty_points <$> snd (assess a mrs iss ps)).
Proof.
  unfold assess, apply_penalty.
  destruct (30 <? a), (15 <? len mrs), (50 <? len iss), (latest_failed ps);
    reflexivity.
Qed.

(** X4. In a health report the score and the warnings agree: the score is
    100 minus the points of the warnings listed, and it lies between 10 and
    100, so it never needs clamping at 0. *)
Theorem score_matches_warnings clock op o1 o2 o3 o4 pid r :
  project_health_report clock op o1 o2 o3 o4 pid = Ok (HealthReport r) ->
  hr_health_score r = 100 - sum_Z (penalty_points <$> hr_penalties r)
  /\ 10 <= hr_health_score r <= 100.
Proof.
  intros E. rewrite project_health_report_results in E.
  apply health_report_inv in E.
  destruct E as (info & act & br & ev & _ & _ & _ & _ & _ & _ & _ & _ & _ & _ & Hs & Hp & _).
  rewrite Hp, Hs. unfold health_score. split; [apply assess_points |].
  unfold assess, apply_penalty.
  destruct (30 <? act), (15 <? len (or_empty (returned o1))),
    (50 <? len (or_empty (returned o2))), (latest_failed (or_empty (returned o3)));
    simpl; lia.
Qed.

(** X5. The band follows from the number of warnings at both ends: without
    warning the score is 100 and the band "Excellent"; one warning alone never
    gives "Critical"; three warnings or more always give "Critical". *)
Theorem band_by_number_of_warnings clock op o1 o2 o3 o4 pid r :
  project_health_report clock op o1 o2 o3 o4 pid = Ok (HealthReport r) ->
  (hr_penalties r = [] -> hr_health_score r = 100 /\ hr_health_status r = Excellent)
  /\ (length (hr_penalties r) = 1%nat -> hr_health_status r <> Critical)
  /\ ((3 <= length (hr_penalties r))%nat -> hr_health_status r = Critical).
Proof.
  intros E. rewrite project_health_report_results in E.
  apply health_report_inv in E.
  destruct E as (info & act & br & ev & _ & _ & _ & _ & _ & _ & _ & _ & _ & _ & Hs & Hp & Hb).
  rewrite Hb, Hp, Hs. unfold health_score, assess, apply_penalty.
  destruct (30 <? act), (15 <? len (or_empty (returned o1))),
    (50 <? len (or_empty (returned o2))), (latest_failed (or_empty (returned o3)));
    simpl; repeat split; intros; try discriminate; try reflexivity; lia.
Qed.

(** *** Projects without a date of last activity *)

Lemma found_Some (info project_info : record) :
  found (Some info) = Some project_info -> project_info = info.
Proof.
  unfold found. destruct (truthy (JObj info)); [| discriminate].
  intros E. injection E as <-. reflexivity.
Qed.

(** X6. When the project carries no [last_activity_at] (missing, null or
    empty), the report shows 0 days since the last activity and never lists
    the warning for missing activity. *)
Theorem no_activity_date_no_warning clock op o1 o2 o3 o4 pid info r :
  returned op = Some info ->
  get_truthy info "last_activity_at" = false ->
  project_health_report clock op o1 o2 o3 o4 pid = Ok (HealthReport r) ->
  hr_activity_days r = 0 /\ NoActivity ∉ hr_penalties r.
Proof.
  intros Hop Hlast E. rewrite project_health_report_results, Hop in E.
  apply health_report_inv in E.
  destruct E as (pinfo & act & br & ev & Hf & Ha & _ & _ & Hact & _ & _ & _ & _ & _ & _ & Hp & _).
  apply found_Some in Hf. subst pinfo.
  unfold activity_days in Ha. rewrite Hlast in Ha. injection Ha as <-.
  rewrite Hact, Hp. split; [reflexivity |].
  unfold assess, apply_penalty.
  destruct (15 <? len (or_empty (returned o1))),
    (50 <? len (or_empty (returned o2))), (latest_failed (or_empty (returned o3)));
    simpl; rewrite ?elem_of_cons, elem_of_nil; intuition discriminate.
Qed.

(** *** The event lines *)

Lemma mapM_result_length {A B : Type} (f : A -> result B) (l : list A) (k : list B) :
  mapM f l = Ok k -> length k = length l.
Proof.
  revert k. induction l as [|x l IH]; intros k E; simpl in E.
  - injection E as <-. reflexivity.
  - apply bind_Ok in E as (y & _ & E). apply bind_Ok in E as (k' & Hk' & E).
    injection E as <-. simpl. rewrite (IH _ Hk'). reflexivity.
Qed.

Lemma mapM_result_ok {A B : Type} (f : A -> result B) (l : list A) :
  is_ok (mapM f l) = true <-> Forall (fun x => is_ok (f x) = true) l.
Proof.
  induction l as [|x l IH]; simpl; [split; [constructor | reflexivity] |].
  rewrite is_ok_bind. split.
  - intros (y & Hy & Hrest). apply is_ok_bind in Hrest as (k & Hk & _).
    constructor; [rewrite Hy; reflexivity |]. apply IH. rewrite Hk. reflexivity.
  - intros Hall. apply Forall_cons in Hall as [Hx Hl].
    apply is_ok_true in Hx as [y Hy]. apply IH, is_ok_true in Hl as [k Hk].
    exists y. split; [exact Hy |]. rewrite Hk. reflexivity.
Qed.

(** X7. A health report shows the lines of the first five events at most,
    while its count of events is the number received. *)
Theorem five_event_lines clock op o1 o2 o3 o4 pid r :
  project_health_report clock op o1 o2 o3 o4 pid = Ok (HealthReport r) ->
  hr_events_count r = len (or_empty (returned o4))
  /\ len (hr_events r) = Z.min 5 (hr_events_count r).
Proof.
  intros E. rewrite project_health_report_results in E.
  apply health_report_inv in E.
  destruct E as (info & act & br & ev & _ & _ & _ & He & _ & _ & _ & _ & Hc & Hl & _).
  split; [exact Hc |]. rewrite Hl, Hc. unfold len.
  rewrite (mapM_result_length _ _ _ He), length_take. lia.
Qed.

(** X8. [project_health_report] returns (the not-found message or a report)
    exactly when the project is not found, or its date of last activity can
    be read, its [repository] field is an object or is missing, and each
    of the first five events has usable [author] and [created_at] fields;
    merge requests, issues, pipelines and later events never make it fail. *)
Theorem health_report_returns_iff clock op o1 o2 o3 o4 pid :
  is_ok (project_health_report clock op o1 o2 o3 o4 pid) = true
  <-> match found (returned op) with
      | None => True
      | Some info =>
          is_ok (activity_days clock info) = true
          /\ is_ok (get_in info "repository" "branch_count" (JStr "N/A")) = true
          /\ Forall (fun event => is_ok (event_line event) = true)
               (take 5 (or_empty (returned o4)))
      end.
Proof.
  rewrite project_health_report_results. unfold health_from_results.
  destruct (found (returned op)) as [info|]; [| split; reflexivity || (intros _; reflexivity)].
  rewrite is_ok_bind. split.
  - intros (a & Ha & Hrest). apply is_ok_bind in Hrest as (b & Hb & Hrest).
    apply is_ok_bind in Hrest as (ev & Hev & _).
    split; [rewrite Ha; reflexivity |]. split; [rewrite Hb; reflexivity |].
    apply mapM_result_ok. rewrite Hev. reflexivity.
  - intros (Ha & Hb & Hev).
    apply is_ok_true in Ha as [a Ha]. apply is_ok_true in Hb as [b Hb].
    apply mapM_result_ok, is_ok_true in Hev as [ev Hev].
    exists a. split; [exact Ha |]. rewrite Hb. simpl. rewrite Hev. reflexivity.
Qed.

(** *** The diagnostics of the fetcher *)


(** *** The age histogram, issue by issue *)

Lemma age_loop_cons (clock : Z) (i : record) (l : list record) (g : age_groups) :
  age_loop clock (i :: l) g
  = a ← issue_age clock i; age_loop clock l (count_issue a g).
Proof.
  simpl. unfold issue_age.
  destruct (getitem i "state") as [state|e]; [| reflexivity]. simpl.
  destruct (is_str state "opened"); [| reflexivity].
  destruct (getitem i "created_at" ≫= parse_timestamp) as [c|e]; [| reflexivity].
  simpl. destruct (dt_sub (now_utc clock) c); reflexivity.
Qed.

Lemma age_loop_ok (clock : Z) (l : list record) (g : age_groups) :
  is_ok (age_loop clock l g) = true
  <-> Forall (fun i => is_ok (issue_age clock i) = true) l.
Proof.
  revert g. induction l as [|i l IH]; intros g.
  - simpl. split; [constructor | reflexivity].
  - rewrite age_loop_cons, is_ok_bind. split.
    + intros (a & Ha & Hl). constructor; [rewrite Ha; reflexivity |].
      apply (IH (count_issue a g)), Hl.
    + intros Hall. apply Forall_cons in Hall as [Hi Hl].
      apply is_ok_true in Hi as [a Ha]. exists a. split; [exact Ha |].
      apply IH, Hl.
Qed.

Lemma issue_age_ok (clock : Z) (i : record) :
  is_ok (issue_age clock i) = true
  <-> exists state,
      i !! "state" = Some state
      /\ (is_str state "opened" = true ->
          exists s d offset,
            i !! "created_at" = Some (JStr s)
            /\ fromisoformat (replace_Z s) = Some d
            /\ utcoffset d = Some offset).
Proof.
  unfold issue_age, getitem. destruct (i !! "state") as [state|]; simpl.
  - destruct (is_str state "opened") eqn:Hst_open; simpl.
    + split.
      * intros Hok. exists state. split; [reflexivity |]. intros _.
        destruct (i !! "created_at") as [[| | |s| |]|]; simpl in Hok;
          try discriminate Hok.
        destruct (fromisoformat (replace_Z s)) as [d|] eqn:Hd; simpl in Hok;
          [| discriminate Hok].
        unfold dt_sub, now_utc in Hok. simpl in Hok.
        destruct (utcoffset d) as [offset|] eqn:Hoff; [| discriminate Hok].
        exists s, d, offset. split; [reflexivity |]. split; [exact Hd | exact Hoff].
      * intros (state' & Hst & Hopen). injection Hst as <-.
        destruct (Hopen Hst_open) as (s & d & offset & -> & Hd & Hoff).
        simpl. rewrite Hd. simpl. unfold dt_sub, now_utc. simpl.
        rewrite Hoff. reflexivity.
    + split; [| reflexivity]. intros _. exists state.
      split; [reflexivity | congruence].
  - split; [discriminate |]. intros (state & Hst & _). discriminate Hst.
Qed.

(** X10. The age histogram of [analyze_issues] is built exactly when every
    issue has a [state] and every open issue has a [created_at] string that
    parses to a timestamp with a UTC offset; an issue without [state], or an
    open issue whose [created_at] is missing, unparsable or without offset,
    makes the loop raise. *)
Theorem age_histogram_built_iff (clock : Z) (issues : list record) :
  is_ok (issue_age_groups clock issues) = true
  <-> Forall (fun i =>
        exists state,
          i !! "state" = Some state
          /\ (is_str state "opened" = true ->
              exists s d offset,
                i !! "created_at" = Some (JStr s)
                /\ fromisoformat (replace_Z s) = Some d
                /\ utcoffset d = Some offset)) issues.
Proof.
  unfold issue_age_groups. rewrite age_loop_ok.
  split; intros Hall; (eapply Forall_impl; [exact Hall |]);
    intros i Hi; simpl in *; apply (issue_age_ok clock i); exact Hi.
Qed.

Lemma count_age_comm (a b : Z) (g : age_groups) :
  count_age a (count_age b g) = count_age b (count_age a g).
Proof.
  unfold count_age.
  destruct (a <? 1), (a <=? 7), (a <=? 30), (b <? 1), (b <=? 7), (b <=? 30);
    simpl; f_equal; lia.
Qed.

Lemma count_issue_comm (a b : option Z) (g : age_groups) :
  count_issue a (count_issue b g) = count_issue b (count_issue a g).
Proof.
  destruct a, b; simpl; try reflexivity. apply count_age_comm.
Qed.

Lemma age_loop_step (clock : Z) (i : record) (l : list record) (g : age_groups) a :
  issue_age clock i = Ok a ->
  age_loop clock (i :: l) g = age_loop clock l (count_issue a g).
Proof. intros Ha. rewrite age_loop_cons, Ha. reflexivity. Qed.

Lemma age_loop_permutation (clock : Z) (l l' : list record) :
  Permutation l l' ->
  forall g g', age_loop clock l g = Ok g' -> age_loop clock l' g = Ok g'.
Proof.
  induction 1 as [| x l l' _ IH | x y l | l l' l'' _ IH1 _ IH2]; intros g g' E.
  - exact E.
  - rewrite age_loop_cons in E. apply bind_Ok in E as (a & Ha & E).
    rewrite (age_loop_step _ _ _ _ _ Ha). apply IH, E.
  - rewrite age_loop_cons in E. apply bind_Ok in E as (a & Ha & E).
    rewrite age_loop_cons in E. apply bind_Ok in E as (b & Hb & E).
    rewrite (age_loop_step _ _ _ _ _ Hb), (age_loop_step _ _ _ _ _ Ha).
    rewrite count_issue_comm. exact E.
  - apply IH2, IH1, E.
Qed.

(** X11. The age histogram does not depend on the order of the issues: when
    it is built for a list, it is built, with the same four counts, for every
    rearrangement of the list. *)
Theorem age_histogram_order (clock : Z) (issues issues' : list record) (g : age_groups) :
  Permutation issues issues' ->
  issue_age_groups clock issues = Ok g ->
  issue_age_groups clock issues' = Ok g.
Proof.
  unfold issue_age_groups. intros Hp. apply age_loop_permutation, Hp.
Qed.

(** *** Counting dictionaries *)

Lemma sum_Z_cons (x : Z) (l : list Z) : sum_Z (x :: l) = x + sum_Z l.
Proof. reflexivity. Qed.

Lemma bump_total (k : key) (d : list (key * Z)) :
  total_count (bump k d) = total_count d + 1.
Proof.
  unfold total_count. induction d as [|[k' n] d IH]; [reflexivity |].
  simpl bump. destruct (decide (k = k'));
    rewrite !fmap_cons; simpl snd; rewrite !sum_Z_cons; lia.
Qed.

Lemma bump_lookup (k k' : key) (d : list (key * Z)) :
  lookup_count k (bump k' d)
  = lookup_count k d + (if decide (k = k') then 1 else 0).
Proof.
  induction d as [|[k0 n] d IH]; simpl.
  - destruct (decide (k = k')); lia.
  - destruct (decide (k' = k0)) as [->|Hne]; simpl.
    + destruct (decide (k = k0)); lia.
    + destruct (decide (k = k0)) as [->|Hne'].
      * destruct (decide (k0 = k')); [congruence | lia].
      * exact IH.
Qed.

Lemma bump_keys (k : key) (d : list (key * Z)) :
  NoDup (fst <$> d) -> NoDup (fst <$> bump k d)
  /\ forall x, x ∈ (fst <$> bump k d) <-> x = k \/ x ∈ (fst <$> d).
Proof.
  induction d as [|[k' n] d IH]; simpl; intros Hnd.
  - split; [apply NoDup_singleton |]. intros x.
    rewrite elem_of_cons, elem_of_nil. tauto.
  - apply NoDup_cons in Hnd as [Hk' Hd]. destruct (IH Hd) as [IH1 IH2].
    destruct (decide (k = k')) as [->|Hne]; simpl.
    + split; [apply NoDup_cons; split; assumption |].
      intros x. rewrite elem_of_cons. tauto.
    + split.
      * apply NoDup_cons. split; [| exact IH1].
        rewrite IH2. intros [-> | Hin]; [congruence | exact (Hk' Hin)].
      * intros x. rewrite !elem_of_cons, IH2. tauto.
Qed.

Lemma bump_positive (k : key) (d : list (key * Z)) :
  Forall (fun item => 1 <= snd item) d ->
  Forall (fun item => 1 <= snd item) (bump k d).
Proof.
  induction 1 as [|[k' n] d Hn Hd IH]; simpl.
  - repeat constructor. simpl. lia.
  - destruct (decide (k = k')); constructor; simpl in *; try lia; assumption.
Qed.

Lemma count_by_spec (f : record -> result json) (l : list record)
  (d d' : list (key * Z)) :
  count_by f l d = Ok d' ->
  counter d ->
  counter d'
  /\ total_count d' = total_count d + len l
  /\ forall k, lookup_count k d'
               = lookup_count k d
                 + len (filter (fun x => counted_as f k x = true) l).
Proof.
  revert d. induction l as [|x l IH]; intros d E [Hnd Hpos].
  - simpl in E. injection E as <-. split; [split; assumption |].
    split; [unfold len; simpl; lia |]. intros k. unfold len; simpl. lia.
  - simpl in E. apply bind_Ok in E as (v & Hv & E).
    apply bind_Ok in E as (kx & Hkx & E).
    destruct (IH _ E) as (Hc & Ht & Hl).
    { split; [apply bump_keys, Hnd | apply bump_positive, Hpos]. }
    split; [exact Hc |]. split.
    + rewrite Ht, bump_total, len_cons. lia.
    + intros k. rewrite Hl, bump_lookup.
      assert (Hk : has_key k v = bool_decide (kx = k)).
      { unfold has_key. rewrite Hkx. reflexivity. }
      destruct (decide (k = kx)) as [->|Hne].
      * rewrite filter_cons_True
          by (unfold counted_as; rewrite Hv, Hk; apply bool_decide_eq_true; reflexivity).
        rewrite len_cons. lia.
      * rewrite filter_cons_False.
        -- lia.
        -- unfold counted_as. rewrite Hv, Hk. intros Ht'.
           apply bool_decide_eq_true in Ht'. congruence.
Qed.

Lemma lookup_count_elem (k : key) (n : Z) (d : list (key * Z)) :
  NoDup (fst <$> d) -> (k, n) ∈ d -> lookup_count k d = n.
Proof.
  induction d as [|[k' n'] d IH]; simpl; intros Hnd Hin.
  - apply elem_of_nil in Hin. destruct Hin.
  - apply NoDup_cons in Hnd as [Hk' Hd].
    apply elem_of_cons in Hin as [Heq | Hin].
    + injection Heq as <- <-. destruct (decide (k = k)); [reflexivity | congruence].
    + destruct (decide (k = k')) as [<-|Hne]; [| apply IH; assumption].
      exfalso. apply Hk'. apply (list_elem_of_fmap_2 fst _ (k, n)), Hin.
Qed.

Lemma counter_length (d : list (key * Z)) :
  Forall (fun item => 1 <= snd item) d -> len d <= total_count d.
Proof.
  unfold total_count. induction 1 as [|[k n] d Hn _ IH]; [reflexivity |].
  rewrite len_cons, fmap_cons, sum_Z_cons. simpl in Hn. simpl snd. lia.
Qed.

(** *** Sorting by count *)

Lemma insert_by_count_perm (x : key * Z) (l : list (key * Z)) :
  Permutation (insert_by_count x l) (x :: l).
Proof.
  induction l as [|y l IH]; simpl; [reflexivity |].
  destruct (snd y <=? snd x); [reflexivity |].
  rewrite IH. apply perm_swap.
Qed.

Lemma sorted_by_count_perm (d : list (key * Z)) : Permutation (sorted_by_count d) d.
Proof.
  unfold sorted_by_count. induction d as [|x d IH]; simpl; [reflexivity |].
  rewrite insert_by_count_perm, IH. reflexivity.
Qed.

Lemma decreasing_cons (x : key * Z) (l : list (key * Z)) :
  decreasing (x :: l) <-> Forall (fun y => snd y <= snd x) l /\ decreasing l.
Proof.
  unfold decreasing. split.
  - intros Hd. split.
    + apply Forall_lookup. intros j y Hy. apply (Hd 0%nat (S j) x y); [lia | reflexivity | exact Hy].
    + intros i j a b Hij Ha Hb. apply (Hd (S i) (S j) a b); [lia | exact Ha | exact Hb].
  - intros [Hall Hd] i j a b Hij Ha Hb.
    destruct i as [|i], j as [|j]; simpl in *; try lia.
    + injection Ha as <-. injection Hb as <-. lia.
    + injection Ha as <-. rewrite Forall_lookup in Hall. apply (Hall j b Hb).
    + apply (Hd i j a b); [lia | exact Ha | exact Hb].
Qed.

Lemma insert_by_count_decreasing (x : key * Z) (l : list (key * Z)) :
  decreasing l -> decreasing (insert_by_count x l).
Proof.
  induction l as [|y l IH]; simpl; intros Hd.
  - apply decreasing_cons. split; [constructor |]. exact Hd.
  - destruct (snd y <=? snd x) eqn:E.
    + apply Z.leb_le in E. apply decreasing_cons. split; [| exact Hd].
      apply decreasing_cons in Hd as [Hall _]. constructor; [exact E |].
      eapply Forall_impl; [exact Hall |]. simpl. intros; lia.
    + apply Z.leb_gt in E. apply decreasing_cons in Hd as [Hall Hd].
      apply decreasing_cons. split; [| apply IH, Hd].
      rewrite insert_by_count_perm. constructor; [lia | exact Hall].
Qed.

Lemma sorted_by_count_decreasing (d : list (key * Z)) : decreasing (sorted_by_count d).
Proof.
  unfold sorted_by_count. induction d as [|x d IH]; simpl.
  - intros i j x y _ Hx. discriminate Hx.
  - apply insert_by_count_decreasing, IH.
Qed.

Lemma sum_Z_perm (l l' : list Z) : Permutation l l' -> sum_Z l = sum_Z l'.
Proof.
  induction 1; simpl; lia.
Qed.

Lemma sorted_by_count_total (d : list (key * Z)) :
  total_count (sorted_by_count d) = total_count d.
Proof.
  unfold total_count. apply sum_Z_perm, fmap_Permutation, sorted_by_count_perm.
Qed.

(** *** get_project_activity *)

Lemma activity_inv o_events o_project pid r :
  get_project_activity o_events o_project pid = Ok r ->
  let events := or_empty (returned o_events) in
  exists counts important,
    count_by (fun event => Ok (event_type event)) events [] = Ok counts
    /\ important_events events = Ok important
    /\ mapM activity_line (take 5 important) = Ok (ar_recent r)
    /\ ar_events r = len events
    /\ ar_types r = len counts
    /\ ar_distribution r = with_percentage (len events) <$> sorted_by_count counts.
Proof.
  intros E events. unfold get_project_activity, activity_from_results in E.
  rewrite !fetch_returned in E. fold events in E. inv_result. subst r.
  exists a, a0. repeat split; assumption.
Qed.

Lemma counter_nil : counter [].
Proof. split; constructor. Qed.

Lemma with_percentage_fst (total : Z) (l : list (key * Z)) :
  fst <$> (with_percentage total <$> l) = l.
Proof.
  induction l as [|[k n] l IH]; [reflexivity |].
  rewrite !fmap_cons, IH. reflexivity.
Qed.

Lemma shares_total (total : Z) (l : list (key * Z)) :
  0 < total ->
  (sum_Q (snd <$> (with_percentage total <$> l))
   == inject_Z (total_count l) / inject_Z total * 100)%Q.
Proof.
  intros Hpos.
  assert (Hq : ~ (inject_Z total == 0)%Q).
  { intros Hz. unfold Qeq in Hz; simpl in Hz. lia. }
  unfold total_count. induction l as [|[k n] l IH].
  - simpl. field. exact Hq.
  - rewrite !fmap_cons. simpl snd. rewrite sum_Z_cons.
    change (sum_Q ((inject_Z n / inject_Z total * 100)%Q
                   :: (snd <$> (with_percentage total <$> l))))
      with ((inject_Z n / inject_Z total * 100)
            + sum_Q (snd <$> (with_percentage total <$> l)))%Q.
    rewrite IH, inject_Z_plus. field. exact Hq.
Qed.

(** X12. In a report of [get_project_activity], the count listed for an
    event type is the number of events received whose [action_name] (or
    "unknown" in its place) is that type, it is at least 1, and the share
    listed is that count over the number of events, times 100. *)
Theorem activity_count_of_type o_events o_project pid r k n q :
  get_project_activity o_events o_project pid = Ok r ->
  (k, n, q) ∈ ar_distribution r ->
  let events := or_empty (returned o_events) in
  n = len (filter (fun e => has_key k (event_type e) = true) events)
  /\ 1 <= n
  /\ (q == inject_Z n / inject_Z (len events) * 100)%Q.
Proof.
  intros E Hin events. apply activity_inv in E.
  destruct E as (counts & imp & Hc & _ & _ & _ & _ & Hd).
  rewrite Hd in Hin. apply list_elem_of_fmap in Hin as ([k' n'] & Heq & Hin).
  injection Heq as -> -> ->.
  rewrite sorted_by_count_perm in Hin.
  destruct (count_by_spec _ _ _ _ Hc counter_nil) as ([Hnd Hpos] & _ & Hl).
  split; [| split; [| reflexivity]].
  - rewrite <- (lookup_count_elem _ _ _ Hnd Hin), Hl. simpl. reflexivity.
  - rewrite Forall_forall in Hpos. apply (Hpos _ Hin).
Qed.

(** X13. In a report of [get_project_activity], the listed counts add up to
    the number of events, no type is listed twice, the types come by
    decreasing count, there are no more types than events, and the shares add
    up to 100 as soon as there is an event. *)
Theorem activity_distribution_adds_up o_events o_project pid r :
  get_project_activity o_events o_project pid = Ok r ->
  let items := fst <$> ar_distribution r in
  total_count items = ar_events r
  /\ NoDup (fst <$> items)
  /\ decreasing items
  /\ ar_types r = len items
  /\ ar_types r <= ar_events r
  /\ (0 < ar_events r -> (sum_Q (snd <$> ar_distribution r) == 100)%Q).
Proof.
  intros E items. apply activity_inv in E.
  destruct E as (counts & imp & Hc & _ & _ & He & Ht & Hd).
  destruct (count_by_spec _ _ _ _ Hc counter_nil) as ([Hnd Hpos] & Htot & _).
  assert (Hitems : items = sorted_by_count counts).
  { unfold items. rewrite Hd. apply with_percentage_fst. }
  assert (Htotal : total_count counts = ar_events r).
  { rewrite Htot, He. reflexivity. }
  rewrite Hitems, sorted_by_count_total.
  split; [exact Htotal |]. split.
  { rewrite (sorted_by_count_perm counts). exact Hnd. }
  split; [apply sorted_by_count_decreasing |]. split.
  { rewrite Ht. unfold len. rewrite (Permutation_length (sorted_by_count_perm counts)).
    reflexivity. }
  split.
  { rewrite Ht, <- Htotal. apply counter_length, Hpos. }
  intros Hsome. rewrite Hd, shares_total by (rewrite <- He; exact Hsome).
  rewrite sorted_by_count_total, Htotal, <- He. field.
  intros Hz. unfold Qeq in Hz; simpl in Hz. lia.
Qed.

Lemma important_events_spec (events important : list record) :
  important_events events = Ok important ->
  Forall (fun e => is_Some (e !! "action_name")) events
  /\ Forall (fun e => exists s, s ∈ IMPORTANT_ACTIONS
                                /\ e !! "action_name" = Some (JStr s)) important.
Proof.
  revert important. induction events as [|e events IH]; intros important E.
  - simpl in E. injection E as <-. split; constructor.
  - cbn [important_events] in E. apply bind_Ok in E as (action & Ha & E).
    apply bind_Ok in E as (others & Ho & E).
    destruct (IH _ Ho) as [IH1 IH2]. unfold getitem in Ha.
    destruct (e !! "action_name") as [v|] eqn:Hv; [| discriminate Ha].
    injection Ha as ->. split; [constructor; [eauto | exact IH1] |].
    destruct (existsb (is_str action) IMPORTANT_ACTIONS) eqn:Hex;
      injection E as <-; [| exact IH2].
    constructor; [| exact IH2].
    apply existsb_exists in Hex as (s & Hs & His).
    destruct action as [| | |s'| |]; simpl in His; try discriminate His.
    apply String.eqb_eq in His. subst s'. exists s.
    split; [apply list_elem_of_In, Hs | exact Hv].
Qed.

Lemma count_by_hashable (f : record -> result json) (l : list record)
  (d d' : list (key * Z)) :
  count_by f l d = Ok d' ->
  Forall (fun x => exists v, f x = Ok v /\ is_ok (hash_key v) = true) l.
Proof.
  revert d. induction l as [|x l IH]; intros d E; [constructor |].
  simpl in E. apply bind_Ok in E as (v & Hv & E).
  apply bind_Ok in E as (k & Hk & E).
  constructor; [| apply (IH _ E)]. exists v. rewrite Hk. split; [exact Hv | reflexivity].
Qed.

(** X14. [get_project_activity] gives a report only when every event
    received has an [action_name], and one that can be a dict key: an event
    without [action_name] is first counted as "unknown" and then makes
    line 193 raise, so no report ever lists it. *)
Theorem activity_needs_action_names o_events o_project pid r :
  get_project_activity o_events o_project pid = Ok r ->
  Forall (fun e => exists action,
            e !! "action_name" = Some action /\ is_ok (hash_key action) = true)
         (or_empty (returned o_events)).
Proof.
  intros E. apply activity_inv in E.
  destruct E as (counts & imp & Hc & Hi & _).
  apply important_events_spec in Hi as [Hall _].
  apply count_by_hashable in Hc.
  rewrite Forall_forall in *. intros e He.
  destruct (Hall e He) as [action Ha]. exists action. split; [exact Ha |].
  destruct (Hc e He) as (v & Hv & Hok). injection Hv as <-.
  unfold event_type, get_default in Hok. rewrite Ha in Hok. exact Hok.
Qed.

Lemma mapM_result_Forall {A B : Type} (f : A -> result B) (P : A -> Prop)
  (Q : B -> Prop) (l : list A) (k : list B) :
  (forall x y, P x -> f x = Ok y -> Q y) ->
  mapM f l = Ok k -> Forall P l -> Forall Q k.
Proof.
  intros Hf. revert k. induction l as [|x l IH]; intros k E Hall; simpl in E.
  - injection E as <-. constructor.
  - apply bind_Ok in E as (y & Hy & E). apply bind_Ok in E as (k' & Hk' & E).
    injection E as <-. apply Forall_cons in Hall as [Hx Hl].
    constructor; [apply (Hf x y Hx Hy) | apply (IH _ Hk' Hl)].
Qed.

(** X15. A report of [get_project_activity] shows at most five recent
    events, and the action of each line shown is one of "pushed to",
    "merged", "created", "closed", "commented on". *)
Theorem recent_activity_lines o_events o_project pid r :
  get_project_activity o_events o_project pid = Ok r ->
  len (ar_recent r) <= 5
  /\ Forall (fun line => exists s, s ∈ IMPORTANT_ACTIONS /\ snd (fst line) = JStr s)
            (ar_recent r).
Proof.
  intros E. apply activity_inv in E.
  destruct E as (counts & imp & _ & Hi & Hm & _).
  split.
  - unfold len. rewrite (mapM_result_length _ _ _ Hm), length_take. lia.
  - apply important_events_spec in Hi as [_ Himp].
    eapply (mapM_result_Forall activity_line); [| exact Hm | apply Forall_take, Himp].
    intros e line (s & Hs & Ha) Hline. unfold activity_line in Hline.
    inv_result. subst line. exists s. split; [exact Hs |].
    simpl. unfold get_default. rewrite Ha. reflexivity.
Qed.

(** X16. When the request for the events fails or answers an empty array,
    [get_project_activity] still gives a report: 0 events, no type, no line;
    nothing is divided by the number of events. *)
Theorem activity_without_events o_events o_project pid :
  or_empty (returned o_events) = [] ->
  exists name,
    get_project_activity o_events o_project pid
    = Ok {| ar_project_name := name; ar_events := 0; ar_types := 0;
            ar_distribution := []; ar_recent := [] |}.
Proof.
  intros Hnone. unfold get_project_activity, activity_from_results.
  rewrite !fetch_returned, Hnone. simpl. eexists. reflexivity.
Qed.

(** *** analyze_merge_requests *)

Lemma select_by_spec (k s : string) (l selected : list record) :
  select_by k s l = Ok selected ->
  selected = filter (fun x => get_is_str x k s = true) l.
Proof.
  revert selected. induction l as [|x l IH]; intros selected E.
  - simpl in E. injection E as <-. reflexivity.
  - simpl in E. apply bind_Ok in E as (v & Hv & E).
    apply bind_Ok in E as (others & Ho & E). injection E as <-.
    rewrite (IH _ Ho). unfold getitem in Hv.
    destruct (x !! k) as [v'|] eqn:Hk; [| discriminate Hv]. injection Hv as ->.
    assert (Hx : get_is_str x k s = is_str v s).
    { unfold get_is_str. rewrite Hk. reflexivity. }
    destruct (is_str v s) eqn:Hs.
    + rewrite filter_cons_True by exact Hx. reflexivity.
    + rewrite filter_cons_False by (rewrite Hx; discriminate). reflexivity.
Qed.

Lemma select_by_raises (k s : string) (l : list record) (e : exn) :
  select_by k s l = Raise e ->
  e = KeyError k /\ exists x, x ∈ l /\ x !! k = None.
Proof.
  induction l as [|x l IH]; intros E; simpl in E; [discriminate E |].
  unfold getitem in E. destruct (x !! k) as [v|] eqn:Hk; simpl in E.
  - destruct (select_by k s l) as [others|e'] eqn:Hl; simpl in E; [discriminate E |].
    injection E as <-. destruct (IH eq_refl) as (He & y & Hy & Hyk).
    split; [exact He |]. exists y. split; [right; exact Hy | exact Hyk].
  - injection E as <-. split; [reflexivity |]. exists x. split; [left | exact Hk].
Qed.

Lemma get_is_str_exclusive (x : record) (k s1 s2 : string) :
  s1 <> s2 -> get_is_str x k s1 = true -> get_is_str x k s2 = false.
Proof.
  unfold get_is_str. destruct (x !! k) as [[| | |s| |]|]; simpl; try discriminate.
  intros Hne H1. apply String.eqb_eq in H1. subst s.
  apply String.eqb_neq, Hne.
Qed.

Lemma three_states (k s1 s2 s3 : string) (l : list record) :
  s1 <> s2 -> s1 <> s3 -> s2 <> s3 ->
  len (filter (fun x => get_is_str x k s1 = true) l)
  + len (filter (fun x => get_is_str x k s2 = true) l)
  + len (filter (fun x => get_is_str x k s3 = true) l) <= len l.
Proof.
  intros H12 H13 H23. induction l as [|x l IH]; [unfold len; simpl; lia |].
  rewrite (len_cons x l).
  destruct (get_is_str x k s1) eqn:E1.
  - rewrite (filter_cons_True (fun x => get_is_str x k s1 = true)) by exact E1.
    rewrite len_cons.
    rewrite !filter_cons_False; [lia | |].
    + rewrite (get_is_str_exclusive x k s1 s3 H13 E1). discriminate.
    + rewrite (get_is_str_exclusive x k s1 s2 H12 E1). discriminate.
  - rewrite (filter_cons_False (fun x => get_is_str x k s1 = true))
      by (rewrite E1; discriminate).
    destruct (get_is_str x k s2) eqn:E2.
    + rewrite (filter_cons_True (fun x => get_is_str x k s2 = true)) by exact E2.
    rewrite len_cons.
      rewrite filter_cons_False; [lia |].
      rewrite (get_is_str_exclusive x k s2 s3 H23 E2). discriminate.
    + rewrite (filter_cons_False (fun x => get_is_str x k s2 = true))
        by (rewrite E2; discriminate).
      destruct (get_is_str x k s3) eqn:E3.
      * rewrite (filter_cons_True (fun x => get_is_str x k s3 = true)) by exact E3.
    rewrite len_cons. lia.
      * rewrite filter_cons_False by (rewrite E3; discriminate). lia.
Qed.

Lemma share_as_fraction (n d : Z) :
  0 < d -> (inject_Z n / inject_Z d * 100 == (n * 100) # Z.to_pos d)%Q.
Proof.
  intros Hd. rewrite (Qmake_Qdiv (n * 100)), Z2Pos.id by exact Hd.
  rewrite inject_Z_mult. field.
  intros Hz. unfold Qeq in Hz; simpl in Hz. lia.
Qed.

Lemma mr_report_inv o_mrs pid tf r :
  analyze_merge_requests o_mrs pid tf = Ok (MergeRequestReport r) ->
  let mrs := or_empty (returned o_mrs) in
  let by_state := fun s => filter (fun x => get_is_str x "state" s = true) mrs in
  mrs <> []
  /\ mr_total r = len mrs
  /\ mr_opened r = len (by_state "opened")
  /\ mr_merged r = len (by_state "merged")
  /\ mr_closed r = len (by_state "closed")
  /\ mr_merged_share r = (inject_Z (mr_merged r) / inject_Z (mr_total r) * 100)%Q
  /\ mr_merge_rate r
     = (inject_Z (mr_merged r)
        / inject_Z (Z.max (mr_opened r + mr_merged r) 1) * 100)%Q
  /\ mr_days r = days_map tf.
Proof.
  intros E. unfold analyze_merge_requests, merge_requests_from_results in E.
  rewrite fetch_returned in E. cbv zeta.
  destruct (or_empty (returned o_mrs)) as [|mr rest] eqn:Hmrs; [discriminate E |].
  apply bind_Ok in E as (opened_mrs & Ho & E).
  apply bind_Ok in E as (merged_mrs & Hm & E).
  apply bind_Ok in E as (closed_mrs & Hc & E).
  inv_result. subst r.
  cbn [mr_total mr_opened mr_merged mr_closed mr_merged_share mr_merge_rate mr_days].
  apply select_by_spec in Ho, Hm, Hc. subst opened_mrs merged_mrs closed_mrs.
  repeat split; try reflexivity. discriminate.
Qed.

(** X17. In a report of [analyze_merge_requests] the three counts are those
    of the states "opened", "merged" and "closed" among the merge requests
    received, they add up to the total at most; the share of merged ones
    and the merge rate lie between 0 and 100, the rate being at least the
    share. *)
Theorem merge_request_rates o_mrs pid tf r :
  analyze_merge_requests o_mrs pid tf = Ok (MergeRequestReport r) ->
  let mrs := or_empty (returned o_mrs) in
  let by_state := fun s => filter (fun x => get_is_str x "state" s = true) mrs in
  1 <= mr_total r
  /\ mr_opened r = len (by_state "opened")
  /\ mr_merged r = len (by_state "merged")
  /\ mr_closed r = len (by_state "closed")
  /\ mr_opened r + mr_merged r + mr_closed r <= mr_total r
  /\ (0 <= mr_merged_share r <= mr_merge_rate r)%Q
  /\ (mr_merge_rate r <= 100)%Q.
Proof.
  intros E mrs by_state. apply mr_report_inv in E.
  destruct E as (Hne & Ht & Ho & Hm & Hc & Hs & Hr & _).
  fold mrs in Hne, Ht, Ho, Hm, Hc. fold by_state in Ho, Hm, Hc.
  assert (Hsum : mr_opened r + mr_merged r + mr_closed r <= mr_total r).
  { rewrite Ho, Hm, Hc, Ht. apply three_states; discriminate. }
  assert (Hpos : 1 <= mr_total r).
  { rewrite Ht. destruct mrs; [congruence |]. rewrite len_cons.
    pose proof (len_nonneg mrs). lia. }
  assert (H0o : 0 <= mr_opened r) by (rewrite Ho; apply len_nonneg).
  assert (H0m : 0 <= mr_merged r) by (rewrite Hm; apply len_nonneg).
  assert (H0c : 0 <= mr_closed r) by (rewrite Hc; apply len_nonneg).
  split; [exact Hpos |]. split; [exact Ho |]. split; [exact Hm |].
  split; [exact Hc |]. split; [exact Hsum |].
  rewrite Hs, Hr, !share_as_fraction by lia.
  unfold Qle; simpl. rewrite !Z2Pos.id by lia. repeat split; nia.
Qed.

Lemma review_times_filter (l : list record) :
  review_times l
  = review_times (filter (fun mr => get_truthy mr "created_at"
                                    && get_truthy mr "merged_at" = true) l).
Proof.
  induction l as [|mr l IH]; [reflexivity |].
  destruct (get_truthy mr "created_at" && get_truthy mr "merged_at") eqn:Hb.
  - rewrite filter_cons_True by exact Hb. simpl. rewrite Hb, IH. reflexivity.
  - rewrite filter_cons_False by (rewrite Hb; discriminate).
    simpl. rewrite Hb. simpl. rewrite <- IH.
    destruct (review_times l); reflexivity.
Qed.

Lemma get_truthy_present (d : record) (k : string) :
  get_truthy d k = true -> exists v, getitem d k = Ok v.
Proof.
  unfold get_truthy, getitem. destruct (d !! k); [eauto | discriminate].
Qed.

Lemma parse_timestamp_no_key_error (v : json) (k : string) :
  parse_timestamp v <> Raise (KeyError k).
Proof.
  unfold parse_timestamp. destruct v; try discriminate.
  destruct (fromisoformat (replace_Z s)); discriminate.
Qed.

Lemma review_times_no_key_error (l : list record) (k : string) :
  review_times l <> Raise (KeyError k).
Proof.
  induction l as [|mr l IH]; simpl; [discriminate |].
  destruct (get_truthy mr "created_at" && get_truthy mr "merged_at") eqn:Hb.
  - apply andb_true_iff in Hb as [Hc Hm].
    destruct (get_truthy_present _ _ Hc) as [c ->].
    destruct (get_truthy_present _ _ Hm) as [m ->]. simpl.
    pose proof (parse_timestamp_no_key_error c k) as Hpc.
    destruct (parse_timestamp c) as [dc|e]; simpl; [| congruence].
    pose proof (parse_timestamp_no_key_error m k) as Hpm.
    destruct (parse_timestamp m) as [dm|e]; simpl; [| congruence].
    unfold dt_sub. destruct (utcoffset dm), (utcoffset dc); simpl;
      try discriminate; destruct (review_times l); simpl; congruence.
  - simpl. destruct (review_times l); simpl; congruence.
Qed.

Lemma sum_from_error (acc : Z) (l : list json) (e : exn) :
  sum_from acc l = Raise e -> e = TypeError.
Proof.
  revert acc. induction l as [|v l IH]; intros acc E; simpl in E; [discriminate E |].
  destruct v; simpl in E; try (injection E as <-; reflexivity); eapply IH, E.
Qed.

Lemma count_by_error (f : record -> result json) (l : list record)
  (d : list (key * Z)) (e : exn) :
  count_by f l d = Raise e ->
  e = TypeError \/ exists x, x ∈ l /\ f x = Raise e.
Proof.
  revert d. induction l as [|x l IH]; intros d E; simpl in E; [discriminate E |].
  destruct (f x) as [v|e'] eqn:Hv; simpl in E.
  - destruct (hash_key v) as [kx|e'] eqn:Hk; simpl in E.
    + destruct (IH _ E) as [-> | (y & Hy & Hfy)]; [left; reflexivity |].
      right. exists y. split; [right; exact Hy | exact Hfy].
    + injection E as <-. left. destruct v; simpl in Hk; congruence.
  - injection E as <-. right. exists x. split; [left | exact Hv].
Qed.

(** X18. [analyze_merge_requests] skips the merged requests that lack
    [created_at] or [merged_at] when it averages the review time, whatever
    else they hold; the only [KeyError] it can raise is for a merge request
    without [state]. *)
Theorem review_time_skips_undated o_mrs pid tf :
  (forall merged_mrs,
      review_times merged_mrs
      = review_times (filter (fun mr => get_truthy mr "created_at"
                                        && get_truthy mr "merged_at" = true)
                             merged_mrs))
  /\ (forall k,
        analyze_merge_requests o_mrs pid tf = Raise (KeyError k) ->
        k = "state"
        /\ exists mr, mr ∈ or_empty (returned o_mrs) /\ mr !! "state" = None).
Proof.
  split; [apply review_times_filter |].
  intros k E. unfold analyze_merge_requests, merge_requests_from_results in E.
  rewrite fetch_returned in E.
  destruct (or_empty (returned o_mrs)) as [|mr rest] eqn:Hmrs; [discriminate E |].
  destruct (select_by "state" "opened" (mr :: rest)) as [o|e] eqn:Ho; rewrite ?bind_Ok_l, ?bind_Raise_l in E; cbv beta in E.
  2: { injection E as ->. apply select_by_raises in Ho as [Hk Hx].
       injection Hk as ->. split; [reflexivity | exact Hx]. }
  destruct (select_by "state" "merged" (mr :: rest)) as [m|e] eqn:Hm; rewrite ?bind_Ok_l, ?bind_Raise_l in E; cbv beta in E.
  2: { injection E as ->. apply select_by_raises in Hm as [Hk Hx].
       injection Hk as ->. split; [reflexivity | exact Hx]. }
  destruct (select_by "state" "closed" (mr :: rest)) as [c|e] eqn:Hc; rewrite ?bind_Ok_l, ?bind_Raise_l in E; cbv beta in E.
  2: { injection E as ->. apply select_by_raises in Hc as [Hk Hx].
       injection Hk as ->. split; [reflexivity | exact Hx]. }
  exfalso.
  pose proof (review_times_no_key_error m k) as Hrt.
  destruct (review_times m) as [times|e]; rewrite ?bind_Ok_l, ?bind_Raise_l in E; cbv beta in E; [| congruence].
  destruct (avg_mr_size (mr_sizes m)) as [size|e] eqn:Hsize; rewrite ?bind_Ok_l, ?bind_Raise_l in E; cbv beta in E.
  2: { injection E as ->. unfold avg_mr_size in Hsize.
       destruct (mr_sizes m) as [|v sizes]; [discriminate Hsize |].
       unfold sum_json in Hsize.
       destruct (sum_from 0 (v :: sizes)) as [t|e] eqn:Hsum; simpl in Hsize;
         [discriminate Hsize |].
       injection Hsize as ->. apply sum_from_error in Hsum. discriminate Hsum. }
  destruct (count_by (fun mr0 => get_in mr0 "author" "username" (JStr "unknown"))
              (mr :: rest) []) as [authors|e] eqn:Ha; rewrite ?bind_Ok_l, ?bind_Raise_l in E; cbv beta in E; [discriminate E |].
  injection E as ->. apply count_by_error in Ha as [Ha | (x & _ & Hx)];
    [discriminate Ha |].
  unfold get_in in Hx. destruct (x !! "author") as [[| | | | |]|]; discriminate Hx.
Qed.

Lemma sum_from_text (acc : Z) (l : list json) (s : string) :
  JStr s ∈ l -> is_ok (sum_from acc l) = false.
Proof.
  revert acc. induction l as [|v l IH]; intros acc Hin.
  - apply elem_of_nil in Hin. destruct Hin.
  - apply elem_of_cons in Hin as [<- | Hin]; [reflexivity |].
    simpl. destruct (py_add acc v); [apply IH, Hin | reflexivity].
Qed.

Lemma mr_sizes_elem (mr : record) (v : json) (l : list record) :
  mr ∈ l -> mr !! "changes_count" = Some v -> truthy v = true -> v ∈ mr_sizes l.
Proof.
  intros Hin Hv Ht. unfold mr_sizes. apply list_elem_of_omap. exists mr.
  split; [exact Hin |]. unfold get_truthy. rewrite Hv, Ht. reflexivity.
Qed.

(** X19. [analyze_merge_requests] gives no report when a merged request
    carries its [changes_count] as a non-empty text: the sizes are summed
    as numbers, and the sum raises [TypeError]. *)
Theorem changes_count_text_raises o_mrs pid tf mr s :
  mr ∈ or_empty (returned o_mrs) ->
  get_is_str mr "state" "merged" = true ->
  mr !! "changes_count" = Some (JStr s) ->
  s <> EmptyString ->
  is_ok (analyze_merge_requests o_mrs pid tf) = false.
Proof.
  intros Hin Hmerged Hcc Hs.
  unfold analyze_merge_requests, merge_requests_from_results.
  rewrite fetch_returned.
  destruct (or_empty (returned o_mrs)) as [|x rest] eqn:Hmrs.
  { apply elem_of_nil in Hin. destruct Hin. }
  destruct (select_by "state" "opened" (x :: rest)) as [o|e]; [| reflexivity].
  rewrite bind_Ok_l.
  destruct (select_by "state" "merged" (x :: rest)) as [m|e] eqn:Hm; [| reflexivity].
  rewrite bind_Ok_l.
  destruct (select_by "state" "closed" (x :: rest)) as [c|e]; [| reflexivity].
  rewrite bind_Ok_l.
  destruct (review_times m) as [times|e]; [| reflexivity].
  rewrite bind_Ok_l.
  assert (Hsize : is_ok (avg_mr_size (mr_sizes m)) = false).
  { apply select_by_spec in Hm.
    assert (Hmr : mr ∈ m).
    { rewrite Hm. apply list_elem_of_filter. split; assumption. }
    assert (Hv : JStr s ∈ mr_sizes m).
    { apply (mr_sizes_elem mr); [exact Hmr | exact Hcc |].
      simpl. destruct s; [congruence | reflexivity]. }
    unfold avg_mr_size. destruct (mr_sizes m) as [|v sizes] eqn:Hsz.
    - apply elem_of_nil in Hv. destruct Hv.
    - unfold sum_json. pose proof (sum_from_text 0 _ s Hv) as Hsum.
      destruct (sum_from 0 (v :: sizes)); [discriminate Hsum | reflexivity]. }
  destruct (avg_mr_size (mr_sizes m)); [discriminate Hsize | reflexivity].
Qed.

(** *** monitor_pipelines *)

Lemma has_key_text (d : record) (k default s : string) :
  default <> s ->
  has_key (KStr s) (get_default d k (JStr default)) = get_is_str d k s.
Proof.
  intros Hne. unfold has_key, get_default, get_is_str.
  destruct (d !! k) as [[|b|n|s'|l|m]|]; simpl; try reflexivity.
  - destruct (String.eqb s' s) eqn:E.
    + apply String.eqb_eq in E. subst s'. apply bool_decide_eq_true. reflexivity.
    + apply String.eqb_neq in E. apply bool_decide_eq_false. congruence.
  - apply bool_decide_eq_false. congruence.
Qed.

Lemma is_str_status (p : record) (s : string) :
  "unknown" <> s -> is_str (pipeline_status_of p) s = get_is_str p "status" s.
Proof.
  intros Hne. unfold pipeline_status_of, get_default, get_is_str.
  destruct (p !! "status"); [reflexivity |].
  change (String.eqb "unknown" s = false). apply String.eqb_neq, Hne.
Qed.

Lemma pipeline_loop_spec (l : list record) d sum n d' sum' n' :
  pipeline_loop l (d, sum, n) = Ok (d', sum', n') ->
  counter d ->
  counter d'
  /\ total_count d' = total_count d + len l
  /\ n' = n + len (filter (fun p => get_is_str p "status" "success" = true) l)
  /\ forall k, lookup_count k d'
               = lookup_count k d
                 + len (filter (fun p => has_key k (pipeline_status_of p) = true) l).
Proof.
  revert d sum n. induction l as [|p l IH]; intros d sum n E Hc.
  - simpl in E. injection E as <- <- <-. split; [exact Hc |].
    unfold len; simpl. repeat split; intros; lia.
  - cbn [pipeline_loop] in E. apply bind_Ok in E as (kp & Hkp & E).
    apply bind_Ok in E as (sum1 & _ & E).
    destruct Hc as [Hnd Hpos].
    destruct (IH _ _ _ E) as (Hc' & Ht & Hn & Hl).
    { split; [apply bump_keys, Hnd | apply bump_positive, Hpos]. }
    split; [exact Hc' |]. split; [rewrite Ht, bump_total, len_cons; lia |].
    split.
    + rewrite Hn, (is_str_status p "success") by discriminate.
      destruct (get_is_str p "status" "success") eqn:Hs.
      * rewrite filter_cons_True by exact Hs. rewrite len_cons. lia.
      * rewrite filter_cons_False by (rewrite Hs; discriminate). lia.
    + intros k. rewrite Hl, bump_lookup.
      assert (Hk : has_key k (pipeline_status_of p) = bool_decide (kp = k)).
      { unfold has_key. rewrite Hkp. reflexivity. }
      destruct (decide (k = kp)) as [->|Hne].
      * rewrite filter_cons_True by (rewrite Hk; apply bool_decide_eq_true; reflexivity).
        rewrite len_cons. lia.
      * rewrite filter_cons_False; [lia |].
        rewrite Hk. intros Ht'. apply bool_decide_eq_true in Ht'. congruence.
Qed.

Lemma pipeline_report_inv o pid r :
  monitor_pipelines o pid = Ok (PipelineReport r) ->
  let pipelines := or_empty (returned o) in
  exists d sum n,
    pipelines <> []
    /\ pipeline_loop pipelines ([], 0, 0) = Ok (d, sum, n)
    /\ mapM pipeline_line (take 5 pipelines) = Ok (pr_recent r)
    /\ pr_total r = len pipelines
    /\ pr_success_rate r = (inject_Z n / inject_Z (len pipelines) * 100)%Q
    /\ pr_distribution r = with_percentage (len pipelines) <$> sorted_by_count d
    /\ pr_many_failed r = many_failed d
    /\ pr_low_success r = Qltb (pr_success_rate r) 80.
Proof.
  intros E. unfold monitor_pipelines, pipelines_from_results in E.
  rewrite fetch_returned in E. cbv zeta.
  destruct (or_empty (returned o)) as [|p rest] eqn:Hp; [discriminate E |].
  apply bind_Ok in E as ([[d sum] n] & Hloop & E).
  apply bind_Ok in E as (recent & Hrecent & E). injection E as <-.
  exists d, sum, n. repeat split; try assumption; try reflexivity. discriminate.
Qed.

Lemma many_failed_spec (d : list (key * Z)) :
  Forall (fun item => 1 <= snd item) d ->
  many_failed d = (3 <? lookup_count (KStr "failed") d).
Proof.
  intros Hpos. unfold many_failed.
  destruct (bool_decide (KStr "failed" ∈ fst <$> d)) eqn:Hin; [reflexivity |].
  apply bool_decide_eq_false in Hin. simpl.
  assert (Hz : lookup_count (KStr "failed") d = 0).
  { clear Hpos. induction d as [|[k n] d IH]; [reflexivity |]. simpl.
    rewrite fmap_cons, not_elem_of_cons in Hin. destruct Hin as [Hne Hin].
    simpl in Hne. destruct (decide (KStr "failed" = k)); [congruence | apply IH, Hin]. }
  rewrite Hz. reflexivity.
Qed.

(** X20. In a report of [monitor_pipelines] the success rate is 100 times
    the number of pipelines whose status is "success" over the number of
    pipelines, between 0 and 100; the counts by status add up to that
    number; and the warning for many failures is given exactly when more
    than three pipelines have the status "failed". *)
Theorem pipeline_success_rate o pid r :
  monitor_pipelines o pid = Ok (PipelineReport r) ->
  let pipelines := or_empty (returned o) in
  let with_status := fun s => filter (fun p => get_is_str p "status" s = true) pipelines in
  1 <= pr_total r
  /\ (pr_success_rate r
      == inject_Z (len (with_status "success")) / inject_Z (pr_total r) * 100)%Q
  /\ (0 <= pr_success_rate r <= 100)%Q
  /\ total_count (fst <$> pr_distribution r) = pr_total r
  /\ (pr_many_failed r = true <-> 3 < len (with_status "failed")).
Proof.
  intros E pipelines with_status. apply pipeline_report_inv in E.
  destruct E as (d & sum & n & Hne & Hloop & _ & Ht & Hr & Hd & Hm & _).
  fold pipelines in Hne, Hloop, Ht, Hr, Hd.
  destruct (pipeline_loop_spec _ _ _ _ _ _ _ Hloop counter_nil)
    as ([Hnd Hpos] & Htot & Hn & Hl).
  assert (H1 : 1 <= len pipelines).
  { destruct pipelines; [congruence |]. rewrite len_cons.
    pose proof (len_nonneg pipelines). lia. }
  assert (Hsucc : n = len (with_status "success"))
    by (rewrite Hn; unfold with_status; lia).
  assert (Hle : 0 <= n <= len pipelines).
  { rewrite Hsucc. unfold with_status, len. split; [lia |].
    apply inj_le, length_filter. }
  split; [rewrite Ht; exact H1 |]. split; [rewrite Hr, Ht, Hsucc; reflexivity |].
  split.
  { rewrite Hr, share_as_fraction by lia.
    unfold Qle; simpl. rewrite Z2Pos.id by lia. split; nia. }
  split.
  { rewrite Hd, with_percentage_fst, sorted_by_count_total, Htot, Ht.
    unfold total_count; simpl. lia. }
  rewrite Hm, (many_failed_spec _ Hpos), Hl. simpl lookup_count.
  unfold with_status.
  assert (Hfilter : filter (fun p => has_key (KStr "failed") (pipeline_status_of p) = true)
                      pipelines
                    = filter (fun p => get_is_str p "status" "failed" = true) pipelines).
  { apply list_filter_iff. intros p. unfold pipeline_status_of.
    rewrite (has_key_text p "status" "unknown" "failed") by discriminate. reflexivity. }
  rewrite Hfilter, Z.ltb_lt. lia.
Qed.

Lemma pipeline_line_ok (p : record) :
  is_ok (pipeline_line p) = true
  <-> is_Some (p !! "status") /\ is_Some (p !! "id") /\ is_Some (p !! "ref").
Proof.
  unfold pipeline_line, getitem.
  destruct (p !! "status"), (p !! "id"), (p !! "ref"); simpl; split;
    try discriminate; try (intros _; repeat split; eauto; fail);
    try reflexivity; intros (Hs & Hi & Hr);
    try (destruct Hs as [? Hs]; discriminate Hs);
    try (destruct Hi as [? Hi]; discriminate Hi);
    try (destruct Hr as [? Hr]; discriminate Hr).
Qed.

(** X21. A report of [monitor_pipelines] shows the lines of the first five
    pipelines at most, and each of these five has the keys [status], [id]
    and [ref]: without one of them the line raises [KeyError]; a later
    pipeline without [status] is only counted, as "unknown". *)
Theorem pipeline_lines_need_keys o pid r :
  monitor_pipelines o pid = Ok (PipelineReport r) ->
  let pipelines := or_empty (returned o) in
  len (pr_recent r) = Z.min 5 (pr_total r)
  /\ Forall (fun p => is_Some (p !! "status") /\ is_Some (p !! "id")
                      /\ is_Some (p !! "ref")) (take 5 pipelines)
  /\ forall k n q,
       (k, n, q) ∈ pr_distribution r ->
       n = len (filter (fun p => has_key k (pipeline_status_of p) = true) pipelines).
Proof.
  intros E pipelines. apply pipeline_report_inv in E.
  destruct E as (d & sum & n & Hne & Hloop & Hrecent & Ht & _ & Hd & _).
  fold pipelines in Hloop, Hrecent, Ht, Hd.
  split; [| split].
  - unfold len. rewrite (mapM_result_length _ _ _ Hrecent), length_take, Ht.
    unfold len. lia.
  - assert (Hok : is_ok (mapM pipeline_line (take 5 pipelines)) = true)
      by (rewrite Hrecent; reflexivity).
    apply mapM_result_ok in Hok. eapply Forall_impl; [exact Hok |].
    intros p Hp. apply pipeline_line_ok, Hp.
  - intros k m q Hin.
    destruct (pipeline_loop_spec _ _ _ _ _ _ _ Hloop counter_nil)
      as ([Hnd _] & _ & _ & Hl).
    rewrite Hd in Hin. apply list_elem_of_fmap in Hin as ([k' m'] & Heq & Hin).
    injection Heq as -> -> _. rewrite sorted_by_count_perm in Hin.
    rewrite <- (lookup_count_elem _ _ _ Hnd Hin), Hl. simpl. reflexivity.
Qed.

(** *** Nothing received *)

(** X22. When the request fails or answers an empty array,
    [analyze_merge_requests] and [monitor_pipelines] answer with their
    message that there is nothing, as for an empty project; the number of
    days in the message is 7, 30 or 90, and 30 for an unknown timeframe. *)
Theorem nothing_received o pid tf :
  or_empty (returned o) = [] ->
  analyze_merge_requests o pid tf = Ok (NoMergeRequests (days_map tf) pid)
  /\ monitor_pipelines o pid = Ok (NoPipelines pid)
  /\ (days_map tf = 7 \/ days_map tf = 30 \/ days_map tf = 90)
  /\ (tf <> "week" -> tf <> "quarter" -> days_map tf = 30).
Proof.
  intros Hnone.
  unfold analyze_merge_requests, merge_requests_from_results,
    monitor_pipelines, pipelines_from_results.
  rewrite !fetch_returned, Hnone. split; [reflexivity |]. split; [reflexivity |].
  unfold days_map.
  destruct (String.eqb tf "week") eqn:Ew; [split; [tauto |] |].
  { apply String.eqb_eq in Ew. congruence. }
  destruct (String.eqb tf "month") eqn:Em; [split; [tauto | reflexivity] |].
  destruct (String.eqb tf "quarter") eqn:Eq; [split; [tauto |] | split; [tauto | reflexivity]].
  apply String.eqb_eq in Eq. congruence.
Qed.

End Properties.

(** ** Properties of the README tools *)

Section ReadmeProperties.

Context {char : Type} `{PyText char}.

Lemma obind_Returned {A B : Type} (m : outcome A) (k : A -> outcome B) (b : B) :
  m ≫= k = Returned b -> exists a, m = Returned a /\ k a = Returned b.
Proof. destruct m as [a|e]; [eauto | discriminate]. Qed.

Lemma of_result_Returned {A : Type} (m : result A) (a : A) :
  of_result m = Returned a -> m = Ok a.
Proof. destruct m; simpl; congruence. Qed.

Lemma of_request_Returned {A : Type} (m : http_exn + A) (a : A) :
  of_request m = Returned a -> m = inr a.
Proof. destruct m; simpl; congruence. Qed.

Lemma as_text_Ok (m : result json) (s : string) :
  m ≫= as_text = Ok s -> m = Ok (JStr s).
Proof.
  destruct m as [v|e]; [| discriminate].
  destruct v; simpl; try discriminate. intros E. injection E as ->. reflexivity.
Qed.

Lemma getitem_Ok (d : record) (k : string) (v : json) :
  getitem d k = Ok v -> d !! k = Some v.
Proof. unfold getitem. destruct (d !! k); simpl; congruence. Qed.

Lemma startswith_spec (p s : list char) :
  startswith p s = true <-> exists r, s = (p ++ r)%list.
Proof.
  revert s. induction p as [|a p IH]; intros s.
  - simpl. split; [eauto | reflexivity].
  - destruct s as [|b s]; simpl.
    + split; [discriminate | intros [r Hr]; discriminate].
    + rewrite andb_true_iff, bool_decide_eq_true, IH. split.
      * intros [-> [r ->]]. eauto.
      * intros [r Hr]. injection Hr as -> ->. eauto.
Qed.

Lemma find_eq (p s : list char) :
  find p s =
  if startswith p s then Some 0%nat
  else match s with
       | [] => None
       | _ :: s' => S <$> find p s'
       end.
Proof. destruct s; reflexivity. Qed.

Lemma find_Some (p s : list char) (n : nat) :
  find p s = Some n ->
  exists a b, s = (a ++ p ++ b)%list /\ length a = n.
Proof.
  revert n. induction s as [|c s IH]; intros n; rewrite find_eq.
  - destruct (startswith p []) eqn:E; [| discriminate].
    intros E'. injection E' as <-. apply startswith_spec in E as [r ->].
    exists [], r. auto.
  - destruct (startswith p (c :: s)) eqn:E.
    + intros E'. injection E' as <-. apply startswith_spec in E as [r ->].
      exists [], r. auto.
    + destruct (find p s) as [k|]; [| discriminate].
      intros E'. injection E' as <-.
      destruct (IH k eq_refl) as (a & b & -> & <-).
      exists (c :: a), b. auto.
Qed.

Lemma contains_spec (p s : list char) :
  contains p s = true <-> exists a b, s = (a ++ p ++ b)%list.
Proof.
  unfold contains. split.
  - destruct (find p s) as [n|] eqn:E; [| discriminate]. intros _.
    destruct (find_Some _ _ _ E) as (a & b & -> & _). eauto.
  - intros (a & b & ->). induction a as [|c a IH]; rewrite find_eq.
    + assert (startswith p ([] ++ p ++ b) = true) as ->; [| reflexivity].
      apply startswith_spec. eauto.
    + destruct (startswith p _); [reflexivity |].
      change ((c :: a) ++ p ++ b)%list with (c :: (a ++ p ++ b))%list.
      cbv iota. destruct (find p (a ++ p ++ b)); [reflexivity | discriminate].
Qed.

Lemma readme_files_filter (files found_files : list record) :
  readme_files files = Ok found_files ->
  found_files = filter (fun f => readme_blob f = true) files.
Proof.
  revert found_files. induction files as [|f rest IH]; intros found_files E.
  - injection E as <-. reflexivity.
  - cbn [readme_files] in E.
    apply bind_Ok in E as (name & En & E).
    apply bind_Ok in E as (keep & Ek & E).
    apply bind_Ok in E as (others & Eo & E).
    injection E as <-. rewrite (IH _ Eo).
    assert (readme_blob f = keep) as Hk.
    { unfold readme_blob. rewrite En.
      destruct (startswith (text_of "readme") name); simpl.
      - apply fmap_Ok in Ek as (type & Et & Ek).
        apply getitem_Ok in Et. rewrite Et. congruence.
      - congruence. }
    destruct keep.
    + rewrite filter_cons_True by exact Hk. reflexivity.
    + rewrite filter_cons_False by congruence. reflexivity.
Qed.

Lemma main_readme_spec (first : record) (others : list record) :
  main_readme first others ∈ first :: others
  /\ (forall g, g ∈ first :: others -> is_main_name g = true ->
      is_main_name (main_readme first others) = true).
Proof.
  unfold main_readme.
  destruct (filter (fun f => is_main_name f = true) (first :: others))
    as [|rf l] eqn:E.
  - split; [left |]. intros g Hg Hm.
    assert (g ∈ filter (fun f => is_main_name f = true) (first :: others)) as Hin
      by (apply list_elem_of_filter; auto).
    rewrite E in Hin. inversion Hin.
  - assert (rf ∈ filter (fun f => is_main_name f = true) (first :: others)) as Hin
      by (rewrite E; left).
    apply list_elem_of_filter in Hin as [Hm Hin]. auto.
Qed.

(** X23 ([get_project_readme_content], lines 652-665): the function
    returns [None] exactly when the request for the tree answers 404; every
    other failure of that request - another status outside 2xx, an error of
    the transport, a timeout, a body that is no JSON - is raised to the
    caller. *)
Theorem readme_tree_failures_raised (o_tree : http_outcome (list record))
  (o_file : string -> http_outcome record) (project_id ref : string) :
  (get_project_readme_content o_tree o_file project_id ref = Returned None
   <-> tree_missing o_tree = true)
  /\ (forall e, tree_missing o_tree = false -> try_get o_tree = inl e ->
      get_project_readme_content o_tree o_file project_id ref
      = Raised (HttpRaised e)).
Proof.
  unfold get_project_readme_content. split; [split |].
  - destruct (tree_missing o_tree); [reflexivity |]. intros E.
    apply obind_Returned in E as (files & _ & E).
    apply obind_Returned in E as (found_files & _ & E).
    destruct found_files as [|first others]; [discriminate |].
    cbv zeta in E.
    apply obind_Returned in E as (path & _ & E).
    apply obind_Returned in E as (data & _ & E).
    apply obind_Returned in E as (encoded & _ & E).
    apply obind_Returned in E as (content & _ & E).
    apply obind_Returned in E as (name & _ & E).
    discriminate.
  - intros ->. reflexivity.
  - intros e -> ->. reflexivity.
Qed.

(** X24 ([get_project_readme_content], lines 668-711): the README that is
    returned is a file of the tree of type blob whose lowered name starts
    with "readme"; when the tree has such a file named "readme" or
    "readme.md" (in any case of the letters), the file returned has such a
    name; its size is the number of characters of the decoded content of
    the file requested under its path. *)
Theorem readme_choice (o_tree : http_outcome (list record))
  (o_file : string -> http_outcome record) (project_id ref : string)
  (files : list record) (file : readme_file) :
  try_get o_tree = inr files ->
  get_project_readme_content o_tree o_file project_id ref
  = Returned (Some (ReadmeSuccess file)) ->
  (exists f, f ∈ files /\ readme_blob f = true
     /\ f !! "name" = Some (JStr (rd_filename file))
     /\ f !! "path" = Some (JStr (rd_path file))
     /\ (forall g, g ∈ files -> readme_blob g = true -> is_main_name g = true ->
         is_main_name f = true))
  /\ rd_size_bytes file = len (rd_content file)
  /\ exists (data : record) (encoded : string),
       try_get (o_file (rd_path file)) = inr data
       /\ data !! "content" = Some (JStr encoded)
       /\ b64decode_utf8 encoded = Some (rd_content file).
Proof.
  intros Ht E. unfold get_project_readme_content in E.
  destruct (tree_missing o_tree); [discriminate |].
  rewrite Ht in E. simpl in E.
  apply obind_Returned in E as (found_files & Ef & E).
  apply of_result_Returned, readme_files_filter in Ef.
  destruct found_files as [|first others]; [discriminate |].
  cbv zeta in E.
  apply obind_Returned in E as (path & Ep & E).
  apply obind_Returned in E as (data & Ed & E).
  apply obind_Returned in E as (encoded & Ee & E).
  apply obind_Returned in E as (content & Ec & E).
  apply obind_Returned in E as (name & En & E).
  injection E as <-. simpl.
  apply of_result_Returned, as_text_Ok, getitem_Ok in Ep, Ee, En.
  apply of_request_Returned in Ed. apply of_result_Returned in Ec.
  destruct (main_readme_spec first others) as [Hin Hmain].
  split; [| split; [reflexivity |]].
  - exists (main_readme first others). rewrite Ef in Hin, Hmain.
    apply list_elem_of_filter in Hin as [Hb Hin].
    repeat split; try assumption.
    intros g Hg Hgb Hgm. apply (Hmain g); [| exact Hgm].
    apply list_elem_of_filter. auto.
  - exists data, encoded. repeat split; try assumption.
    unfold decode in Ec. destruct (b64decode_utf8 encoded); congruence.
Qed.

Lemma contains_part (q p s : list char) :
  contains p s = true -> (exists a b, p = (a ++ q ++ b)%list) ->
  contains q s = true.
Proof.
  intros Hp (a & b & ->). apply contains_spec in Hp as (a' & b' & ->).
  apply contains_spec. exists (a' ++ a)%list, (b ++ b')%list.
  rewrite <- !app_assoc. reflexivity.
Qed.

Lemma contains_elem (p s : list char) (c : char) :
  contains p s = true -> c ∈ p -> c ∈ s.
Proof.
  intros Hp Hc. apply contains_spec in Hp as (a & b & ->).
  rewrite !elem_of_app. tauto.
Qed.

Lemma slice_keeps (a t b : list char) (start stop : Z) :
  0 <= start <= len a -> len a + len t <= stop ->
  slice start stop (a ++ t ++ b)
  = (drop (Z.to_nat start) a ++ t
     ++ take (Z.to_nat stop - length a - length t) b)%list.
Proof.
  unfold slice, len. intros Hs He.
  rewrite drop_app_le by lia.
  rewrite take_app_ge by (rewrite length_drop; lia).
  rewrite take_app_ge by (rewrite length_drop; lia).
  rewrite length_drop. do 3 f_equal. lia.
Qed.

Lemma ellipsis_length : length ellipsis = 3%nat.
Proof. unfold ellipsis, text_of. rewrite length_fmap. reflexivity. Qed.

Lemma match_in_line_spec (term : list char) (n : Z) (line : list char)
  (m : match_line) :
  match_in_line true term term n line = Some m ->
  exists a b, line = (a ++ term ++ b)%list
    /\ m_line m = n
    /\ m_position m = Some (length a)
    /\ contains term (m_context m) = true
    /\ len (m_context m) <= len term + 66.
Proof.
  unfold match_in_line. destruct (contains term line) eqn:Hc; [| discriminate].
  unfold contains in Hc. destruct (find term line) as [p|] eqn:Ef; [| discriminate].
  destruct (find_Some _ _ _ Ef) as (a & b & -> & <-). clear Hc Ef.
  intros E. injection E as <-. cbn [m_line m_context m_position position].
  exists a, b. do 3 (split; [reflexivity |]).
  set (start := Z.max 0 (Z.of_nat (length a) - 30)).
  set (stop := Z.min (len (a ++ term ++ b)) (Z.of_nat (length a) + len term + 30)).
  assert (len (a ++ term ++ b) = len a + len term + len b) as Hlen
    by (unfold len; rewrite !length_app; lia).
  rewrite slice_keeps by (unfold len in *; lia).
  set (before := drop (Z.to_nat start) a).
  set (after := take (Z.to_nat stop - length a - length term) b).
  assert (length before <= 30)%nat
    by (unfold before; rewrite length_drop; lia).
  assert (length after <= 30)%nat.
  { unfold after. rewrite length_take. unfold len in *. lia. }
  pose proof ellipsis_length.
  split.
  - apply contains_spec.
    destruct (0 <? start), (stop <? len (a ++ term ++ b)).
    + exists (ellipsis ++ before)%list, (after ++ ellipsis)%list.
      simpl. rewrite <- ?app_assoc. reflexivity.
    + exists (ellipsis ++ before)%list, after. reflexivity.
    + exists before, (after ++ ellipsis)%list. rewrite <- ?app_assoc. reflexivity.
    + exists before, after. reflexivity.
  - destruct (0 <? start), (stop <? len (a ++ term ++ b)); unfold len;
      repeat (progress (rewrite ?length_app; cbn [length])); lia.
Qed.

Lemma match_in_line_Some (case_sensitive : bool) (search_term term : list char)
  (n : Z) (line : list char) :
  is_Some (match_in_line case_sensitive search_term term n line)
  <-> contains term (if case_sensitive then line else lower line) = true.
Proof.
  unfold match_in_line.
  destruct (contains term (if case_sensitive then line else lower line)).
  - split; [reflexivity | eauto].
  - split; [intros [m Hm]; discriminate | discriminate].
Qed.

Lemma matches_from_length (case_sensitive : bool) (search_term term : list char)
  (n : Z) (lines : list (list char)) :
  length (matches_from case_sensitive search_term term n lines)
  = length (filter (fun line => contains term
                      (if case_sensitive then line else lower line) = true) lines).
Proof.
  revert n. induction lines as [|line rest IH]; intros n; [reflexivity |].
  cbn [matches_from].
  pose proof (match_in_line_Some case_sensitive search_term term n line) as Hm.
  destruct (match_in_line case_sensitive search_term term n line) as [m|].
  - rewrite filter_cons_True by (apply Hm; eauto). simpl. rewrite IH. reflexivity.
  - rewrite filter_cons_False.
    + apply IH.
    + intros Hc. apply Hm in Hc as [m Hc]. discriminate.
Qed.

Lemma matches_from_elem (case_sensitive : bool) (search_term term : list char)
  (n : Z) (lines : list (list char)) (m : match_line) :
  m ∈ matches_from case_sensitive search_term term n lines ->
  exists (i : nat) line, lines !! i = Some line
    /\ match_in_line case_sensitive search_term term (n + Z.of_nat i) line = Some m.
Proof.
  revert n. induction lines as [|line rest IH]; intros n Hin.
  - inversion Hin.
  - cbn [matches_from] in Hin.
    assert (m ∈ matches_from case_sensitive search_term term (n + 1) rest ->
            exists (i : nat) l, (line :: rest) !! i = Some l
              /\ match_in_line case_sensitive search_term term (n + Z.of_nat i) l
                 = Some m) as Hrest.
    { intros Hr. destruct (IH _ Hr) as (i & l & Hl & Hm).
      exists (S i), l. split; [exact Hl |].
      replace (n + Z.of_nat (S i)) with (n + 1 + Z.of_nat i) by lia. exact Hm. }
    destruct (match_in_line case_sensitive search_term term n line) as [m'|] eqn:E;
      [| auto].
    apply elem_of_cons in Hin as [-> | Hin]; [| auto].
    exists 0%nat, line. split; [reflexivity |].
    replace (n + Z.of_nat 0) with n by lia. exact E.
Qed.

Lemma split_on_cons (sep c : char) (s : list char) :
  exists w ws, split_on sep s = w :: ws
    /\ split_on sep (c :: s)
       = if decide (c = sep) then [] :: w :: ws else (c :: w) :: ws.
Proof.
  assert (exists w ws, split_on sep s = w :: ws) as (w & ws & E).
  { destruct s as [|d s]; simpl; [eauto |].
    destruct (decide (d = sep)); [eauto |].
    destruct (split_on sep s); eauto. }
  exists w, ws. split; [exact E |]. simpl. rewrite E. reflexivity.
Qed.

Lemma split_on_no_sep (sep : char) (s : list char) :
  Forall (fun line => sep ∉ line) (split_on sep s).
Proof.
  induction s as [|c s IH].
  - simpl. constructor; [| constructor]. apply not_elem_of_nil.
  - destruct (split_on_cons sep c s) as (w & ws & E & ->). rewrite E in IH.
    inversion IH as [|? ? Hw Hws]; subst.
    destruct (decide (c = sep)) as [-> | Hc].
    + constructor; [apply not_elem_of_nil | exact IH].
    + constructor; [| exact Hws].
      rewrite elem_of_cons. intros [-> | Hin]; [congruence | auto].
Qed.

Lemma split_on_keeps (sep : char) (a p b : list char) :
  sep ∉ p ->
  exists line a' b', line ∈ split_on sep (a ++ p ++ b)
    /\ line = (a' ++ p ++ b')%list.
Proof.
  intros Hp.
  assert (forall s, exists w ws,
            split_on sep (p ++ s)%list = (p ++ w)%list :: ws) as Hhead.
  { intros s. induction p as [|c p IH].
    - destruct (split_on_cons sep sep s) as (w & ws & E & _). simpl. eauto.
    - rewrite not_elem_of_cons in Hp. destruct Hp as [Hc Hp].
      destruct (IH Hp) as (w & ws & E).
      destruct (split_on_cons sep c (p ++ s)%list) as (w' & ws' & E' & E'').
      rewrite E in E'. injection E' as <- <-.
      change ((c :: p) ++ s)%list with (c :: (p ++ s))%list. rewrite E''.
      destruct (decide (c = sep)); [congruence |]. exists w, ws. reflexivity. }
  induction a as [|c a IH].
  - destruct (Hhead b) as (w & ws & E). exists (p ++ w)%list, [], w.
    simpl. rewrite E. split; [left | reflexivity].
  - destruct IH as (line & a' & b' & Hin & ->).
    destruct (split_on_cons sep c (a ++ p ++ b)%list) as (w & ws & E & E').
    change ((c :: a) ++ p ++ b)%list with (c :: (a ++ p ++ b))%list. rewrite E'.
    rewrite E in Hin. destruct (decide (c = sep)).
    + exists (a' ++ p ++ b')%list, a', b'. split; [right; exact Hin | reflexivity].
    + apply elem_of_cons in Hin as [<- | Hin].
      * exists (c :: a' ++ p ++ b')%list, (c :: a'), b'. split; [left | reflexivity].
      * exists (a' ++ p ++ b')%list, a', b'. split; [right; exact Hin | reflexivity].
Qed.

(** X25 ([read_project_readme], lines 749-754): what is shown is a prefix
    of the README.  Without a limit, with the limit 0 or with a limit the
    README does not exceed, the whole README is shown and nothing is
    announced; a positive limit below its length shows that many characters
    and announces the full length; a negative limit always shortens, and
    removes that many characters from the end. *)
Theorem readme_shortened (o_tree : http_outcome (list record))
  (o_file : string -> http_outcome record) (project_identifier branch : string)
  (max_length : option Z) (file : readme_file) (r : shown_readme) :
  get_project_readme_content o_tree o_file project_identifier branch
  = Returned (Some (ReadmeSuccess file)) ->
  read_project_readme o_tree o_file project_identifier branch max_length
  = Returned (Shown r) ->
  (exists rest, rd_content file = (sh_content r ++ rest)%list)
  /\ match max_length with
     | None => sh_content r = rd_content file /\ sh_shortened r = None
     | Some n =>
         (n = 0 \/ len (rd_content file) <= n ->
          sh_content r = rd_content file /\ sh_shortened r = None)
         /\ (0 < n < len (rd_content file) ->
             len (sh_content r) = n
             /\ sh_shortened r = Some (len (rd_content file)))
         /\ (n < 0 ->
             len (sh_content r) = Z.max 0 (len (rd_content file) + n)
             /\ sh_shortened r = Some (len (rd_content file)))
     end.
Proof.
  intros Eg E. unfold read_project_readme in E. rewrite Eg in E.
  cbn [mbind outcome_bind] in E. cbn [show_readme] in E.
  apply obind_Returned in E as (commit & _ & E). injection E as <-.
  cbn [sh_content sh_shortened].
  destruct max_length as [n|].
  - destruct (Z.eqb_spec n 0) as [-> | Hn]; cbn [negb andb].
    { split; [exists []; rewrite app_nil_r; reflexivity |].
      split; [intros _; split; reflexivity |]. split; intros ?; lia. }
    destruct (Z.ltb_spec n (len (rd_content file))) as [Hlt | Hge].
    + unfold slice_to. split.
      { destruct (0 <=? n); eexists; symmetry; apply take_drop. }
      split; [intros [? | ?]; lia |].
      destruct (Z.leb_spec 0 n); split; intros ?; try lia;
        (split; [| reflexivity]); unfold len in *; rewrite length_take; lia.
    + split; [exists []; rewrite app_nil_r; reflexivity |].
      split; [intros _; split; reflexivity |].
      split; intros ?; unfold len in *; lia.
  - split; [exists []; rewrite app_nil_r; reflexivity | auto].
Qed.

(** X26 ([search_in_readme], lines 945-992): in both modes the number of
    matches announced is the number of lines of the README that contain the
    term, the first ten of them at most are listed, and the remainder is
    announced exactly when there are more than ten. *)
Theorem search_counts_lines (result : option readme) (search_term : list char)
  (case_sensitive : bool) (r : search_report) :
  search_readme result search_term case_sensitive = SearchReport r ->
  exists file, result = Some (ReadmeSuccess file)
    /\ sr_found r
       = len (filter (fun line =>
                contains (if case_sensitive then search_term else lower search_term)
                  (if case_sensitive then line else lower line) = true)
                (split_lines (rd_content file)))
    /\ len (sr_shown r) = Z.min 10 (sr_found r)
    /\ (sr_found r <= 10 -> sr_more r = None)
    /\ (10 < sr_found r -> sr_more r = Some (sr_found r - 10)).
Proof.
  unfold search_readme. destruct result as [[|file]|]; try discriminate.
  destruct (negb _); [discriminate |]. intros E. injection E as <-.
  exists file. cbn [sr_found sr_shown sr_more].
  split; [reflexivity |]. split.
  { unfold len. rewrite matches_from_length. reflexivity. }
  split; [unfold len; rewrite length_take; lia |].
  destruct (Z.ltb_spec 10 (len (matches_from case_sensitive search_term
    (if case_sensitive then search_term else lower search_term) 1
    (split_lines (rd_content file))))); split; intros; try lia; reflexivity.
Qed.

(** X27 ([search_in_readme], lines 952-975, case-sensitive search): every
    match that is listed names a line of the README, counted from 1, in
    which the term occurs at the position recorded; the context shown
    contains the term and has at most 66 characters more than the term. *)
Theorem search_context_shows_term (file : readme_file) (search_term : list char)
  (r : search_report) (m : match_line) :
  search_readme (Some (ReadmeSuccess file)) search_term true = SearchReport r ->
  m ∈ sr_shown r ->
  exists line before after,
    1 <= m_line m
    /\ split_lines (rd_content file) !! Z.to_nat (m_line m - 1) = Some line
    /\ line = (before ++ search_term ++ after)%list
    /\ m_position m = Some (length before)
    /\ contains search_term (m_context m) = true
    /\ len (m_context m) <= len search_term + 66.
Proof.
  unfold search_readme. destruct (negb _); [discriminate |].
  intros E Hin. injection E as <-. cbn [sr_shown] in Hin.
  apply elem_of_take in Hin as (j & Hin & _).
  apply list_elem_of_lookup_2 in Hin.
  apply matches_from_elem in Hin as (i & line & Hl & Hm).
  destruct (match_in_line_spec _ _ _ _ Hm) as (a & b & -> & Hn & Hp & Hc & Hlen).
  exists (a ++ search_term ++ b)%list, a, b. rewrite Hn.
  replace (Z.to_nat (1 + Z.of_nat i - 1)) with i by lia.
  repeat split; try assumption. lia.
Qed.

(** X28 ([search_in_readme], lines 945-982, case-sensitive search): the
    term is looked for in the whole text first and line by line afterwards.
    A report with no match at all is returned exactly when the term
    contains a line break: such a term is found in the text and in none of
    its lines. *)
Theorem search_across_lines (file : readme_file) (search_term : list char)
  (r : search_report) :
  search_readme (Some (ReadmeSuccess file)) search_term true = SearchReport r ->
  (sr_found r = 0 <-> newline ∈ search_term)
  /\ (sr_found r = 0 -> sr_shown r = []).
Proof.
  unfold search_readme. destruct (contains _ _) eqn:Hc; [| discriminate].
  intros E. injection E as <-. cbn [sr_found sr_shown negb].
  assert (forall l : list (@match_line char), len l = 0 -> l = []) as Hnil.
  { intros [|x l]; [reflexivity |]. unfold len. simpl. lia. }
  split; [| intros E; rewrite (Hnil _ E); reflexivity].
  unfold len. rewrite matches_from_length.
  apply contains_spec in Hc as (a & b & Hc). split.
  - intros Hz. destruct (decide (newline ∈ search_term)) as [Hin | Hout]; [exact Hin |].
    exfalso.
    destruct (split_on_keeps newline a search_term b Hout)
      as (line & a' & b' & Hin & ->).
    rewrite <- Hc in Hin. fold (split_lines (rd_content file)) in Hin.
    assert ((a' ++ search_term ++ b')%list
            ∈ filter (fun line => contains search_term line = true)
                (split_lines (rd_content file))) as Hf.
    { apply list_elem_of_filter. split; [| exact Hin]. apply contains_spec. eauto. }
    destruct (filter _ _); [inversion Hf | simpl in Hz; lia].
  - intros Hin.
    destruct (filter (fun line => contains search_term line = true)
                (split_lines (rd_content file))) as [|line l] eqn:Ef; [reflexivity |].
    exfalso.
    assert (line ∈ filter (fun line => contains search_term line = true)
                     (split_lines (rd_content file))) as Hf by (rewrite Ef; left).
    apply list_elem_of_filter in Hf as [Hl Hf].
    pose proof (split_on_no_sep newline (rd_content file)) as Hall.
    rewrite Forall_forall in Hall. apply (Hall line Hf).
    apply (contains_elem search_term); assumption.
Qed.

Lemma rating_of_spec (score : Z) :
  0 <= score <= 9 ->
  rating_of score 9
  = if 8 <=? score then RatingExcellent
    else if 6 <=? score then RatingGood
    else if 4 <=? score then RatingFair
    else RatingPoor.
Proof.
  intros Hs.
  assert (score = 0 \/ score = 1 \/ score = 2 \/ score = 3 \/ score = 4
          \/ score = 5 \/ score = 6 \/ score = 7 \/ score = 8 \/ score = 9)
    as Hcases by lia.
  repeat (destruct Hcases as [-> | Hcases]; [vm_compute; reflexivity |]).
  subst score. vm_compute. reflexivity.
Qed.

Lemma score_of_spec (c : checks) :
  0 <= score_of c <= 9
  /\ score_of c = len (filter (fun b : bool => b = true) (check_values c))
  /\ len (check_values c) = 9.
Proof.
  destruct c as [[] [] [] [] [] [] [] [] []]; vm_compute;
    (split; [split; discriminate | split; reflexivity]).
Qed.

(** X29 ([check_readme_quality], lines 1045-1057): the score is the number
    of the nine checks that hold, and it alone decides the rating: eight or
    nine give "ОТЛИЧНО", six or seven "ХОРОШО", four or five
    "УДОВЛЕТВОРИТЕЛЬНО", three or fewer "ТРЕБУЕТ ДОРАБОТКИ". *)
Theorem quality_rating_by_score (result : option readme) (r : quality_report) :
  readme_quality result = QualityReport r ->
  qr_max_score r = 9
  /\ 0 <= qr_score r <= 9
  /\ qr_score r
     = len (filter (fun b : bool => b = true) (check_values (qr_checks r)))
  /\ (qr_rating r = RatingExcellent <-> 8 <= qr_score r)
  /\ (qr_rating r = RatingGood <-> 6 <= qr_score r <= 7)
  /\ (qr_rating r = RatingFair <-> 4 <= qr_score r <= 5)
  /\ (qr_rating r = RatingPoor <-> qr_score r <= 3).
Proof.
  unfold readme_quality. destruct result as [[|file]|]; try discriminate.
  intros E. injection E as <-.
  cbn [qr_max_score qr_score qr_rating qr_checks].
  destruct (score_of_spec (readme_checks (rd_content file))) as (Hs & Hn & Hm).
  rewrite Hm, rating_of_spec by exact Hs.
  split; [reflexivity |]. split; [exact Hs |]. split; [exact Hn |].
  destruct (Z.leb_spec 8 (score_of (readme_checks (rd_content file))));
    [| destruct (Z.leb_spec 6 (score_of (readme_checks (rd_content file))));
       [| destruct (Z.leb_spec 4 (score_of (readme_checks (rd_content file))))]];
    repeat split; intros; try lia; try discriminate; reflexivity.
Qed.

(** X30 ([check_readme_quality], lines 1039-1041): the checks overlap.  The
    test for a fence of three backticks adds nothing to the test for one
    backtick, and a README with the markup of an image, "![", passes the
    check of the links as well as the check of the images. *)
Theorem quality_checks_overlap (content : list char) :
  has_code_examples (readme_checks content) = contains (text_of "`") content
  /\ (contains (text_of "![") content = true ->
      has_images (readme_checks content) = true
      /\ has_links (readme_checks content) = true).
Proof.
  cbn [readme_checks has_code_examples has_images has_links]. split.
  - destruct (contains (text_of "```") content) eqn:E; [| reflexivity].
    symmetry. apply (contains_part _ _ _ E).
    exists [], (text_of "``"). reflexivity.
  - intros E. rewrite E. split; [reflexivity |].
    assert (contains (text_of "[") content = true) as ->.
    { apply (contains_part _ _ _ E). exists (text_of "!"), []. reflexivity. }
    rewrite !orb_true_r. reflexivity.
Qed.

End ReadmeProperties.

(** ** The properties on the sample data

    The statements below run the derivations with the executable date
    library [py_datetime]. *)

#[local] Existing Instance py_datetime.
#[local] Existing Instance Sample.config.

Lemma failure_rate_forces_low_witness :
  get_dora_metrics Sample.clock (Sample.ok []) (Sample.ok Sample.deployments)
    (Sample.ok [Sample.mr_two_days]) TimedOut "42"
    (Some "2024-02-01") (Some "2024-03-01") = Ok Sample.low_report
  /\ (15 < dr_change_failure_rate Sample.low_report)%Q
  /\ dr_devops_level Sample.low_report = Low
  /\ forall freq lead : Q,
      devops_level freq lead (dr_change_failure_rate Sample.low_report) = Low.
Proof.
  assert (E : get_dora_metrics Sample.clock (Sample.ok []) (Sample.ok Sample.deployments)
                (Sample.ok [Sample.mr_two_days]) TimedOut "42"
                (Some "2024-02-01") (Some "2024-03-01") = Ok Sample.low_report)
    by (vm_compute; reflexivity).
  assert (Hc : (15 < dr_change_failure_rate Sample.low_report)%Q)
    by (vm_compute; reflexivity).
  split; [exact E |]. split; [exact Hc |].
  exact (failure_rate_forces_low _ _ _ _ _ _ _ _ _ E Hc).
Defined.

Lemma absent_is_empty_witness :
  returned (Response 500 (Some Sample.merge_requests)) = None
  /\ get_dora_metrics Sample.clock (Sample.ok []) (Sample.ok Sample.deployments)
       (Response 500 (Some Sample.merge_requests)) (Sample.ok []) "42" None None
     = get_dora_metrics Sample.clock (Sample.ok []) (Sample.ok Sample.deployments)
         (Response 200 (Some [])) (Sample.ok []) "42" None None.
Proof.
  assert (Hbad : returned (Response 500 (Some Sample.merge_requests)) = None)
    by reflexivity.
  split; [exact Hbad |].
  destruct (absent_is_empty Sample.clock "42" "2024-02-01" "2024-03-01" None None None None
              (Sample.ok []) (Sample.ok Sample.deployments) (Sample.ok [])
              (Sample.ok []) None None) as [_ Hfetch].
  destruct (Hfetch _ Hbad) as (_ & _ & H2 & _). exact H2.
Defined.

Lemma duration_never_zero_witness :
  get_dora_metrics Sample.clock (Sample.ok [])
    (Sample.ok [Sample.deployment "success"; Sample.deployment "success"])
    (Sample.ok []) (Sample.ok []) "42" (Some "2024-03-01") (Some "2024-03-01")
  = Ok Sample.same_day_report
  /\ Z.max (dr_days_period Sample.same_day_report) 1 = 1
  /\ (dr_deployment_freq Sample.same_day_report == 2 # 1)%Q
  /\ (0 <= dr_deployment_freq Sample.same_day_report)%Q.
Proof.
  assert (E : get_dora_metrics Sample.clock (Sample.ok [])
                (Sample.ok [Sample.deployment "success"; Sample.deployment "success"])
                (Sample.ok []) (Sample.ok []) "42" (Some "2024-03-01")
                (Some "2024-03-01") = Ok Sample.same_day_report)
    by (vm_compute; reflexivity).
  split; [exact E |].
  destruct (duration_never_zero _ _ _ _ _ _ _ _ _ E) as (_ & _ & _ & Hsame & Hf & Hpos).
  split; [apply Hsame; reflexivity |]. split; [exact Hf | exact Hpos].
Defined.

Lemma change_failure_rate_spec_witness :
  get_dora_metrics Sample.clock (Sample.ok []) (Sample.ok Sample.deployments)
    (Sample.ok [Sample.mr_two_days]) TimedOut "42"
    (Some "2024-02-01") (Some "2024-03-01") = Ok Sample.low_report
  /\ Sample.deployments <> []
  /\ (dr_change_failure_rate Sample.low_report == 100 * inject_Z 1 / inject_Z 3)%Q
  /\ (0 <= dr_change_failure_rate Sample.low_report <= 100)%Q.
Proof.
  assert (E : get_dora_metrics Sample.clock (Sample.ok []) (Sample.ok Sample.deployments)
                (Sample.ok [Sample.mr_two_days]) TimedOut "42"
                (Some "2024-02-01") (Some "2024-03-01") = Ok Sample.low_report)
    by (vm_compute; reflexivity).
  assert (Hne : Sample.deployments <> []) by discriminate.
  split; [exact E |]. split; [exact Hne |].
  destruct (change_failure_rate_spec _ _ _ _ _ _ _ _ _ E) as (Hr & _ & Hb & _).
  split; [exact (Hr Hne) | exact Hb].
Defined.

Lemma lead_time_whole_days_witness :
  get_dora_metrics Sample.clock (Sample.ok []) (Sample.ok [])
    (Sample.ok (replicate 10 Sample.mr_two_days)) (Sample.ok []) "42" None None
  = Ok Sample.ten_report
  /\ Forall2 (fun mr e => elapsed "merged_at" mr = Ok e)
       (replicate 10 Sample.mr_two_days) (replicate 10 (Some (2 * us_per_day)))
  /\ dr_avg_lead_time Sample.ten_report = mean_Z (replicate 10 2)
  /\ (dr_avg_lead_time Sample.ten_report == 2)%Q.
Proof.
  assert (E : get_dora_metrics Sample.clock (Sample.ok []) (Sample.ok [])
                (Sample.ok (replicate 10 Sample.mr_two_days)) (Sample.ok []) "42"
                None None = Ok Sample.ten_report)
    by (vm_compute; reflexivity).
  assert (Hes : Forall2 (fun mr e => elapsed "merged_at" mr = Ok e)
                  (replicate 10 Sample.mr_two_days)
                  (replicate 10 (Some (2 * us_per_day))))
    by (repeat constructor).
  split; [exact E |]. split; [exact Hes |].
  destruct (lead_time_whole_days _ _ _ _ _ _ _ _ _ _ E Hes) as (Hmean & _ & Hten).
  split; [exact Hmean |].
  apply Hten; [reflexivity | repeat constructor].
Defined.

(** A merge request merged 36 hours after its creation counts for one day in
    the report, and for a day and a half in the mean of the elapsed days. *)
Lemma lead_time_drops_fractions :
  match get_dora_metrics Sample.clock (Sample.ok []) (Sample.ok [])
          (Sample.ok [Sample.mr_36_hours]) (Sample.ok []) "42" None None,
        spec_lead_time [Sample.mr_36_hours] with
  | Ok r, Ok q =>
      dr_avg_lead_time r = 1%Q /\ (q == 3 # 2)%Q /\ ~ (dr_avg_lead_time r == q)%Q
  | _, _ => False
  end.
Proof.
  vm_compute. split; [reflexivity |]. split; [reflexivity |].
  intros Heq. discriminate Heq.
Qed.

Lemma absent_terminal_timestamp_excluded_witness :
  dora_from_results "42" "2024-02-01" "2024-03-01" None None
    (Some Sample.merge_requests) (Some Sample.incidents)
  = Ok (with_totals Sample.terminated_report 3 2)
  /\ is_ok (dora_from_results "42" "2024-02-01" "2024-03-01" None None
             (Some [Sample.mr_two_days; Sample.mr_bad_created_at]) None) = false
  /\ total_ages Sample.ages = 2.
Proof.
  destruct (absent_terminal_timestamp_excluded "42" "2024-02-01" "2024-03-01"
              None None Sample.merge_requests Sample.incidents Sample.clock
              Sample.issues) as (Hexcl & _ & Hraise & Hages).
  split; [| split].
  - apply Hexcl.
    + intros mr Hin _. cbn [take Sample.merge_requests] in Hin.
      repeat (apply elem_of_cons in Hin as [-> | Hin]);
        [vm_compute; reflexivity .. | apply elem_of_nil in Hin; destruct Hin].
    + intros inc Hin _. unfold Sample.incidents in Hin.
      repeat (apply elem_of_cons in Hin as [-> | Hin]);
        [vm_compute; reflexivity .. | apply elem_of_nil in Hin; destruct Hin].
    + vm_compute. reflexivity.
  - destruct (Hraise [Sample.mr_two_days] Sample.mr_bad_created_at [] "yesterday"
                None None) as [Hmr _]; [reflexivity | reflexivity |].
    apply Hmr. cbn [length]. lia.
  - apply Hages. vm_compute. reflexivity.
Defined.

(** A [created_at] that is not a timestamp makes [get_dora_metrics] raise,
    where the same request without that record gives a report; an open issue
    without [created_at] makes the age histogram raise. *)
Lemma unparsable_timestamp_raises :
  is_ok (get_dora_metrics Sample.clock (Sample.ok []) (Sample.ok [])
           (Sample.ok [Sample.mr_two_days]) (Sample.ok []) "42" None None) = true
  /\ get_dora_metrics Sample.clock (Sample.ok []) (Sample.ok [])
       (Sample.ok [Sample.mr_two_days; Sample.mr_bad_created_at]) (Sample.ok [])
       "42" None None = Raise ValueError
  /\ issue_age_groups Sample.clock
       [Sample.issue "closed" JNull; Sample.issue_no_created_at]
     = Raise (KeyError "created_at").
Proof.
  split; [| split]; vm_compute; reflexivity.
Qed.

Lemma health_score_penalties_witness :
  health_score 10 [] [] [] = 100
  /\ health_score 40 (replicate 16 ∅) (replicate 51 ∅) [Sample.pipeline 7 "failed"] = 10
  /\ health_score 40 (replicate 16 ∅) (replicate 51 ∅) [Sample.pipeline 7 "failed"]
     <= health_score 10 [] [] [] <= 100.
Proof.
  destruct (health_score_penalties 10 40 [] (replicate 16 ∅) [] (replicate 51 ∅)
              [] [Sample.pipeline 7 "failed"]) as (Hf & _ & Hle & Hall & _).
  - lia.
  - intros _. vm_compute. reflexivity.
  - intros _. vm_compute. reflexivity.
  - intros _. reflexivity.
  - split; [exact Hf |]. split; [| exact Hle].
    apply Hall; vm_compute; reflexivity.
Defined.

Lemma health_band_of_score_witness :
  project_health_report Sample.clock (Sample.ok (Sample.project "2024-02-25T10:00:00Z"))
    (Sample.ok (replicate 3 ∅)) (Sample.ok (replicate 2 ∅))
    (Sample.ok [Sample.pipeline 7 "success"]) (Sample.ok [∅]) "42"
  = Ok (HealthReport Sample.healthy_report)
  /\ hr_health_status Sample.healthy_report
     = health_status (hr_health_score Sample.healthy_report)
  /\ (hr_health_status Sample.healthy_report = Excellent
      <-> 80 <= hr_health_score Sample.healthy_report).
Proof.
  assert (E : project_health_report Sample.clock
                (Sample.ok (Sample.project "2024-02-25T10:00:00Z"))
                (Sample.ok (replicate 3 ∅)) (Sample.ok (replicate 2 ∅))
                (Sample.ok [Sample.pipeline 7 "success"]) (Sample.ok [∅]) "42"
              = Ok (HealthReport Sample.healthy_report))
    by (vm_compute; reflexivity).
  split; [exact E |].
  destruct (health_band_of_score _ _ _ _ _ _ _ _ E) as (Hb & He & _).
  split; [exact Hb | exact He].
Defined.

Lemma project_not_found_or_report_witness :
  returned (@Response record 404 None) = None
  /\ project_health_report Sample.clock (Response 404 None)
       (Sample.ok (replicate 3 ∅)) (Sample.ok (replicate 2 ∅))
       (Sample.ok [Sample.pipeline 7 "success"]) (Sample.ok [∅]) "42"
     = Ok (ProjectNotFound "42")
  /\ project_health_report Sample.clock
       (Sample.ok (Sample.project "2024-02-25T10:00:00Z"))
       (Sample.ok (replicate 3 ∅)) (Sample.ok (replicate 2 ∅))
       (Sample.ok [Sample.pipeline 7 "success"]) (Sample.ok [∅]) "42"
     = Ok (HealthReport Sample.healthy_report)
  /\ exists r',
      project_health_report Sample.clock
        (Sample.ok (Sample.project "2024-02-25T10:00:00Z"))
        TimedOut (Sample.ok (replicate 2 ∅)) (TransportError "reset")
        (Response 502 None) "42"
      = Ok (HealthReport r').
Proof.
  assert (Habs : returned (@Response record 404 None) = None) by reflexivity.
  assert (E : project_health_report Sample.clock
                (Sample.ok (Sample.project "2024-02-25T10:00:00Z"))
                (Sample.ok (replicate 3 ∅)) (Sample.ok (replicate 2 ∅))
                (Sample.ok [Sample.pipeline 7 "success"]) (Sample.ok [∅]) "42"
              = Ok (HealthReport Sample.healthy_report))
    by (vm_compute; reflexivity).
  split; [exact Habs |]. split; [| split; [exact E |]].
  - destruct (project_not_found_or_report Sample.clock (Response 404 None)
                (Sample.ok (replicate 3 ∅)) (Sample.ok (replicate 2 ∅))
                (Sample.ok [Sample.pipeline 7 "success"]) (Sample.ok [∅]) "42")
      as (Hnone & _ & _).
    destruct (Hnone Habs) as [Hnf _]. exact Hnf.
  - destruct (project_not_found_or_report Sample.clock
                (Sample.ok (Sample.project "2024-02-25T10:00:00Z"))
                (Sample.ok (replicate 3 ∅)) (Sample.ok (replicate 2 ∅))
                (Sample.ok [Sample.pipeline 7 "success"]) (Sample.ok [∅]) "42")
      as (_ & Hstill & _).
    apply (Hstill _ E); [right | left | right | right]; reflexivity.
Defined.

Lemma failed_fetch_degrades_witness :
  fst (make_gitlab_request "/projects/42/pipelines?per_page=5"
         (@Response (list record) 503 None)) = None
  /\ project_health_report Sample.clock
       (Sample.ok (Sample.project "2024-02-25T10:00:00Z"))
       (Sample.ok (replicate 3 ∅)) (Sample.ok (replicate 2 ∅))
       (Sample.ok [Sample.pipeline 7 "success"]) (Sample.ok [∅]) "42"
     = Ok (HealthReport Sample.healthy_report)
  /\ exists r',
      project_health_report Sample.clock
        (Sample.ok (Sample.project "2024-02-25T10:00:00Z"))
        (Sample.ok (replicate 3 ∅)) (Sample.ok (replicate 2 ∅))
        TimedOut (Sample.ok [∅]) "42"
      = Ok (HealthReport r')
      /\ hr_pipeline_status r' = PipelineUnknown.
Proof.
  assert (E : project_health_report Sample.clock
                (Sample.ok (Sample.project "2024-02-25T10:00:00Z"))
                (Sample.ok (replicate 3 ∅)) (Sample.ok (replicate 2 ∅))
                (Sample.ok [Sample.pipeline 7 "success"]) (Sample.ok [∅]) "42"
              = Ok (HealthReport Sample.healthy_report))
    by (vm_compute; reflexivity).
  destruct (failed_fetch_degrades "/projects/42/pipelines?per_page=5"
              (@Response (list record) 503 None) Sample.clock
              (Sample.ok (Sample.project "2024-02-25T10:00:00Z"))
              (Sample.ok (replicate 3 ∅)) (Sample.ok (replicate 2 ∅))
              (Sample.ok [Sample.pipeline 7 "success"]) (Sample.ok [∅]) "42")
    as [Hnone Hstill].
  split; [| split; [exact E |]].
  - apply Hnone. right. right. exists 503, None. split; [reflexivity | lia].
  - destruct (Hstill _ TimedOut E eq_refl) as (_ & _ & Hpipe & _). exact Hpipe.
Defined.

(** ** The further properties on the sample data *)

Lemma dora_report_produced_iff_witness :
  is_ok (get_dora_metrics Sample.clock (Sample.ok []) (Sample.ok Sample.deployments)
           (Sample.ok Sample.merge_requests) (Sample.ok Sample.incidents) "42"
           None None) = true
  /\ is_ok (get_dora_metrics Sample.clock (Sample.ok []) (Sample.ok Sample.deployments)
             (Sample.ok [Sample.mr_bad_created_at]) (Sample.ok Sample.incidents) "42"
             None None) = false.
Proof.
  split.
  - apply dora_report_produced_iff.
    split; [vm_compute; eauto |]. split; [vm_compute; eauto |].
    split; repeat constructor.
  - destruct (is_ok (get_dora_metrics Sample.clock (Sample.ok [])
                       (Sample.ok Sample.deployments)
                       (Sample.ok [Sample.mr_bad_created_at])
                       (Sample.ok Sample.incidents) "42" None None)) eqn:Hok;
      [| reflexivity].
    apply dora_report_produced_iff in Hok as (_ & _ & Hmr & _).
    apply Forall_cons in Hmr as [Hbad _]. vm_compute in Hbad. discriminate Hbad.
Defined.

Lemma no_deployments_level_witness :
  exists r,
    get_dora_metrics Sample.clock (Sample.ok []) TimedOut
      (Sample.ok Sample.merge_requests) (Sample.ok []) "42" None None = Ok r
    /\ (dr_deployment_freq r == 0)%Q
    /\ (dr_devops_level r = High \/ dr_devops_level r = Medium).
Proof.
  eexists. split; [vm_compute; reflexivity |].
  edestruct (no_deployments_level Sample.clock (Sample.ok []) TimedOut
               (Sample.ok Sample.merge_requests) (Sample.ok []) "42" None None)
    as (Hf & _ & Hl & _); [reflexivity | vm_compute; reflexivity |].
  split; [exact Hf | exact Hl].
Defined.

Lemma default_window_days_witness :
  exists r,
    get_dora_metrics_reads (738947 * us_per_day - 1) (738947 * us_per_day)
      (Sample.ok []) (Sample.ok []) (Sample.ok []) (Sample.ok [])
      "42" None (Some EmptyString) = Ok r
    /\ dr_start_date r = "2024-01-31"
    /\ dr_end_date r = "2024-03-02"
    /\ dr_days_period r = 31.
Proof.
  eexists. split; [vm_compute; reflexivity |].
  edestruct (default_window_days (738947 * us_per_day - 1) (738947 * us_per_day)
               (Sample.ok []) (Sample.ok []) (Sample.ok []) (Sample.ok [])
               "42" None (Some EmptyString))
    as (Hs & He & Hp & _);
    [left; reflexivity | right; reflexivity | vm_compute; reflexivity
    | vm_compute; reflexivity | vm_compute; reflexivity |].
  split; [rewrite Hs; vm_compute; reflexivity |].
  split; [rewrite He; vm_compute; reflexivity |].
  rewrite Hp. vm_compute. reflexivity.
Defined.

Lemma score_matches_warnings_witness :
  exists r,
    project_health_report Sample.clock
      (Sample.ok (Sample.project "2024-01-01T10:00:00Z"))
      (Sample.ok (replicate 16 ∅)) (Sample.ok (replicate 2 ∅))
      (Sample.ok [Sample.pipeline 7 "failed"]) (Sample.ok [∅]) "42"
    = Ok (HealthReport r)
    /\ hr_penalties r = [NoActivity; TooManyMRs; PipelineFailed]
    /\ hr_health_score r = 100 - sum_Z (penalty_points <$> hr_penalties r)
    /\ 10 <= hr_health_score r <= 100.
Proof.
  eexists. split; [vm_compute; reflexivity |]. split; [reflexivity |].
  apply (score_matches_warnings Sample.clock
           (Sample.ok (Sample.project "2024-01-01T10:00:00Z"))
           (Sample.ok (replicate 16 ∅)) (Sample.ok (replicate 2 ∅))
           (Sample.ok [Sample.pipeline 7 "failed"]) (Sample.ok [∅]) "42").
  vm_compute. reflexivity.
Defined.

Lemma band_by_number_of_warnings_witness :
  exists r,
    project_health_report Sample.clock
      (Sample.ok (Sample.project "2024-01-01T10:00:00Z"))
      (Sample.ok (replicate 16 ∅)) (Sample.ok (replicate 2 ∅))
      (Sample.ok [Sample.pipeline 7 "failed"]) (Sample.ok [∅]) "42"
    = Ok (HealthReport r)
    /\ (3 <= length (hr_penalties r))%nat
    /\ hr_health_status r = Critical.
Proof.
  eexists. split; [vm_compute; reflexivity |].
  assert (Hthree : (3 <= 3)%nat) by lia.
  split; [exact Hthree |].
  edestruct (band_by_number_of_warnings Sample.clock
               (Sample.ok (Sample.project "2024-01-01T10:00:00Z"))
               (Sample.ok (replicate 16 ∅)) (Sample.ok (replicate 2 ∅))
               (Sample.ok [Sample.pipeline 7 "failed"]) (Sample.ok [∅]) "42")
    as (_ & _ & Hcrit); [vm_compute; reflexivity |].
  exact (Hcrit Hthree).
Defined.

Lemma no_activity_date_no_warning_witness :
  exists r,
    project_health_report Sample.clock (Sample.ok Cases.silent_project)
      TimedOut TimedOut TimedOut TimedOut "42" = Ok (HealthReport r)
    /\ get_truthy Cases.silent_project "last_activity_at" = false
    /\ hr_activity_days r = 0
    /\ NoActivity ∉ hr_penalties r.
Proof.
  eexists. split; [vm_compute; reflexivity |]. split; [reflexivity |].
  apply (no_activity_date_no_warning Sample.clock (Sample.ok Cases.silent_project)
           TimedOut TimedOut TimedOut TimedOut "42" Cases.silent_project);
    [reflexivity | reflexivity | vm_compute; reflexivity].
Defined.

Lemma five_event_lines_witness :
  exists r,
    project_health_report Sample.clock (Sample.ok Cases.silent_project)
      TimedOut TimedOut TimedOut (Sample.ok (replicate 7 ∅)) "42"
    = Ok (HealthReport r)
    /\ hr_events_count r = 7
    /\ len (hr_events r) = Z.min 5 (hr_events_count r).
Proof.
  eexists. split; [vm_compute; reflexivity |].
  apply (five_event_lines Sample.clock (Sample.ok Cases.silent_project)
           TimedOut TimedOut TimedOut (Sample.ok (replicate 7 ∅)) "42").
  vm_compute. reflexivity.
Defined.

Lemma health_report_returns_iff_witness :
  is_ok (project_health_report Sample.clock (Sample.ok Cases.silent_project)
           TimedOut TimedOut TimedOut
           (Sample.ok (replicate 5 ∅ ++ [<["author" := JNull]> ∅])%list) "42") = true.
Proof.
  apply health_report_returns_iff. vm_compute.
  split; [reflexivity |]. split; [reflexivity |]. repeat constructor.
Defined.


Lemma age_histogram_built_iff_witness :
  is_ok (issue_age_groups Sample.clock Cases.issues) = true
  /\ is_ok (issue_age_groups Sample.clock
             [Sample.issue "opened" (JStr "2024-02-20T00:00:00")]) = false.
Proof.
  split.
  - apply age_histogram_built_iff. unfold Cases.issues.
    repeat constructor.
    + eexists. split; [reflexivity |]. intros _.
      eexists _, _, _. split; [reflexivity |]. split; vm_compute; reflexivity.
    + eexists. split; [reflexivity |]. intros Hopen. discriminate Hopen.
    + eexists. split; [reflexivity |]. intros _.
      eexists _, _, _. split; [reflexivity |]. split; vm_compute; reflexivity.
  - destruct (is_ok (issue_age_groups Sample.clock
                       [Sample.issue "opened" (JStr "2024-02-20T00:00:00")]))
      eqn:Hok; [| reflexivity].
    apply age_histogram_built_iff in Hok. apply Forall_cons in Hok as [Hi _].
    destruct Hi as (state & Hst & Hopen). injection Hst as <-.
    destruct (Hopen eq_refl) as (s & d & offset & Hs & Hd & Hoff).
    injection Hs as <-. vm_compute in Hd. injection Hd as <-.
    discriminate Hoff.
Defined.

Lemma age_histogram_order_witness :
  Permutation Cases.issues Cases.issues_reordered
  /\ issue_age_groups Sample.clock Cases.issues = Ok Sample.ages
  /\ issue_age_groups Sample.clock Cases.issues_reordered = Ok Sample.ages.
Proof.
  assert (Hperm : Permutation Cases.issues Cases.issues_reordered).
  { unfold Cases.issues, Cases.issues_reordered.
    etransitivity; [apply perm_swap |]. apply perm_skip, perm_swap. }
  assert (E : issue_age_groups Sample.clock Cases.issues = Ok Sample.ages)
    by (vm_compute; reflexivity).
  split; [exact Hperm |]. split; [exact E |].
  exact (age_histogram_order Sample.clock _ _ _ Hperm E).
Defined.

Lemma activity_count_of_type_witness :
  exists r,
    get_project_activity (Sample.ok Cases.events)
      (Sample.ok (Sample.project "2024-02-25T10:00:00Z")) "42" = Ok r
    /\ (KStr "pushed to", 2, 200 # 4) ∈ ar_distribution r
    /\ 2 = len (filter (fun e => has_key (KStr "pushed to") (event_type e) = true)
                  Cases.events)
    /\ (200 # 4 == inject_Z 2 / inject_Z 4 * 100)%Q.
Proof.
  eexists. split; [vm_compute; reflexivity |].
  assert (Hin : (KStr "pushed to", 2, 200 # 4)
                ∈ [(KStr "pushed to", 2, 200 # 4); (KStr "joined", 1, 100 # 4);
                   (KStr "commented on", 1, 100 # 4)]) by left.
  split; [exact Hin |].
  edestruct (activity_count_of_type (Sample.ok Cases.events)
               (Sample.ok (Sample.project "2024-02-25T10:00:00Z")) "42")
    as (Hn & _ & Hq); [vm_compute; reflexivity | exact Hin |].
  split; [exact Hn | exact Hq].
Defined.

Lemma activity_distribution_adds_up_witness :
  exists r,
    get_project_activity (Sample.ok Cases.events)
      (Sample.ok (Sample.project "2024-02-25T10:00:00Z")) "42" = Ok r
    /\ total_count (fst <$> ar_distribution r) = ar_events r
    /\ ar_types r <= ar_events r
    /\ (sum_Q (snd <$> ar_distribution r) == 100)%Q.
Proof.
  eexists. split; [vm_compute; reflexivity |].
  edestruct (activity_distribution_adds_up (Sample.ok Cases.events)
               (Sample.ok (Sample.project "2024-02-25T10:00:00Z")) "42")
    as (Ht & _ & _ & _ & Hle & Hs); [vm_compute; reflexivity |].
  split; [exact Ht |]. split; [exact Hle |]. apply Hs. reflexivity.
Defined.

Lemma activity_needs_action_names_witness :
  exists r,
    get_project_activity (Sample.ok Cases.events)
      (Sample.ok (Sample.project "2024-02-25T10:00:00Z")) "42" = Ok r
    /\ Forall (fun e => exists action,
                 e !! "action_name" = Some action
                 /\ is_ok (hash_key action) = true) Cases.events.
Proof.
  eexists. split; [vm_compute; reflexivity |].
  eapply (activity_needs_action_names (Sample.ok Cases.events)
            (Sample.ok (Sample.project "2024-02-25T10:00:00Z")) "42").
  vm_compute. reflexivity.
Defined.

Lemma recent_activity_lines_witness :
  exists r,
    get_project_activity (Sample.ok Cases.events)
      (Sample.ok (Sample.project "2024-02-25T10:00:00Z")) "42" = Ok r
    /\ len (ar_recent r) <= 5
    /\ Forall (fun line => exists s, s ∈ IMPORTANT_ACTIONS /\ snd (fst line) = JStr s)
              (ar_recent r).
Proof.
  eexists. split; [vm_compute; reflexivity |].
  apply (recent_activity_lines (Sample.ok Cases.events)
           (Sample.ok (Sample.project "2024-02-25T10:00:00Z")) "42").
  vm_compute. reflexivity.
Defined.

Lemma activity_without_events_witness :
  or_empty (returned (@TimedOut (list record))) = []
  /\ exists name,
      get_project_activity TimedOut
        (Sample.ok (Sample.project "2024-02-25T10:00:00Z")) "42"
      = Ok {| ar_project_name := name; ar_events := 0; ar_types := 0;
              ar_distribution := []; ar_recent := [] |}.
Proof.
  assert (Hnone : or_empty (returned (@TimedOut (list record))) = []) by reflexivity.
  split; [exact Hnone |].
  exact (activity_without_events TimedOut
           (Sample.ok (Sample.project "2024-02-25T10:00:00Z")) "42" Hnone).
Defined.

Lemma merge_request_rates_witness :
  exists r,
    analyze_merge_requests (Sample.ok Cases.merge_requests) "42" "week"
    = Ok (MergeRequestReport r)
    /\ mr_opened r + mr_merged r + mr_closed r <= mr_total r
    /\ (0 <= mr_merged_share r <= mr_merge_rate r)%Q
    /\ (mr_merge_rate r <= 100)%Q.
Proof.
  eexists. split; [vm_compute; reflexivity |].
  edestruct (merge_request_rates (Sample.ok Cases.merge_requests) "42" "week")
    as (_ & _ & _ & _ & Hsum & Hshare & Hrate); [vm_compute; reflexivity |].
  split; [exact Hsum |]. split; [exact Hshare | exact Hrate].
Defined.

Lemma review_time_skips_undated_witness :
  review_times Cases.merge_requests
  = review_times [Cases.merged "2024-02-01T00:00:00Z" "2024-02-02T12:00:00Z"]
  /\ analyze_merge_requests (Sample.ok [Cases.merge_request "opened"; ∅]) "42" "week"
     = Raise (KeyError "state")
  /\ exists mr, mr ∈ [Cases.merge_request "opened"; ∅] /\ mr !! "state" = None.
Proof.
  destruct (review_time_skips_undated
              (Sample.ok [Cases.merge_request "opened"; ∅]) "42" "week")
    as [Hskip Hkey].
  assert (E : analyze_merge_requests (Sample.ok [Cases.merge_request "opened"; ∅])
                "42" "week" = Raise (KeyError "state"))
    by (vm_compute; reflexivity).
  split; [rewrite (Hskip Cases.merge_requests); reflexivity |].
  split; [exact E |]. destruct (Hkey "state" E) as [_ Hmr]. exact Hmr.
Defined.

Lemma changes_count_text_raises_witness :
  Cases.sized ∈ (Cases.merge_requests ++ [Cases.sized])%list
  /\ is_ok (analyze_merge_requests (Sample.ok Cases.merge_requests) "42" "week") = true
  /\ is_ok (analyze_merge_requests
             (Sample.ok (Cases.merge_requests ++ [Cases.sized])%list) "42" "week")
     = false.
Proof.
  assert (Hin : Cases.sized ∈ (Cases.merge_requests ++ [Cases.sized])%list).
  { apply elem_of_app. right. left. }
  split; [exact Hin |]. split; [vm_compute; reflexivity |].
  apply (changes_count_text_raises
           (Sample.ok (Cases.merge_requests ++ [Cases.sized])%list) "42" "week"
           Cases.sized "12"); [exact Hin | reflexivity | reflexivity | discriminate].
Defined.

Lemma pipeline_success_rate_witness :
  exists r,
    monitor_pipelines (Sample.ok Cases.pipelines) "42" = Ok (PipelineReport r)
    /\ pr_total r = 6
    /\ (pr_success_rate r == 50)%Q
    /\ (0 <= pr_success_rate r <= 100)%Q
    /\ pr_many_failed r = false.
Proof.
  eexists. split; [vm_compute; reflexivity |]. split; [reflexivity |].
  edestruct (pipeline_success_rate (Sample.ok Cases.pipelines) "42")
    as (_ & Hrate & Hrange & _ & _); [vm_compute; reflexivity |].
  split; [rewrite Hrate; vm_compute; reflexivity |].
  split; [exact Hrange | reflexivity].
Defined.

Lemma pipeline_lines_need_keys_witness :
  exists r,
    monitor_pipelines (Sample.ok Cases.pipelines) "42" = Ok (PipelineReport r)
    /\ len (pr_recent r) = 5
    /\ (KStr "unknown", 1, 100 # 6) ∈ pr_distribution r
    /\ Forall (fun p => is_Some (p !! "status") /\ is_Some (p !! "id")
                        /\ is_Some (p !! "ref")) (take 5 Cases.pipelines).
Proof.
  eexists. split; [vm_compute; reflexivity |].
  edestruct (pipeline_lines_need_keys (Sample.ok Cases.pipelines) "42")
    as (Hlen & Hkeys & _); [vm_compute; reflexivity |].
  split; [exact Hlen |]. split; [| exact Hkeys].
  vm_compute. do 3 right. left.
Defined.

Lemma nothing_received_witness :
  or_empty (returned (@Response (list record) 500 None)) = []
  /\ analyze_merge_requests (Response 500 None) "42" "year"
     = Ok (NoMergeRequests 30 "42")
  /\ monitor_pipelines (Response 500 None) "42" = Ok (NoPipelines "42").
Proof.
  assert (Hnone : or_empty (returned (@Response (list record) 500 None)) = [])
    by reflexivity.
  destruct (nothing_received (Response 500 None) "42" "year" Hnone)
    as (Hmr & Hp & _ & Hdays).
  split; [exact Hnone |]. split; [| exact Hp].
  rewrite Hmr, Hdays by discriminate. reflexivity.
Defined.

(** ** The properties of the README tools on the sample data *)

#[local] Existing Instance ascii_text.

Lemma readme_tree_failures_raised_witness :
  get_project_readme_content (@Response (list record) 404 None) Readmes.files
    "42" "main" = Returned None
  /\ get_project_readme_content (@Response (list record) 500 None) Readmes.files
       "42" "main" = Raised (HttpRaised (HTTPStatusError 500)).
Proof.
  destruct (readme_tree_failures_raised (@Response (list record) 404 None)
              Readmes.files "42" "main") as [Hnone _].
  destruct (readme_tree_failures_raised (@Response (list record) 500 None)
              Readmes.files "42" "main") as [_ Hraised].
  split; [apply Hnone; reflexivity | apply Hraised; reflexivity].
Defined.

Lemma readme_choice_witness :
  exists file,
    get_project_readme_content (Response 200 (Some Readmes.tree)) Readmes.files
      "42" "main" = Returned (Some (ReadmeSuccess file))
    /\ rd_filename file = "Readme.md"
    /\ rd_size_bytes file = len (rd_content file).
Proof.
  eexists. split; [vm_compute; reflexivity |].
  edestruct (readme_choice (Response 200 (Some Readmes.tree)) Readmes.files
               "42" "main" Readmes.tree) as (_ & Hsize & _);
    [reflexivity | vm_compute; reflexivity |].
  split; [reflexivity | exact Hsize].
Defined.

Lemma readme_shortened_witness :
  exists r,
    read_project_readme (Response 200 (Some Readmes.tree)) Readmes.files
      "42" "main" (Some 6) = Returned (Shown r)
    /\ len (sh_content r) = 6
    /\ sh_shortened r = Some 146.
Proof.
  eexists. split; [vm_compute; reflexivity |].
  edestruct (readme_shortened (Response 200 (Some Readmes.tree)) Readmes.files
               "42" "main" (Some 6)) as (_ & _ & Hcut & _);
    [vm_compute; reflexivity | vm_compute; reflexivity |].
  destruct Hcut as [Hlen Hall]; [split; reflexivity |].
  split; [exact Hlen | exact Hall].
Defined.

Lemma search_counts_lines_witness :
  exists r,
    search_readme (Some (ReadmeSuccess Readmes.readme)) Readmes.demo false
    = SearchReport r
    /\ sr_found r = 3
    /\ len (sr_shown r) = Z.min 10 (sr_found r)
    /\ sr_more r = None.
Proof.
  eexists. split; [vm_compute; reflexivity |].
  edestruct (search_counts_lines (Some (ReadmeSuccess Readmes.readme))
               Readmes.demo false) as (file & _ & _ & Hshown & Hmore & _);
    [vm_compute; reflexivity |].
  split; [reflexivity |]. split; [exact Hshown |].
  apply Hmore. discriminate.
Defined.

Lemma search_context_shows_term_witness :
  exists r m,
    search_readme (Some (ReadmeSuccess Readmes.readme)) Readmes.demo true
    = SearchReport r
    /\ sr_shown r !! 0%nat = Some m
    /\ m_line m = 7
    /\ m_position m = Some 16%nat
    /\ contains Readmes.demo (m_context m) = true.
Proof.
  eexists. eexists. split; [vm_compute; reflexivity |].
  split; [reflexivity |].
  edestruct (search_context_shows_term Readmes.readme Readmes.demo)
    as (line & before & after & _ & _ & _ & _ & Hcontext & _);
    [vm_compute; reflexivity | left |].
  split; [reflexivity |]. split; [reflexivity | exact Hcontext].
Defined.

Lemma search_across_lines_witness :
  exists r,
    search_readme (Some (ReadmeSuccess Readmes.readme)) Readmes.across true
    = SearchReport r
    /\ sr_found r = 0
    /\ sr_shown r = [].
Proof.
  eexists. split; [vm_compute; reflexivity |].
  edestruct (search_across_lines Readmes.readme Readmes.across) as [Hiff Hnone];
    [vm_compute; reflexivity |].
  assert (newline ∈ Readmes.across) as Hin by (do 5 right; left).
  split; [apply Hiff; exact Hin | apply Hnone, Hiff; exact Hin].
Defined.

Lemma quality_rating_by_score_witness :
  exists r,
    readme_quality (Some (ReadmeSuccess Readmes.readme)) = QualityReport r
    /\ qr_score r = 9
    /\ qr_rating r = RatingExcellent.
Proof.
  eexists. split; [vm_compute; reflexivity |].
  edestruct (quality_rating_by_score (Some (ReadmeSuccess Readmes.readme)))
    as (_ & _ & _ & Hrating & _); [vm_compute; reflexivity |].
  split; [reflexivity |]. apply Hrating. discriminate.
Defined.

Lemma quality_checks_overlap_witness :
  has_images (readme_checks Readmes.text) = true
  /\ has_links (readme_checks Readmes.text) = true.
Proof.
  destruct (quality_checks_overlap Readmes.text) as [_ Himage].
  apply Himage. vm_compute. reflexivity.
Defined.
